(** * Hephaestus management scripts: completion, staleness and recovery

    A shallow embedding of the four operator scripts under
    [scripts/management/]:

    - [check_workflow_status.py]   (completion verdicts, two sources)
    - [restart_stalled_workflow.py] (failed-task reset, "Flow A")
    - [cleanup_stale_worktrees.py] (staleness detector)
    - [restart_stalled_agents.py]  (stalled-agent restart, "Flow B")

    and of the provider and key checks of [src/core/simple_config.py].

    Tables of the persisted store are lists of rows, queries are filters
    over them, Python dictionaries with a fixed key set are records or
    tagged unions, and every external collaborator (HTTP endpoint, commit,
    queue, git, filesystem) is an explicit input of the function that
    calls it. *)

From Stdlib Require Import ZArith List String Ascii Bool Lia.
From Stdlib Require Import Floats.SpecFloat.
From Stdlib Require Import Sorting.Sorted Sorting.Permutation.
Import ListNotations.

Open Scope string_scope.
Open Scope list_scope.
Open Scope Z_scope.

(* ================================================================= *)
(** * Python values and builtins the scripts rely on *)
(* ================================================================= *)

Module Py.

(** Truthiness of an [Optional[str]]: [None] and the empty string are
    falsy. *)
Definition truthy (s : option string) : bool :=
  match s with
  | Some (String _ _) => true
  | _ => false
  end.

(** [d.get(key, default)] on a key that may be absent. *)
Definition get {A : Type} (field : option A) (default : A) : A :=
  match field with
  | Some v => v
  | None => default
  end.

(** [s[:n]] on a string. *)
Definition take (n : nat) (s : string) : string := substring 0 n s.

(** [a in b] on strings: [a] occurs somewhere inside [b]. *)
Definition contains (a b : string) : bool :=
  match index 0 a b with
  | Some _ => true
  | None => false
  end.

(** [s.split(sep)] for a non-empty separator.  [skip] counts the
    characters of a matched separator that are still to be dropped, [cur]
    is the piece being read. *)
Fixpoint split_from (sep : string) (skip : nat) (cur s : string) : list string :=
  match s with
  | EmptyString => [cur]
  | String c rest =>
      match skip with
      | S k => split_from sep k cur rest
      | O =>
          if prefix sep s
          then cur :: split_from sep (Nat.pred (String.length sep)) EmptyString rest
          else split_from sep O (cur ++ String c EmptyString)%string rest
      end
  end.

Definition split (sep s : string) : list string := split_from sep O EmptyString s.

(** Exceptions that cross a function boundary in the scripts. *)
Inductive exn : Type :=
| ZeroDivisionError
| OverflowError
| Exception (msg : string).

(** [str(e)] *)
Definition str (e : exn) : string :=
  match e with
  | ZeroDivisionError => "division by zero"
  | OverflowError => "integer division result too large for a float"
  | Exception msg => msg
  end.

(** A computation either returns or raises. *)
Inductive outcome (A : Type) : Type :=
| Returns (a : A)
| Raises (e : exn).
Arguments Returns {A} a.
Arguments Raises {A} e.

Definition bind {A B : Type} (c : outcome A) (k : A -> outcome B) : outcome B :=
  match c with
  | Returns a => k a
  | Raises e => Raises e
  end.

(** Numbers: [int] is unbounded, [float] is IEEE 754 binary64. *)
Inductive num : Type :=
| Int (z : Z)
| Float (f : spec_float).

Definition prec : Z := 53.
Definition emax : Z := 1024.

(** [float(n)]: nearest binary64, ties to even (exact below [2^53]). *)
Definition float_of_int (n : Z) : spec_float :=
  binary_normalize prec emax n 0 false.

(** The integer [n] itself as a binary number [n * 2^0], not rounded. *)
Definition exact_int (n : Z) : spec_float :=
  match n with
  | Z0 => S754_zero false
  | Zpos p => S754_finite false p 0
  | Zneg p => S754_finite true p 0
  end.

(** The least magnitude that rounds beyond the largest binary64: halfway
    between [(2^53 - 1) * 2^971] and [2^1024]. *)
Definition overflow_threshold : Z := (2 ^ 54 - 1) * 2 ^ 970.

(** [a / b] on two ints: true division.  The exact quotient of the two
    integers is rounded once to the nearest binary64, ties to even;
    [ZeroDivisionError] on [b == 0], [OverflowError] when the quotient is
    too large for a float. *)
Definition truediv (a b : Z) : outcome spec_float :=
  if b =? 0 then Raises ZeroDivisionError
  else if overflow_threshold * Z.abs b <=? Z.abs a then Raises OverflowError
  else Returns (SFdiv prec emax (exact_int a) (exact_int b)).

(** [x * n] with [x] a float and [n] an int below [2^53]. *)
Definition mul_int (x : spec_float) (n : Z) : spec_float :=
  SFmul prec emax x (float_of_int n).

(** [sum(...)] over ints. *)
Definition sum (l : list Z) : Z := fold_left Z.add l 0.

End Py.

Notation "x <- c ;; k" := (Py.bind c (fun x => k))
  (at level 61, c at next level, right associativity).

(* ================================================================= *)
(** * The persisted store *)
(* ================================================================= *)

(** Modelled from the spec: [src/core/database.py] (the ORM classes
    [Workflow], [Phase], [Task], [WorkflowResult], [Agent],
    [AgentWorktree] and [DatabaseManager]) is not among the sources.
    Each class carries the attributes the scripts read or write, with the
    entity descriptions of the data model; statuses are the strings the
    scripts compare against. *)
Module Database.

Module Workflow.
Record t : Type := { id : string; name : string; status : string }.
End Workflow.

Module Phase.
Record t : Type :=
  { id : string; workflow_id : string; order : Z; name : string }.
End Phase.

Module Task.
Record t : Type :=
  { id : string;
    phase_id : string;
    status : string;
    raw_description : option string;
    enriched_description : option string;
    failure_reason : option string;
    assigned_agent_id : option string;
    started_at : option Z;
    completed_at : option Z;
    blocked_by : option string }.
End Task.

Module WorkflowResult.
Record t : Type :=
  { id : string; workflow_id : string; status : string;
    summary : option string }.
End WorkflowResult.

Module Agent.
Record t : Type :=
  { id : string; status : string; current_task_id : option string }.
End Agent.

Module AgentWorktree.
Record t : Type :=
  { agent_id : string;
    worktree_path : string;
    branch_name : string;
    merge_status : string }.
End AgentWorktree.

(** The committed contents of the store, one list of rows per table. *)
Record Store : Type :=
  { workflows : list Workflow.t;
    phases : list Phase.t;
    tasks : list Task.t;
    workflow_results : list WorkflowResult.t;
    agents : list Agent.t;
    worktrees : list AgentWorktree.t }.

(** [query.first()] *)
Definition first {A : Type} (rows : list A) : option A := hd_error rows.

(** [query.count()] *)
Definition count {A : Type} (rows : list A) : Z := Z.of_nat (List.length rows).

(** [column.in_([...])] *)
Definition in_ (value : string) (choices : list string) : bool :=
  existsb (String.eqb value) choices.

(** [order_by(Phase.order)]: a stable insertion sort on [order]. *)
Fixpoint insert_by_order (p : Phase.t) (l : list Phase.t) : list Phase.t :=
  match l with
  | [] => [p]
  | q :: l' =>
      if Phase.order p <? Phase.order q then p :: l
      else q :: insert_by_order p l'
  end.

Definition order_by_order (l : list Phase.t) : list Phase.t :=
  fold_right insert_by_order [] l.

End Database.

(* ================================================================= *)
(** * check_workflow_status.py *)
(* ================================================================= *)

Module CheckWorkflowStatus.
Import Database.

(** ** The JSON body of [GET /api/workflow]

    A key that is absent from the body is [None]; [.get(key, default)]
    then yields the default.  Counts are JSON integers. *)
Module ApiPhase.
Record t : Type :=
  { total_tasks : option Z;
    completed_tasks : option Z;
    active_tasks : option Z;
    pending_tasks : option Z }.
End ApiPhase.

Module WorkflowInfo.
Record t : Type :=
  { status : option string;
    phases : option (list ApiPhase.t) }.
End WorkflowInfo.

(** What the HTTP round trip of [check_workflow_completion_via_api]
    produces: no client library at all ([HAS_HTTPX is None]), an exception
    (connection error, timeout, [raise_for_status], malformed body), or
    the decoded body. *)
Inductive HttpResponse : Type :=
| NoHttpLibrary
| RequestRaises (e : Py.exn)
| Body (workflow_info : WorkflowInfo.t).

(** ** Returned dictionaries *)

(** One entry of ["phases"] in the store-backed result. *)
Module PhaseStatus.
Record t : Type :=
  { phase_id : string;
    phase_order : Z;
    phase_name : string;
    total_tasks : Z;
    completed_tasks : Z;
    active_tasks : Z;
    pending_tasks : Z;
    complete : bool }.
End PhaseStatus.

(** The ["progress"] dictionary. *)
Module Progress.
Record t : Type :=
  { total_tasks : Z;
    completed_tasks : Z;
    active_tasks : Z;
    pending_tasks : Z;
    completion_percentage : Py.num }.
End Progress.

(** The keys a result carries besides ["complete"] and ["reason"]; one
    constructor per [return] statement shape. *)
Inductive Keys : Type :=
| Error (error : string)
| ApiInfo (workflow_info : WorkflowInfo.t)
| ApiProgress (workflow_info : WorkflowInfo.t) (progress : Progress.t)
| NoWorkflow
| MarkedCompleted (workflow_id workflow_name status : string)
| ValidatedResult (workflow_id workflow_name result_id : string)
    (result_summary : option string)
| PhasesDone (workflow_id workflow_name : string)
    (phases : list PhaseStatus.t)
| DbProgress (workflow_id workflow_name status : string)
    (phases : list PhaseStatus.t) (progress : Progress.t).

Record Result : Type :=
  { complete : bool; reason : string; keys : Keys }.

(** [x == "literal"] where [x] came from [.get(key)] and may be [None]. *)
Definition eq_str (x : option string) (literal : string) : bool :=
  match x with
  | Some s => String.eqb s literal
  | None => false
  end.

(** [(completed_tasks / total_tasks * 100) if total_tasks > 0 else 0],
    the expression both evaluations use for ["completion_percentage"]. *)
Definition completion_percentage (completed_tasks total_tasks : Z)
  : Py.outcome Py.num :=
  if total_tasks >? 0
  then q <- Py.truediv completed_tasks total_tasks ;;
       Py.Returns (Py.Float (Py.mul_int q 100))
  else Py.Returns (Py.Int 0).

(** ** Remote view *)

(** The condition under [all(...)] for one reported phase. *)
Definition api_phase_complete (phase : ApiPhase.t) : bool :=
  (Py.get (ApiPhase.completed_tasks phase) 0 >? 0)
  && (Py.get (ApiPhase.active_tasks phase) 0 =? 0)
  && (Py.get (ApiPhase.pending_tasks phase) 0 =? 0).

(** The statements of the [try] block after the body was decoded. *)
Definition api_evaluate (workflow_info : WorkflowInfo.t) : Py.outcome Result :=
  if eq_str (WorkflowInfo.status workflow_info) "inactive" then
    Py.Returns {| complete := true;
                  reason := "No active workflow";
                  keys := ApiInfo workflow_info |}
  else if eq_str (WorkflowInfo.status workflow_info) "completed" then
    Py.Returns {| complete := true;
                  reason := "Workflow marked as completed";
                  keys := ApiInfo workflow_info |}
  else
    let phases := Py.get (WorkflowInfo.phases workflow_info) [] in
    let all_phases_complete := forallb api_phase_complete phases in
    if all_phases_complete && (Z.of_nat (List.length phases) >? 0) then
      Py.Returns {| complete := true;
                    reason := "All phases complete (all tasks done)";
                    keys := ApiInfo workflow_info |}
    else
      let total_tasks :=
        Py.sum (map (fun p => Py.get (ApiPhase.total_tasks p) 0) phases) in
      let completed_tasks :=
        Py.sum (map (fun p => Py.get (ApiPhase.completed_tasks p) 0) phases) in
      let active_tasks :=
        Py.sum (map (fun p => Py.get (ApiPhase.active_tasks p) 0) phases) in
      let pending_tasks :=
        Py.sum (map (fun p => Py.get (ApiPhase.pending_tasks p) 0) phases) in
      pct <- completion_percentage completed_tasks total_tasks ;;
      Py.Returns
        {| complete := false;
           reason := "Workflow still in progress";
           keys := ApiProgress workflow_info
                     {| Progress.total_tasks := total_tasks;
                        Progress.completed_tasks := completed_tasks;
                        Progress.active_tasks := active_tasks;
                        Progress.pending_tasks := pending_tasks;
                        Progress.completion_percentage := pct |} |}.

(** [check_workflow_completion_via_api]: the [try] block, and the
    [except Exception] handler that turns anything raised into a
    non-complete result.  The argument [workflow_id] is not used by the
    source either. *)
Definition check_workflow_completion_via_api
  (http : HttpResponse) (workflow_id : option string) : Result :=
  let attempt :=
    match http with
    | NoHttpLibrary =>
        Py.Returns
          {| complete := false;
             reason := "Cannot check via API";
             keys := Error "No HTTP library available (httpx or urllib)" |}
    | RequestRaises e => Py.Raises e
    | Body workflow_info => api_evaluate workflow_info
    end in
  match attempt with
  | Py.Returns r => r
  | Py.Raises e =>
      {| complete := false;
         reason := "Failed to check workflow status";
         keys := Error (Py.str e) |}
  end.

(** ** Store view *)

(** The four [count()] queries of the loop body. *)
Definition total_tasks_of (db : Store) (phase : Phase.t) : Z :=
  count (filter (fun t => String.eqb (Task.phase_id t) (Phase.id phase))
                (tasks db)).

Definition completed_tasks_of (db : Store) (phase : Phase.t) : Z :=
  count (filter (fun t => String.eqb (Task.phase_id t) (Phase.id phase)
                          && String.eqb (Task.status t) "done")
                (tasks db)).

Definition active_tasks_of (db : Store) (phase : Phase.t) : Z :=
  count (filter (fun t => in_ (Task.status t) ["assigned"; "in_progress"])
           (filter (fun t => String.eqb (Task.phase_id t) (Phase.id phase))
                   (tasks db))).

Definition pending_tasks_of (db : Store) (phase : Phase.t) : Z :=
  count (filter (fun t => String.eqb (Task.phase_id t) (Phase.id phase)
                          && String.eqb (Task.status t) "pending")
                (tasks db)).

(** One iteration of [for phase in phases]; the loop state is
    [(phase_statuses, all_phases_complete)]. *)
Definition phase_step (db : Store)
  (state : list PhaseStatus.t * bool) (phase : Phase.t)
  : list PhaseStatus.t * bool :=
  let '(phase_statuses, all_phases_complete) := state in
  let total_tasks := total_tasks_of db phase in
  let completed_tasks := completed_tasks_of db phase in
  let active_tasks := active_tasks_of db phase in
  let pending_tasks := pending_tasks_of db phase in
  let phase_complete :=
    (completed_tasks >? 0) && (active_tasks =? 0) && (pending_tasks =? 0) in
  let all_phases_complete :=
    if negb phase_complete then false else all_phases_complete in
  (phase_statuses ++
     [ {| PhaseStatus.phase_id := Phase.id phase;
          PhaseStatus.phase_order := Phase.order phase;
          PhaseStatus.phase_name := Phase.name phase;
          PhaseStatus.total_tasks := total_tasks;
          PhaseStatus.completed_tasks := completed_tasks;
          PhaseStatus.active_tasks := active_tasks;
          PhaseStatus.pending_tasks := pending_tasks;
          PhaseStatus.complete := phase_complete |} ],
   all_phases_complete).

(** The workflow the evaluation is about: looked up by id when a truthy
    [workflow_id] is given, otherwise the first one that is active or
    paused. *)
Definition select_workflow (db : Store) (workflow_id : option string)
  : option Workflow.t :=
  if Py.truthy workflow_id then
    first (filter (fun w => eq_str workflow_id (Workflow.id w)) (workflows db))
  else
    first (filter (fun w => in_ (Workflow.status w) ["active"; "paused"])
                  (workflows db)).

Definition validated_result_of (db : Store) (workflow : Workflow.t)
  : option WorkflowResult.t :=
  first (filter (fun r =>
                   String.eqb (WorkflowResult.workflow_id r) (Workflow.id workflow)
                   && String.eqb (WorkflowResult.status r) "validated")
                (workflow_results db)).

Definition phases_of (db : Store) (workflow : Workflow.t) : list Phase.t :=
  order_by_order
    (filter (fun p => String.eqb (Phase.workflow_id p) (Workflow.id workflow))
            (phases db)).

(** [check_workflow_completion_via_db]; there is no handler, so what the
    body raises leaves the function. *)
Definition check_workflow_completion_via_db
  (db : Store) (workflow_id : option string) : Py.outcome Result :=
  match select_workflow db workflow_id with
  | None =>
      Py.Returns {| complete := true;
                    reason := "No active workflow found";
                    keys := NoWorkflow |}
  | Some workflow =>
      if String.eqb (Workflow.status workflow) "completed" then
        Py.Returns
          {| complete := true;
             reason := "Workflow marked as completed";
             keys := MarkedCompleted (Workflow.id workflow)
                       (Workflow.name workflow) (Workflow.status workflow) |}
      else
        match validated_result_of db workflow with
        | Some validated_result =>
            Py.Returns
              {| complete := true;
                 reason := "Workflow has validated result";
                 keys := ValidatedResult (Workflow.id workflow)
                           (Workflow.name workflow)
                           (WorkflowResult.id validated_result)
                           (if Py.truthy (WorkflowResult.summary validated_result)
                            then option_map (Py.take 100)
                                   (WorkflowResult.summary validated_result)
                            else None) |}
        | None =>
            let phases := phases_of db workflow in
            let '(phase_statuses, all_phases_complete) :=
              fold_left (phase_step db) phases ([], true) in
            if all_phases_complete && (Z.of_nat (List.length phases) >? 0) then
              Py.Returns
                {| complete := true;
                   reason := "All phases complete (all tasks done)";
                   keys := PhasesDone (Workflow.id workflow)
                             (Workflow.name workflow) phase_statuses |}
            else
              let total_tasks :=
                Py.sum (map PhaseStatus.total_tasks phase_statuses) in
              let completed_tasks :=
                Py.sum (map PhaseStatus.completed_tasks phase_statuses) in
              let active_tasks :=
                Py.sum (map PhaseStatus.active_tasks phase_statuses) in
              let pending_tasks :=
                Py.sum (map PhaseStatus.pending_tasks phase_statuses) in
              pct <- completion_percentage completed_tasks total_tasks ;;
              Py.Returns
                {| complete := false;
                   reason := "Workflow still in progress";
                   keys := DbProgress (Workflow.id workflow)
                             (Workflow.name workflow)
                             (Workflow.status workflow) phase_statuses
                             {| Progress.total_tasks := total_tasks;
                                Progress.completed_tasks := completed_tasks;
                                Progress.active_tasks := active_tasks;
                                Progress.pending_tasks := pending_tasks;
                                Progress.completion_percentage := pct |} |}
        end
  end.

(** ** The reporter, [main] *)

(** [--method], restricted by argparse to these three choices. *)
Inductive Method : Type := api | db | both.

Definition method_name (m : Method) : string :=
  match m with
  | api => "api"
  | db => "db"
  | both => "both"
  end.

Record Args : Type :=
  { workflow_id : option string; method : Method; json : bool }.

(** What the two sources answer during one invocation. *)
Record Env : Type := { http : HttpResponse; store : Store }.

(** A call of one of the two evaluations, in the order they are made. *)
Inductive Call : Type :=
| ViaApi (workflow_id : option string)
| ViaDb (workflow_id : option string).

(** Presence and value of the optional keys [main] looks for. *)
Definition key_workflow_id (k : Keys) : option (option string) :=
  match k with
  | NoWorkflow => Some None
  | MarkedCompleted i _ _ | ValidatedResult i _ _ _
  | PhasesDone i _ _ | DbProgress i _ _ _ _ => Some (Some i)
  | Error _ | ApiInfo _ | ApiProgress _ _ => None
  end.

Definition key_workflow_name (k : Keys) : option string :=
  match k with
  | MarkedCompleted _ n _ | ValidatedResult _ n _ _
  | PhasesDone _ n _ | DbProgress _ n _ _ _ => Some n
  | Error _ | ApiInfo _ | ApiProgress _ _ | NoWorkflow => None
  end.

Definition key_status (k : Keys) : option string :=
  match k with
  | MarkedCompleted _ _ s | DbProgress _ _ s _ _ => Some s
  | _ => None
  end.

Definition key_progress (k : Keys) : option Progress.t :=
  match k with
  | ApiProgress _ p | DbProgress _ _ _ _ p => Some p
  | _ => None
  end.

Definition key_phases (k : Keys) : option (list PhaseStatus.t) :=
  match k with
  | PhasesDone _ _ ps | DbProgress _ _ _ ps _ => Some ps
  | _ => None
  end.

(** One [print] of the human-readable report, with the values it
    interpolates (number and icon formatting is left to the printer). *)
Inductive Line : Type :=
| Rule
| MethodLine (method_upper : string)
| WorkflowIsComplete
| WorkflowInProgress
| ReasonLine (reason : string)
| WorkflowIdLine (workflow_id : option string)
| WorkflowNameLine (workflow_name : string)
| StatusLine (status : string)
| ProgressHeader
| TotalTasksLine (n : Z)
| CompletedLine (n : Z)
| ActiveLine (n : Z)
| PendingLine (n : Z)
| CompletionLine (percentage : Py.num)
| PhaseStatusHeader
| PhaseLine (complete : bool) (phase_order : Z) (phase_name : string)
| PhaseTasksLine (completed total active pending : Z)
| TipFrontend
| TipApi.

(** What the invocation writes: [json.dumps(results)] or the lines. *)
Inductive Output : Type :=
| JsonDump (results : list (string * Result))
| HumanReadable (lines : list Line).

(** [str.upper] on ASCII letters. *)
Definition upper_char (c : ascii) : ascii :=
  let n := nat_of_ascii c in
  if ((97 <=? n) && (n <=? 122))%nat then ascii_of_nat (n - 32) else c.

Fixpoint upper (s : string) : string :=
  match s with
  | EmptyString => EmptyString
  | String c rest => String (upper_char c) (upper rest)
  end.

Definition print_phase (phase : PhaseStatus.t) : list Line :=
  [ PhaseLine (PhaseStatus.complete phase) (PhaseStatus.phase_order phase)
      (PhaseStatus.phase_name phase);
    PhaseTasksLine (PhaseStatus.completed_tasks phase)
      (PhaseStatus.total_tasks phase) (PhaseStatus.active_tasks phase)
      (PhaseStatus.pending_tasks phase) ].

(** The body of [for method, result in results.items()]. *)
Definition print_result (entry : string * Result) : list Line :=
  let '(method, result) := entry in
  [ Rule; MethodLine (upper method); Rule ]
  ++ (if complete result
      then [ WorkflowIsComplete; ReasonLine (reason result) ]
      else [ WorkflowInProgress; ReasonLine (reason result) ])
  ++ match key_workflow_id (keys result) with
     | Some v => [ WorkflowIdLine v ]
     | None => []
     end
  ++ match key_workflow_name (keys result) with
     | Some v => [ WorkflowNameLine v ]
     | None => []
     end
  ++ match key_status (keys result) with
     | Some v => [ StatusLine v ]
     | None => []
     end
  ++ match key_progress (keys result) with
     | Some prog =>
         [ ProgressHeader;
           TotalTasksLine (Progress.total_tasks prog);
           CompletedLine (Progress.completed_tasks prog);
           ActiveLine (Progress.active_tasks prog);
           PendingLine (Progress.pending_tasks prog);
           CompletionLine (Progress.completion_percentage prog) ]
     | None => []
     end
  ++ match key_phases (keys result) with
     | Some phases => PhaseStatusHeader :: flat_map print_phase phases
     | None => []
     end.

(** The state [main] has built when it starts printing. *)
Record Run : Type :=
  { calls : list Call;
    results : list (string * Result);
    output : Output }.

Definition main (env : Env) (args : Args) : Py.outcome Run :=
  let results := [] in
  let calls := [] in
  let '(calls, results) :=
    if in_ (method_name (method args)) ["api"; "both"]
    then (calls ++ [ViaApi (workflow_id args)],
          results ++ [("api", check_workflow_completion_via_api
                                (http env) (workflow_id args))])
    else (calls, results) in
  cr <- (if in_ (method_name (method args)) ["db"; "both"]
         then r <- check_workflow_completion_via_db
                     (store env) (workflow_id args) ;;
              Py.Returns (calls ++ [ViaDb (workflow_id args)],
                          results ++ [("db", r)])
         else Py.Returns (calls, results)) ;;
  let '(calls, results) := cr in
  Py.Returns
    {| calls := calls;
       results := results;
       output :=
         if json args then JsonDump results
         else HumanReadable
                (flat_map print_result results ++ [Rule; TipFrontend; TipApi]) |}.

End CheckWorkflowStatus.

(* ================================================================= *)
(** * Row objects of a session *)
(* ================================================================= *)

(** A query hands out the row objects of the session; assigning to an
    attribute of one changes that row in the session's pending view and
    reaches the store when [commit] returns.  A row object is identified
    here by its position in the table. *)
Module Session.

(** Positions, counted from [i], of the rows a filter selects. *)
Fixpoint positions_from {A : Type} (p : A -> bool) (i : nat) (rows : list A)
  : list nat :=
  match rows with
  | [] => []
  | r :: rest =>
      if p r then i :: positions_from p (S i) rest
      else positions_from p (S i) rest
  end.

Definition positions {A : Type} (p : A -> bool) (rows : list A) : list nat :=
  positions_from p O rows.

(** Attribute assignment through the reference at position [i]. *)
Fixpoint assign {A : Type} (i : nat) (f : A -> A) (rows : list A) : list A :=
  match rows, i with
  | [], _ => []
  | r :: rest, O => f r :: rest
  | r :: rest, S j => r :: assign j f rest
  end.

End Session.

(* ================================================================= *)
(** * restart_stalled_workflow.py: failed-task reset *)
(* ================================================================= *)

Module RestartStalledWorkflow.
Import Database.

(** The collaborators of one invocation: whether [session.commit()]
    raises, and whether [queue_service.enqueue_task(task_id)] raises for
    a given task id. *)
Record Env : Type :=
  { commit_raises : option Py.exn;
    enqueue_raises : string -> option Py.exn }.

(** What the invocation does, in order: the lines it prints and the
    calls it makes on the session and on the queue service. *)
Inductive Event : Type :=
| NoFailedTasksFound
| FoundFailed (n : Z)
| TaskLine (id_prefix description : string)
| FailureLine (failure_reason : string)
| Resetting (n : Z)
| Commit
| ResetDone (n : Z)
| Enqueuing (n : Z)
| EnqueueTask (task_id : string)
| Enqueued (id_prefix : string)
| EnqueueFailed (id_prefix message : string)
| Completed (n : Z)
| QueueProcessorNote
| ErrorLine (message : string)
| Rollback
| Close.

(** [a or b or "N/A"] on optional strings. *)
Definition or_else (a b : option string) (default : string) : string :=
  if Py.truthy a then Py.get a default
  else if Py.truthy b then Py.get b default
  else default.

(** The listing loop over [failed_tasks]. *)
Definition describe (task : Task.t) : list Event :=
  TaskLine (Py.take 8 (Task.id task))
    (Py.take 60 (or_else (Task.raw_description task)
                   (Task.enriched_description task) "N/A"))
  :: (if Py.truthy (Task.failure_reason task)
      then [FailureLine (Py.take 80 (Py.get (Task.failure_reason task) ""))]
      else []).

(** The five assignments of the reset loop on one row object. *)
Definition reset (task : Task.t) : Task.t :=
  {| Task.id := Task.id task;
     Task.phase_id := Task.phase_id task;
     Task.status := "queued";
     Task.raw_description := Task.raw_description task;
     Task.enriched_description := Task.enriched_description task;
     Task.failure_reason := None;
     Task.assigned_agent_id := None;
     Task.started_at := None;
     Task.completed_at := None;
     Task.blocked_by := Task.blocked_by task |}.

(** One iteration of the reset loop; the loop state is the session's
    pending view of the task table and [task_ids]. *)
Definition reset_step (state : list Task.t * list string) (i : nat)
  : list Task.t * list string :=
  let '(pending, task_ids) := state in
  match nth_error pending i with
  | Some task => (Session.assign i reset pending, task_ids ++ [Task.id task])
  | None => state
  end.

(** One iteration of the enqueue loop, with its own [try]/[except]. *)
Definition enqueue_step (env : Env) (task_id : string) : list Event :=
  match enqueue_raises env task_id with
  | None => [EnqueueTask task_id; Enqueued (Py.take 8 task_id)]
  | Some e =>
      [EnqueueTask task_id; EnqueueFailed (Py.take 8 task_id) (Py.str e)]
  end.

Definition is_failed (task : Task.t) : bool :=
  String.eqb (Task.status task) "failed".

Definition with_tasks (db : Store) (rows : list Task.t) : Store :=
  {| workflows := workflows db;
     phases := phases db;
     tasks := rows;
     workflow_results := workflow_results db;
     agents := agents db;
     worktrees := worktrees db |}.

(** [restart_failed_tasks]: the store it leaves behind and what it did. *)
Definition restart_failed_tasks (env : Env) (db : Store)
  : Store * list Event :=
  let failed_tasks := Session.positions is_failed (tasks db) in
  match failed_tasks with
  | [] => (db, [NoFailedTasksFound; Close])
  | _ :: _ =>
      let n := Z.of_nat (List.length failed_tasks) in
      let listing :=
        FoundFailed n
        :: flat_map (fun i => match nth_error (tasks db) i with
                              | Some task => describe task
                              | None => []
                              end) failed_tasks
        ++ [Resetting n] in
      let '(pending, task_ids) :=
        fold_left reset_step failed_tasks (tasks db, []) in
      let m := Z.of_nat (List.length task_ids) in
      match commit_raises env with
      | Some e =>
          (db, listing ++ [ErrorLine (Py.str e); Rollback; Close])
      | None =>
          (with_tasks db pending,
           listing ++ [Commit; ResetDone m; Enqueuing m]
           ++ flat_map (enqueue_step env) task_ids
           ++ [Completed m; QueueProcessorNote; Close])
      end
  end.

(** ** Blocked tasks *)

(** What [check_blocked_tasks] prints, and its [session.close()]. *)
Inductive BlockedLine : Type :=
| NoBlockedTasksFound
| FoundBlocked (n : Z)
| BlockedTask (id_prefix description : string)
| BlockedBy (blocked_by : string)
| AndMore (n : Z)
| BlockedNote
| CloseBlocked.

(** The body of the listing loop; [hasattr(task, 'blocked_by') and
    task.blocked_by] is the truthiness of the optional attribute. *)
Definition describe_blocked (task : Task.t) : list BlockedLine :=
  BlockedTask (Py.take 8 (Task.id task))
    (Py.take 60 (or_else (Task.raw_description task)
                   (Task.enriched_description task) "N/A"))
  :: (if Py.truthy (Task.blocked_by task)
      then [BlockedBy (Py.get (Task.blocked_by task) "")]
      else []).

(** [check_blocked_tasks]: it only reads the store. *)
Definition check_blocked_tasks (db : Store) : list BlockedLine :=
  let blocked_tasks :=
    filter (fun t => String.eqb (Task.status t) "blocked") (tasks db) in
  match blocked_tasks with
  | [] => [NoBlockedTasksFound; CloseBlocked]
  | _ :: _ =>
      let n := Z.of_nat (List.length blocked_tasks) in
      FoundBlocked n
      :: flat_map describe_blocked (firstn 10 blocked_tasks)
      ++ (if n >? 10 then [AndMore (n - 10)] else [])
      ++ [BlockedNote; CloseBlocked]
  end.

(** ** The command line *)

Record Args : Type := { check_blocked : bool; unblock : bool }.

Inductive MainLine : Type :=
| MainRule
| MainRuleAfterBlank
| MainTitle
| Reset (ev : Event)
| Blocked (line : BlockedLine)
| UnblockNotImplemented
| UnblockAdvice
| MonitorHeading
| HintFrontend
| HintApi
| HintStatus.

(** [main]: the reset always runs; the blocked tasks are read afterwards,
    from the store the reset left. *)
Definition main (env : Env) (args : Args) (db : Store)
  : Store * list MainLine :=
  let '(db', reset_events) := restart_failed_tasks env db in
  (db',
   [MainRule; MainTitle; MainRule]
   ++ map Reset reset_events
   ++ (if check_blocked args then map Blocked (check_blocked_tasks db') else [])
   ++ (if unblock args then [UnblockNotImplemented; UnblockAdvice] else [])
   ++ [MainRuleAfterBlank; MonitorHeading; HintFrontend; HintApi; HintStatus;
       MainRule]).

End RestartStalledWorkflow.

(* ================================================================= *)
(** * cleanup_stale_worktrees.py: staleness detector *)
(* ================================================================= *)

Module CleanupStaleWorktrees.
Import Database.

(** The git repository as the script sees it: the text printed by
    [git worktree list --porcelain] and the branch names ([repo.branches]
    may raise). *)
Record Repo : Type :=
  { worktree_list : string;
    branches : Py.outcome (list string) }.

(** Everything the script reads or changes: the store, the filesystem
    ([os.path.exists]) and the repository ([git.Repo(...)] may raise). *)
Record World : Type :=
  { store : Store;
    path_exists : string -> bool;
    repo : Py.outcome Repo }.

(** The collaborators that can fail during one invocation:
    [session.commit()] and [git branch -D].  Git refuses to delete a branch
    the repository does not have, with the error [branch_not_found] gives,
    and may refuse to delete one it has ([branch_delete_raises]). *)
Record Env : Type :=
  { commit_raises : option Py.exn;
    branch_delete_raises : string -> option Py.exn;
    branch_not_found : string -> Py.exn }.

(** One entry of [stale_worktrees].  ['worktree'] is the row object:
    its position in the table together with the row as read. *)
Record Item : Type :=
  { position : nat;
    worktree : AgentWorktree.t;
    exists_on_disk : bool;
    in_git_list : bool;
    agent_status : string }.

Inductive Event : Type :=
| NoStaleWorktreesFound
| FoundStale (n : Z)
| StaleLine (item : Item)
| DryRunNotice
| CleaningUp
| Marked (worktree_path : string)
| Commit
| CleanedUp (n : Z)
| CleaningBranches
| BranchCheckFailed (branch_name message : string)
| FoundBranches (n : Z)
| BranchDelete (branch : string)
| Deleted (branch : string)
| DeleteFailed (branch message : string)
| NoOrphanedBranches
| ErrorLine (message : string)
| Rollback
| Close.

Definition is_active (wt : AgentWorktree.t) : bool :=
  String.eqb (AgentWorktree.merge_status wt) "active".

(** [any(wt.worktree_path in w for w in git_worktrees)] *)
Definition listed (git_worktrees : list string) (wt : AgentWorktree.t) : bool :=
  existsb (fun w => Py.contains (AgentWorktree.worktree_path wt) w)
          git_worktrees.

(** [agent.status if agent else 'NOT_FOUND'] for the agent of a row. *)
Definition agent_status_of (db : Store) (wt : AgentWorktree.t) : string :=
  match first (filter (fun a => String.eqb (Agent.id a) (AgentWorktree.agent_id wt))
                      (agents db)) with
  | Some agent => Agent.status agent
  | None => "NOT_FOUND"
  end.

(** One iteration of [for wt in worktrees], appending to
    [stale_worktrees]. *)
Definition detect_step (w : World) (git_worktrees : list string)
  (stale_worktrees : list Item) (i : nat) : list Item :=
  match nth_error (worktrees (store w)) i with
  | Some wt =>
      let exists_on_disk := path_exists w (AgentWorktree.worktree_path wt) in
      let in_git_list := listed git_worktrees wt in
      if negb exists_on_disk || negb in_git_list then
        stale_worktrees ++
          [ {| position := i;
               worktree := wt;
               exists_on_disk := exists_on_disk;
               in_git_list := in_git_list;
               agent_status := agent_status_of (store w) wt |} ]
      else stale_worktrees
  | None => stale_worktrees
  end.

(** The detection part of the script: from the query to the end of the
    first loop. *)
Definition find_stale_worktrees (w : World) (r : Repo) : list Item :=
  let git_worktrees := Py.split "worktree " (worktree_list r) in
  let worktrees := Session.positions is_active (worktrees (store w)) in
  fold_left (detect_step w git_worktrees) worktrees [].

(** [wt.merge_status = 'cleaned'] *)
Definition mark_cleaned (wt : AgentWorktree.t) : AgentWorktree.t :=
  {| AgentWorktree.agent_id := AgentWorktree.agent_id wt;
     AgentWorktree.worktree_path := AgentWorktree.worktree_path wt;
     AgentWorktree.branch_name := AgentWorktree.branch_name wt;
     AgentWorktree.merge_status := "cleaned" |}.

(** One iteration of the marking loop on the session's pending view. *)
Definition mark_step (pending : list AgentWorktree.t) (item : Item)
  : list AgentWorktree.t :=
  Session.assign (position item) mark_cleaned pending.

Definition with_worktrees (db : Store) (rows : list AgentWorktree.t) : Store :=
  {| workflows := workflows db;
     phases := phases db;
     tasks := tasks db;
     workflow_results := workflow_results db;
     agents := agents db;
     worktrees := rows |}.

(** One iteration of the branch-collecting loop; the state is
    [branches_to_delete] and the warnings printed so far. *)
Definition collect_step (r : Repo) (state : list string * list Event)
  (item : Item) : list string * list Event :=
  let '(branches_to_delete, warnings) := state in
  let name := AgentWorktree.branch_name (worktree item) in
  match branches r with
  | Py.Returns names =>
      if in_ name names then (branches_to_delete ++ [name], warnings)
      else state
  | Py.Raises e =>
      (branches_to_delete, warnings ++ [BranchCheckFailed name (Py.str e)])
  end.

Definition remove_branch (branch : string) (r : Repo) : Repo :=
  {| worktree_list := worktree_list r;
     branches :=
       match branches r with
       | Py.Returns names =>
           Py.Returns (filter (fun b => negb (String.eqb b branch)) names)
       | Py.Raises e => Py.Raises e
       end |}.

(** Whether the repository has a branch of that name at this moment. *)
Definition has_branch (r : Repo) (branch : string) : bool :=
  match branches r with
  | Py.Returns names => in_ branch names
  | Py.Raises _ => false
  end.

(** [repo.git.branch('-D', branch)] on the repository as it is now. *)
Definition git_branch_delete (env : Env) (branch : string) (r : Repo)
  : Py.outcome Repo :=
  if has_branch r branch then
    match branch_delete_raises env branch with
    | None => Py.Returns (remove_branch branch r)
    | Some e => Py.Raises e
    end
  else Py.Raises (branch_not_found env branch).

(** One iteration of the deletion loop: [git branch -D] removes the
    branch unless it raises. *)
Definition delete_step (env : Env) (state : Repo * list Event)
  (branch : string) : Repo * list Event :=
  let '(r, events) := state in
  match git_branch_delete env branch r with
  | Py.Returns r' => (r', events ++ [BranchDelete branch; Deleted branch])
  | Py.Raises e =>
      (r, events ++ [BranchDelete branch; DeleteFailed branch (Py.str e)])
  end.

Definition with_store_repo (w : World) (db : Store) (r : Repo) : World :=
  {| store := db; path_exists := path_exists w; repo := Py.Returns r |}.

(** [cleanup_stale_worktrees(dry_run)]: the world it leaves behind and
    what it did. *)
Definition cleanup_stale_worktrees (env : Env) (dry_run : bool) (w : World)
  : World * list Event :=
  match repo w with
  | Py.Raises e => (w, [ErrorLine (Py.str e); Rollback; Close])
  | Py.Returns r =>
      let stale_worktrees := find_stale_worktrees w r in
      match stale_worktrees with
      | [] => (w, [NoStaleWorktreesFound; Close])
      | _ :: _ =>
          let n := Z.of_nat (List.length stale_worktrees) in
          let listing := FoundStale n :: map StaleLine stale_worktrees in
          if dry_run then (w, listing ++ [DryRunNotice; Close])
          else
            let pending :=
              fold_left mark_step stale_worktrees (worktrees (store w)) in
            let marking :=
              CleaningUp
              :: map (fun item =>
                        Marked (AgentWorktree.worktree_path (worktree item)))
                     stale_worktrees in
            match commit_raises env with
            | Some e =>
                (w, listing ++ marking ++ [ErrorLine (Py.str e); Rollback; Close])
            | None =>
                let db := with_worktrees (store w) pending in
                let '(branches_to_delete, warnings) :=
                  fold_left (collect_step r) stale_worktrees ([], []) in
                let '(r', deletions) :=
                  match branches_to_delete with
                  | [] => (r, [NoOrphanedBranches])
                  | _ :: _ =>
                      fold_left (delete_step env) branches_to_delete
                        (r, [FoundBranches
                               (Z.of_nat (List.length branches_to_delete))])
                  end in
                (with_store_repo w db r',
                 listing ++ marking ++ [Commit; CleanedUp n; CleaningBranches]
                 ++ warnings ++ deletions ++ [Close])
            end
      end
  end.

(** ** The command line *)

Record Args : Type := { execute : bool }.

Inductive MainLine : Type :=
| MainRule
| MainRuleAfterBlank
| MainTitle
| MainBlank
| Run (ev : Event).

(** [main]: a dry run unless [--execute] is given. *)
Definition main (env : Env) (args : Args) (w : World)
  : World * list MainLine :=
  let '(w', events) := cleanup_stale_worktrees env (negb (execute args)) w in
  (w', [MainRule; MainTitle; MainRule; MainBlank] ++ map Run events
       ++ [MainRuleAfterBlank]).

End CleanupStaleWorktrees.

(* ================================================================= *)
(** * restart_stalled_agents.py: stalled-agent restart *)
(* ================================================================= *)

Module RestartStalledAgents.
Import Database.

(** The answer to [POST /api/restart_task]. *)
Inductive RestartResponse : Type :=
| Success (agent_id : option string)
| NoSuccess (message : option string)
| HTTPStatusError (status_code : Z) (error_detail : string)
| RequestError (message : string)
| OtherError (e : Py.exn).

(** The control plane: [POST /api/terminate_agent] may rewrite the store
    (it marks tasks failed and may clear attachments) and may raise;
    [POST /api/restart_task] answers per task id. *)
Record Env : Type :=
  { terminate_agent : string -> Store -> Store * option Py.exn;
    restart_task : string -> RestartResponse }.

Inductive Event : Type :=
| NoActiveAgentsFound
| FoundActive (n : Z)
| AgentLine (id_prefix status task_desc : string)
| Step1 (n : Z)
| Terminate (agent_id : string)
| Terminated
| TerminateFailed (id_prefix message : string)
| Sleep (seconds : Z)
| Step2 (n : Z)
| Restart (task_id : string)
| Restarted (new_agent_prefix : string)
| RestartRefused (message : string)
| NotReady (error_detail : string)
| HttpError (status_code : Z) (error_detail : string)
| RequestFailed (message : string)
| RestartError (id_prefix message : string)
| Completed (n : Z)
| NewAgentsNote
| Close.

Definition is_active (agent : Agent.t) : bool :=
  in_ (Agent.status agent) ["working"; "running"; "stuck"].

(** The description printed for an agent's task. *)
Definition task_desc (db : Store) (agent : Agent.t) : string :=
  match first (filter (fun t => CheckWorkflowStatus.eq_str
                                  (Agent.current_task_id agent) (Task.id t))
                      (tasks db)) with
  | Some task =>
      Py.take 50 (RestartStalledWorkflow.or_else (Task.raw_description task)
                    (Task.enriched_description task) "Unknown task")
  | None => "Unknown task"
  end.

(** One iteration of the first loop; the state is [task_ids_to_restart]
    and the lines printed. *)
Definition collect_step (db : Store) (state : list string * list Event)
  (agent : Agent.t) : list string * list Event :=
  let '(task_ids_to_restart, lines) := state in
  let lines :=
    lines ++ [AgentLine (Py.take 8 (Agent.id agent)) (Agent.status agent)
                (task_desc db agent)] in
  if Py.truthy (Agent.current_task_id agent)
  then (task_ids_to_restart ++ [Py.get (Agent.current_task_id agent) ""], lines)
  else (task_ids_to_restart, lines).

(** One iteration of the termination loop; the state is the store as the
    control plane leaves it and the events so far. *)
Definition terminate_step (env : Env) (state : Store * list Event)
  (agent : Agent.t) : Store * list Event :=
  let '(db, events) := state in
  let '(db', raised) := terminate_agent env (Agent.id agent) db in
  match raised with
  | None => (db', events ++ [Terminate (Agent.id agent); Terminated])
  | Some e =>
      (db', events ++ [Terminate (Agent.id agent);
                       TerminateFailed (Py.take 8 (Agent.id agent)) (Py.str e)])
  end.

(** One iteration of the restart loop. *)
Definition restart_step (env : Env) (task_id : string) : list Event :=
  Restart task_id ::
  match restart_task env task_id with
  | Success new_agent_id => [Restarted (Py.take 8 (Py.get new_agent_id "unknown"))]
  | NoSuccess message => [RestartRefused (Py.get message "Unknown error")]
  | HTTPStatusError status_code error_detail =>
      if status_code =? 400 then [NotReady error_detail]
      else [HttpError status_code error_detail]
  | RequestError message => [RequestFailed message]
  | OtherError e => [RestartError (Py.take 8 task_id) (Py.str e)]
  end.

(** [restart_stalled_agents]: the store after the control plane acted,
    and what the script did. *)
Definition restart_stalled_agents (env : Env) (db : Store)
  : Store * list Event :=
  let active_agents := filter is_active (agents db) in
  match active_agents with
  | [] => (db, [NoActiveAgentsFound; Close])
  | _ :: _ =>
      let n := Z.of_nat (List.length active_agents) in
      let '(task_ids_to_restart, lines) :=
        fold_left (collect_step db) active_agents ([], [FoundActive n]) in
      let '(db', terminations) :=
        fold_left (terminate_step env) active_agents (db, [Step1 n]) in
      let m := Z.of_nat (List.length task_ids_to_restart) in
      (db',
       lines ++ terminations ++ [Sleep 2; Step2 m]
       ++ flat_map (restart_step env) task_ids_to_restart
       ++ [Completed m; NewAgentsNote; Close])
  end.

End RestartStalledAgents.

(* ================================================================= *)
(** * simple_config.py: provider and API key *)
(* ================================================================= *)

Module SimpleConfig.

(** The attributes of a [Config] object that [get_api_key] and [validate]
    read: the provider name, and the two keys as [os.getenv] returned them
    ([None] when the variable is unset). *)
Record Config : Type :=
  { llm_provider : string;
    openai_api_key : option string;
    anthropic_api_key : option string }.

(** [Config.get_api_key]. *)
Definition get_api_key (self : Config) : option string :=
  if String.eqb (llm_provider self) "openai" then openai_api_key self
  else if String.eqb (llm_provider self) "anthropic"
       then anthropic_api_key self
       else None.

(** [Config.validate] returns [True] or raises [ValueError]. *)
Inductive Validation : Type :=
| ReturnsTrue
| ValueError (message : string).

Definition validate (self : Config) : Validation :=
  if String.eqb (llm_provider self) "openai"
     && negb (Py.truthy (openai_api_key self))
  then ValueError "OPENAI_API_KEY is required when using OpenAI provider"
  else if String.eqb (llm_provider self) "anthropic"
          && negb (Py.truthy (anthropic_api_key self))
       then ValueError
              "ANTHROPIC_API_KEY is required when using Anthropic provider"
       else ReturnsTrue.

End SimpleConfig.

(* ================================================================= *)
(** * Loop summaries *)
(* ================================================================= *)

(** Closed forms of what the loops of the scripts compute; each is
    proved equal to the loop it summarises below. *)
Module Summary.
Import Database.

(** The verdict the store-backed loop body reaches for one phase. *)
Definition phase_complete (db : Store) (phase : Phase.t) : bool :=
  (CheckWorkflowStatus.completed_tasks_of db phase >? 0)
  && (CheckWorkflowStatus.active_tasks_of db phase =? 0)
  && (CheckWorkflowStatus.pending_tasks_of db phase =? 0).

(** The entry the store-backed loop body appends for one phase. *)
Definition phase_entry (db : Store) (phase : Phase.t)
  : CheckWorkflowStatus.PhaseStatus.t :=
  {| CheckWorkflowStatus.PhaseStatus.phase_id := Phase.id phase;
     CheckWorkflowStatus.PhaseStatus.phase_order := Phase.order phase;
     CheckWorkflowStatus.PhaseStatus.phase_name := Phase.name phase;
     CheckWorkflowStatus.PhaseStatus.total_tasks :=
       CheckWorkflowStatus.total_tasks_of db phase;
     CheckWorkflowStatus.PhaseStatus.completed_tasks :=
       CheckWorkflowStatus.completed_tasks_of db phase;
     CheckWorkflowStatus.PhaseStatus.active_tasks :=
       CheckWorkflowStatus.active_tasks_of db phase;
     CheckWorkflowStatus.PhaseStatus.pending_tasks :=
       CheckWorkflowStatus.pending_tasks_of db phase;
     CheckWorkflowStatus.PhaseStatus.complete := phase_complete db phase |}.

(** [completed / total * 100] in binary64, with no guard. *)
Definition ratio_times_100 (completed total : Z) : spec_float :=
  Py.mul_int
    (SFdiv Py.prec Py.emax (Py.exact_int completed) (Py.exact_int total))
    100.

(** The progress snapshot of the store-backed result. *)
Definition db_progress (db : Store) (ps : list Phase.t)
  : CheckWorkflowStatus.Progress.t :=
  let total := Py.sum (map (CheckWorkflowStatus.total_tasks_of db) ps) in
  let completed := Py.sum (map (CheckWorkflowStatus.completed_tasks_of db) ps) in
  {| CheckWorkflowStatus.Progress.total_tasks := total;
     CheckWorkflowStatus.Progress.completed_tasks := completed;
     CheckWorkflowStatus.Progress.active_tasks := Py.sum (map (CheckWorkflowStatus.active_tasks_of db) ps);
     CheckWorkflowStatus.Progress.pending_tasks := Py.sum (map (CheckWorkflowStatus.pending_tasks_of db) ps);
     CheckWorkflowStatus.Progress.completion_percentage :=
       if total >? 0
       then Py.Float (ratio_times_100 completed total)
       else Py.Int 0 |}.

(** The lines of the human-readable report that name a source or state
    its verdict. *)
Definition is_verdict_line (l : CheckWorkflowStatus.Line) : bool :=
  match l with
  | CheckWorkflowStatus.MethodLine _
  | CheckWorkflowStatus.WorkflowIsComplete
  | CheckWorkflowStatus.WorkflowInProgress => true
  | _ => false
  end.

(** The line [main] prints for a verdict. *)
Definition verdict_line (complete : bool) : CheckWorkflowStatus.Line :=
  if complete then CheckWorkflowStatus.WorkflowIsComplete
  else CheckWorkflowStatus.WorkflowInProgress.

(** What the reset loop of [restart_failed_tasks] leaves in the
    session's view of the task table. *)
Definition reset_failed (rows : list Task.t) : list Task.t :=
  map (fun t => if RestartStalledWorkflow.is_failed t
                then RestartStalledWorkflow.reset t else t) rows.

(** A call on the queue service. *)
Definition is_enqueue_call (ev : RestartStalledWorkflow.Event) : bool :=
  match ev with
  | RestartStalledWorkflow.EnqueueTask _ => true
  | _ => false
  end.

(** The staleness test of the detection loop for one row. *)
Definition is_stale (path_exists : string -> bool)
  (git_worktrees : list string) (wt : AgentWorktree.t) : bool :=
  negb (path_exists (AgentWorktree.worktree_path wt))
  || negb (CleanupStaleWorktrees.listed git_worktrees wt).

(** The entries the detection loop appends for the rows from position
    [i] on. *)
Fixpoint stale_items_from (db : Store) (path_exists : string -> bool)
  (git_worktrees : list string) (i : nat) (rows : list AgentWorktree.t)
  : list CleanupStaleWorktrees.Item :=
  match rows with
  | [] => []
  | wt :: rest =>
      if CleanupStaleWorktrees.is_active wt
         && is_stale path_exists git_worktrees wt
      then {| CleanupStaleWorktrees.position := i;
              CleanupStaleWorktrees.worktree := wt;
              CleanupStaleWorktrees.exists_on_disk :=
                path_exists (AgentWorktree.worktree_path wt);
              CleanupStaleWorktrees.in_git_list :=
                CleanupStaleWorktrees.listed git_worktrees wt;
              CleanupStaleWorktrees.agent_status :=
                CleanupStaleWorktrees.agent_status_of db wt |}
           :: stale_items_from db path_exists git_worktrees (S i) rest
      else stale_items_from db path_exists git_worktrees (S i) rest
  end.

(** What the marking loop leaves in the session's view of the worktree
    table. *)
Definition clean_stale (path_exists : string -> bool)
  (git_worktrees : list string) (rows : list AgentWorktree.t)
  : list AgentWorktree.t :=
  map (fun wt => if CleanupStaleWorktrees.is_active wt
                    && is_stale path_exists git_worktrees wt
                 then CleanupStaleWorktrees.mark_cleaned wt else wt) rows.

(** The events of the staleness cleanup that change the store or the
    repository. *)
Definition is_action (ev : CleanupStaleWorktrees.Event) : bool :=
  match ev with
  | CleanupStaleWorktrees.Marked _
  | CleanupStaleWorktrees.Commit
  | CleanupStaleWorktrees.BranchDelete _
  | CleanupStaleWorktrees.Deleted _ => true
  | _ => false
  end.

(** The agent ids of the termination requests in a run, in order. *)
Definition terminate_calls (events : list RestartStalledAgents.Event)
  : list string :=
  flat_map (fun ev => match ev with
                      | RestartStalledAgents.Terminate agent_id => [agent_id]
                      | _ => []
                      end) events.

(** The task ids of the restart requests in a run, in order. *)
Definition restart_calls (events : list RestartStalledAgents.Event)
  : list string :=
  flat_map (fun ev => match ev with
                      | RestartStalledAgents.Restart task_id => [task_id]
                      | _ => []
                      end) events.

(** The task ids the first loop of [restart_stalled_agents] collects. *)
Definition collected_task_ids (active_agents : list Agent.t) : list string :=
  flat_map (fun agent => if Py.truthy (Agent.current_task_id agent)
                         then [Py.get (Agent.current_task_id agent) ""]
                         else []) active_agents.

End Summary.

(* ================================================================= *)
(** * Concrete stores and answers *)
(* ================================================================= *)

(** Small instances of the store and of the collaborators, on which the
    statements below are evaluated. *)
Module Scenario.
Import Database.

Definition task (id phase_id status : string) : Task.t :=
  {| Task.id := id;
     Task.phase_id := phase_id;
     Task.status := status;
     Task.raw_description := Some "build the parser";
     Task.enriched_description := None;
     Task.failure_reason :=
       if String.eqb status "failed" then Some "worktree missing" else None;
     Task.assigned_agent_id :=
       if String.eqb status "failed" then Some "agent-7" else None;
     Task.started_at := if String.eqb status "failed" then Some 10 else None;
     Task.completed_at := if String.eqb status "failed" then Some 20 else None;
     Task.blocked_by := None |}.

(** One active workflow with two phases: the first has tasks
    [done, done, failed], the second a pending and a failed task. *)
Definition running : Store :=
  {| workflows := [ {| Workflow.id := "w1"; Workflow.name := "demo";
                       Workflow.status := "active" |} ];
     phases := [ {| Phase.id := "p2"; Phase.workflow_id := "w1";
                    Phase.order := 2; Phase.name := "implement" |};
                 {| Phase.id := "p1"; Phase.workflow_id := "w1";
                    Phase.order := 1; Phase.name := "plan" |} ];
     tasks := [ task "t1" "p1" "done"; task "t2" "p1" "done";
                task "t3" "p1" "failed"; task "t4" "p2" "pending";
                task "t5" "p2" "failed" ];
     workflow_results := [];
     agents := [ {| Agent.id := "agent-1"; Agent.status := "working";
                    Agent.current_task_id := Some "t4" |};
                 {| Agent.id := "agent-2"; Agent.status := "idle";
                    Agent.current_task_id := Some "t1" |};
                 {| Agent.id := "agent-3"; Agent.status := "stuck";
                    Agent.current_task_id := None |};
                 {| Agent.id := "agent-4"; Agent.status := "terminated";
                    Agent.current_task_id := Some "t2" |};
                 {| Agent.id := "agent-5"; Agent.status := "running";
                    Agent.current_task_id := Some "t5" |} ];
     worktrees := [ {| AgentWorktree.agent_id := "agent-1";
                       AgentWorktree.worktree_path := "/tmp/wt-1";
                       AgentWorktree.branch_name := "agent-1";
                       AgentWorktree.merge_status := "active" |};
                    {| AgentWorktree.agent_id := "agent-7";
                       AgentWorktree.worktree_path := "/tmp/wt-7";
                       AgentWorktree.branch_name := "agent-7";
                       AgentWorktree.merge_status := "active" |};
                    {| AgentWorktree.agent_id := "agent-2";
                       AgentWorktree.worktree_path := "/tmp/wt-2";
                       AgentWorktree.branch_name := "agent-2";
                       AgentWorktree.merge_status := "merged" |} ] |}.

(** A workflow with a phase that has no task at all. *)
Definition unpopulated : Store :=
  {| workflows := [ {| Workflow.id := "w1"; Workflow.name := "demo";
                       Workflow.status := "active" |} ];
     phases := [ {| Phase.id := "p1"; Phase.workflow_id := "w1";
                    Phase.order := 1; Phase.name := "plan" |} ];
     tasks := [];
     workflow_results := [];
     agents := [];
     worktrees := [] |}.

(** An active workflow with pending work and a validated result. *)
Definition validated : Store :=
  {| workflows := [ {| Workflow.id := "w1"; Workflow.name := "demo";
                       Workflow.status := "active" |} ];
     phases := [ {| Phase.id := "p1"; Phase.workflow_id := "w1";
                    Phase.order := 1; Phase.name := "plan" |} ];
     tasks := [ task "t1" "p1" "pending"; task "t2" "p1" "pending" ];
     workflow_results :=
       [ {| WorkflowResult.id := "r1"; WorkflowResult.workflow_id := "w1";
            WorkflowResult.status := "validated";
            WorkflowResult.summary := Some "accepted by the reviewer" |} ];
     agents := [];
     worktrees := [] |}.

(** What the remote endpoint reports for [validated]: the status and the
    per-phase counts; results are not part of the body. *)
Definition validated_body : CheckWorkflowStatus.WorkflowInfo.t :=
  {| CheckWorkflowStatus.WorkflowInfo.status := Some "active";
     CheckWorkflowStatus.WorkflowInfo.phases :=
       Some [ {| CheckWorkflowStatus.ApiPhase.total_tasks := Some 2;
                 CheckWorkflowStatus.ApiPhase.completed_tasks := Some 0;
                 CheckWorkflowStatus.ApiPhase.active_tasks := Some 0;
                 CheckWorkflowStatus.ApiPhase.pending_tasks := Some 2 |} ] |}.

(** What the remote endpoint reports for [running]. *)
Definition running_body : CheckWorkflowStatus.WorkflowInfo.t :=
  {| CheckWorkflowStatus.WorkflowInfo.status := Some "active";
     CheckWorkflowStatus.WorkflowInfo.phases :=
       Some [ {| CheckWorkflowStatus.ApiPhase.total_tasks := Some 3;
                 CheckWorkflowStatus.ApiPhase.completed_tasks := Some 2;
                 CheckWorkflowStatus.ApiPhase.active_tasks := Some 0;
                 CheckWorkflowStatus.ApiPhase.pending_tasks := Some 0 |};
              {| CheckWorkflowStatus.ApiPhase.total_tasks := Some 2;
                 CheckWorkflowStatus.ApiPhase.completed_tasks := None;
                 CheckWorkflowStatus.ApiPhase.active_tasks := Some 0;
                 CheckWorkflowStatus.ApiPhase.pending_tasks := Some 1 |} ] |}.

(** The body the service sends when nothing is running. *)
Definition inactive_body : CheckWorkflowStatus.WorkflowInfo.t :=
  {| CheckWorkflowStatus.WorkflowInfo.status := Some "inactive";
     CheckWorkflowStatus.WorkflowInfo.phases := None |}.

(** Only a finished workflow is on record. *)
Definition finished : Store :=
  {| workflows := [ {| Workflow.id := "w1"; Workflow.name := "demo";
                       Workflow.status := "completed" |} ];
     phases := [];
     tasks := [];
     workflow_results := [];
     agents := [];
     worktrees := [] |}.

(** The commit is refused by the store. *)
Definition commit_fails : RestartStalledWorkflow.Env :=
  {| RestartStalledWorkflow.commit_raises :=
       Some (Py.Exception "database is locked");
     RestartStalledWorkflow.enqueue_raises := fun _ => None |}.

(** The commit goes through; the queue service refuses task [t5]. *)
Definition queue_refuses_t5 : RestartStalledWorkflow.Env :=
  {| RestartStalledWorkflow.commit_raises := None;
     RestartStalledWorkflow.enqueue_raises :=
       fun task_id => if String.eqb task_id "t5"
                      then Some (Py.Exception "queue full") else None |}.

(** Line feed, as in the output of [git worktree list --porcelain]. *)
Definition nl : string := String (ascii_of_nat 10) EmptyString.

(** A repository whose listing has the main checkout and [/tmp/wt-1]. *)
Definition repo_without_wt7 : CleanupStaleWorktrees.Repo :=
  {| CleanupStaleWorktrees.worktree_list :=
       ("worktree /repo" ++ nl ++ "HEAD 0a1b" ++ nl
        ++ "branch refs/heads/main" ++ nl ++ nl
        ++ "worktree /tmp/wt-1" ++ nl ++ "HEAD 2c3d" ++ nl
        ++ "branch refs/heads/agent-1" ++ nl)%string;
     CleanupStaleWorktrees.branches :=
       Py.Returns ["main"; "agent-1"; "agent-7"] |}.

(** The running store, with [/tmp/wt-7] deleted from disk and pruned
    from the listing while its branch [agent-7] still exists. *)
Definition checkout_7_gone : CleanupStaleWorktrees.World :=
  {| CleanupStaleWorktrees.store := running;
     CleanupStaleWorktrees.path_exists :=
       fun path => String.eqb path "/tmp/wt-1" || String.eqb path "/tmp/wt-2";
     CleanupStaleWorktrees.repo := Py.Returns repo_without_wt7 |}.

(** A repository whose listing has the main checkout, [/tmp/wt-1] and
    [/tmp/wt-77], but not [/tmp/wt-7]. *)
Definition repo_with_wt77 : CleanupStaleWorktrees.Repo :=
  {| CleanupStaleWorktrees.worktree_list :=
       ("worktree /repo" ++ nl ++ "HEAD 0a1b" ++ nl
        ++ "branch refs/heads/main" ++ nl ++ nl
        ++ "worktree /tmp/wt-1" ++ nl ++ "HEAD 2c3d" ++ nl
        ++ "branch refs/heads/agent-1" ++ nl ++ nl
        ++ "worktree /tmp/wt-77" ++ nl ++ "HEAD 4e5f" ++ nl
        ++ "branch refs/heads/agent-77" ++ nl)%string;
     CleanupStaleWorktrees.branches :=
       Py.Returns ["main"; "agent-1"; "agent-7"; "agent-77"] |}.

(** The running store, with the directory [/tmp/wt-7] still on disk
    although git no longer lists it as a worktree. *)
Definition leftover_checkout : CleanupStaleWorktrees.World :=
  {| CleanupStaleWorktrees.store := running;
     CleanupStaleWorktrees.path_exists :=
       fun path => String.eqb path "/tmp/wt-1" || String.eqb path "/tmp/wt-7"
                   || String.eqb path "/tmp/wt-2";
     CleanupStaleWorktrees.repo := Py.Returns repo_with_wt77 |}.

(** What git answers when asked to delete a branch it does not have. *)
Definition no_such_branch (branch : string) : Py.exn :=
  Py.Exception ("error: branch '" ++ branch ++ "' not found.")%string.

(** Commit and branch deletion both go through. *)
Definition cleanup_succeeds : CleanupStaleWorktrees.Env :=
  {| CleanupStaleWorktrees.commit_raises := None;
     CleanupStaleWorktrees.branch_delete_raises := fun _ => None;
     CleanupStaleWorktrees.branch_not_found := no_such_branch |}.

(** Two active rows whose checkouts are gone and which share the branch
    [agent-7]. *)
Definition two_rows_one_branch : CleanupStaleWorktrees.World :=
  {| CleanupStaleWorktrees.store :=
       {| workflows := [];
          phases := [];
          tasks := [];
          workflow_results := [];
          agents := [];
          worktrees := [ {| AgentWorktree.agent_id := "agent-7";
                            AgentWorktree.worktree_path := "/tmp/wt-7";
                            AgentWorktree.branch_name := "agent-7";
                            AgentWorktree.merge_status := "active" |};
                         {| AgentWorktree.agent_id := "agent-8";
                            AgentWorktree.worktree_path := "/tmp/wt-8";
                            AgentWorktree.branch_name := "agent-7";
                            AgentWorktree.merge_status := "active" |} ] |};
     CleanupStaleWorktrees.path_exists := fun _ => false;
     CleanupStaleWorktrees.repo := Py.Returns repo_without_wt7 |}.

(** A control plane that clears the attachment of the agent it
    terminates, refuses to terminate [agent-3], and accepts every restart
    but that of [t5]. *)
Definition control_plane : RestartStalledAgents.Env :=
  {| RestartStalledAgents.terminate_agent :=
       fun agent_id db =>
         ({| workflows := workflows db;
             phases := phases db;
             tasks := tasks db;
             workflow_results := workflow_results db;
             agents :=
               map (fun a => if String.eqb (Agent.id a) agent_id
                             then {| Agent.id := Agent.id a;
                                     Agent.status := "terminated";
                                     Agent.current_task_id := None |}
                             else a) (agents db);
             worktrees := worktrees db |},
          if String.eqb agent_id "agent-3"
          then Some (Py.Exception "500 Internal Server Error") else None);
     RestartStalledAgents.restart_task :=
       fun task_id =>
         if String.eqb task_id "t5"
         then RestartStalledAgents.HTTPStatusError 400 "task is not failed"
         else RestartStalledAgents.Success (Some "agent-9") |}.

(** A working and an idle agent attached to the same task [t1], and a
    stuck agent whose task id is the empty string. *)
Definition shared_task : Store :=
  {| workflows := [];
     phases := [];
     tasks := [ task "t1" "p1" "in_progress" ];
     workflow_results := [];
     agents := [ {| Agent.id := "agent-1"; Agent.status := "working";
                    Agent.current_task_id := Some "t1" |};
                 {| Agent.id := "agent-2"; Agent.status := "idle";
                    Agent.current_task_id := Some "t1" |};
                 {| Agent.id := "agent-3"; Agent.status := "stuck";
                    Agent.current_task_id := Some "" |} ];
     worktrees := [] |}.

(** The commit of the cleanup is refused. *)
Definition cleanup_commit_fails : CleanupStaleWorktrees.Env :=
  {| CleanupStaleWorktrees.commit_raises :=
       Some (Py.Exception "database is locked");
     CleanupStaleWorktrees.branch_delete_raises := fun _ => None;
     CleanupStaleWorktrees.branch_not_found := no_such_branch |}.

(** The commit goes through, but git refuses to delete [agent-7]. *)
Definition branch_is_protected : CleanupStaleWorktrees.Env :=
  {| CleanupStaleWorktrees.commit_raises := None;
     CleanupStaleWorktrees.branch_delete_raises :=
       fun branch => if String.eqb branch "agent-7"
                     then Some (Py.Exception "branch is checked out")
                     else None;
     CleanupStaleWorktrees.branch_not_found := no_such_branch |}.

(** Twelve blocked tasks and one that is done. *)
Definition many_blocked : Store :=
  {| workflows := [];
     phases := [];
     tasks := task "t0" "p1" "done"
              :: map (fun id => task id "p1" "blocked")
                   ["b01"; "b02"; "b03"; "b04"; "b05"; "b06";
                    "b07"; "b08"; "b09"; "b10"; "b11"; "b12"];
     workflow_results := [];
     agents := [];
     worktrees := [] |}.

End Scenario.

(* ================================================================= *)
(** * Views used in the statements on more of the scripts *)
(* ================================================================= *)

Module Views.
Import Database.

(** A phase of the remote body that reports the counts of a store-backed
    entry. *)
Definition reported_phase (entry : CheckWorkflowStatus.PhaseStatus.t)
  : CheckWorkflowStatus.ApiPhase.t :=
  {| CheckWorkflowStatus.ApiPhase.total_tasks :=
       Some (CheckWorkflowStatus.PhaseStatus.total_tasks entry);
     CheckWorkflowStatus.ApiPhase.completed_tasks :=
       Some (CheckWorkflowStatus.PhaseStatus.completed_tasks entry);
     CheckWorkflowStatus.ApiPhase.active_tasks :=
       Some (CheckWorkflowStatus.PhaseStatus.active_tasks entry);
     CheckWorkflowStatus.ApiPhase.pending_tasks :=
       Some (CheckWorkflowStatus.PhaseStatus.pending_tasks entry) |}.

(** The remote body that reports a workflow of the store as the store has
    it: its status and, phase by phase in order, its task counts. *)
Definition mirror (db : Store) (w : Workflow.t)
  : CheckWorkflowStatus.WorkflowInfo.t :=
  {| CheckWorkflowStatus.WorkflowInfo.status := Some (Workflow.status w);
     CheckWorkflowStatus.WorkflowInfo.phases :=
       Some (map (fun phase => reported_phase (Summary.phase_entry db phase))
               (CheckWorkflowStatus.phases_of db w)) |}.

(** The order of two entries of ["phases"]. *)
Definition in_order (a b : CheckWorkflowStatus.PhaseStatus.t) : Prop :=
  CheckWorkflowStatus.PhaseStatus.phase_order a
  <= CheckWorkflowStatus.PhaseStatus.phase_order b.

(** The source and verdict lines [main] prints for one entry of
    [results]. *)
Definition source_and_verdict
  (entry : string * CheckWorkflowStatus.Result)
  : list CheckWorkflowStatus.Line :=
  [CheckWorkflowStatus.MethodLine (CheckWorkflowStatus.upper (fst entry));
   Summary.verdict_line (CheckWorkflowStatus.complete (snd entry))].

(** The worktree listing as the specification speaks of it: the paths
    git lists, one per line of the porcelain output that starts with
    [worktree ]. *)
Definition listed_paths (porcelain : string) : list string :=
  flat_map (fun line =>
              if prefix "worktree " line
              then [substring 9 (String.length line - 9) line]
              else [])
           (Py.split Scenario.nl porcelain).

(** The lines of a human-readable run of [main] (none for a JSON run). *)
Definition lines_of (run : Py.outcome CheckWorkflowStatus.Run)
  : list CheckWorkflowStatus.Line :=
  match run with
  | Py.Returns r =>
      match CheckWorkflowStatus.output r with
      | CheckWorkflowStatus.HumanReadable lines => lines
      | CheckWorkflowStatus.JsonDump _ => []
      end
  | Py.Raises _ => []
  end.

(** The dictionary a JSON run of [main] dumps (empty otherwise). *)
Definition dumped (run : Py.outcome CheckWorkflowStatus.Run)
  : list (string * CheckWorkflowStatus.Result) :=
  match run with
  | Py.Returns r =>
      match CheckWorkflowStatus.output r with
      | CheckWorkflowStatus.JsonDump results => results
      | CheckWorkflowStatus.HumanReadable _ => []
      end
  | Py.Raises _ => []
  end.

(** The same invocation of [main] with another [--method]. *)
Definition with_method (args : CheckWorkflowStatus.Args)
  (m : CheckWorkflowStatus.Method) : CheckWorkflowStatus.Args :=
  {| CheckWorkflowStatus.workflow_id := CheckWorkflowStatus.workflow_id args;
     CheckWorkflowStatus.method := m;
     CheckWorkflowStatus.json := CheckWorkflowStatus.json args |}.

(** The task lines of [check_blocked_tasks]. *)
Definition is_blocked_task_line (l : RestartStalledWorkflow.BlockedLine)
  : bool :=
  match l with
  | RestartStalledWorkflow.BlockedTask _ _ => true
  | _ => false
  end.

(** The branches [cleanup_stale_worktrees] tried to delete, in order. *)
Definition delete_attempts (events : list CleanupStaleWorktrees.Event)
  : list string :=
  flat_map (fun ev => match ev with
                      | CleanupStaleWorktrees.BranchDelete b => [b]
                      | _ => []
                      end) events.

(** The branches it reports as deleted, in order. *)
Definition deleted_branches (events : list CleanupStaleWorktrees.Event)
  : list string :=
  flat_map (fun ev => match ev with
                      | CleanupStaleWorktrees.Deleted b => [b]
                      | _ => []
                      end) events.

(** The pauses of [restart_stalled_agents], in order. *)
Definition pauses (events : list RestartStalledAgents.Event) : list Z :=
  flat_map (fun ev => match ev with
                      | RestartStalledAgents.Sleep seconds => [seconds]
                      | _ => []
                      end) events.

(** The "not ready" reports of [restart_stalled_agents], in order. *)
Definition not_ready_reports (events : list RestartStalledAgents.Event)
  : list string :=
  flat_map (fun ev => match ev with
                      | RestartStalledAgents.NotReady detail => [detail]
                      | _ => []
                      end) events.

(** A list without its repetitions, each element where it first occurs;
    [seen] holds the elements met so far. *)
Fixpoint first_occurrences (seen l : list string) : list string :=
  match l with
  | [] => []
  | b :: rest =>
      if in_ b seen then first_occurrences seen rest
      else b :: first_occurrences (b :: seen) rest
  end.

(** Whether git lets a branch that exists be deleted. *)
Definition deletable (env : CleanupStaleWorktrees.Env) (branch : string)
  : bool :=
  match CleanupStaleWorktrees.branch_delete_raises env branch with
  | None => true
  | Some _ => false
  end.

(** The branch of a stale entry. *)
Definition branch_of (item : CleanupStaleWorktrees.Item) : string :=
  AgentWorktree.branch_name (CleanupStaleWorktrees.worktree item).

End Views.

(* ================================================================= *)
(** * The builtins on small inputs *)
(* ================================================================= *)

Section Builtins.

(** [", ".split] keeps empty pieces and a trailing empty piece, as
    [str.split] does. *)
Example split_pieces :
  Py.split ", " "a, b,, c, " = ["a"; "b,"; "c"; ""].
Proof. reflexivity. Qed.

(** The porcelain listing of the scenario splits into the text before the
    first entry and one piece per worktree. *)
Example split_porcelain :
  map (Py.take 10)
    (Py.split "worktree "
       (CleanupStaleWorktrees.worktree_list Scenario.repo_without_wt7))
  = [""; "/repo" ++ Scenario.nl ++ "HEAD"; "/tmp/wt-1" ++ Scenario.nl]%string.
Proof. vm_compute. reflexivity. Qed.

(** [in] on strings is containment: a path is found in a piece that
    holds a longer path starting with it. *)
Example contains_is_substring :
  Py.contains "/tmp/wt-7" "/tmp/wt-1 HEAD 2c3d" = false
  /\ Py.contains "/tmp/wt-7" "/tmp/wt-77 HEAD 4e5f" = true
  /\ Py.contains "" "" = true.
Proof. repeat split. Qed.

Example upper_of_method :
  CheckWorkflowStatus.upper "api" = "API"
  /\ CheckWorkflowStatus.upper "db" = "DB".
Proof. split; reflexivity. Qed.

(** [1 / 4 * 100] is the float 25.0, and dividing by zero raises. *)
Example quarter_is_25 :
  CheckWorkflowStatus.completion_percentage 1 4
  = Py.Returns (Py.Float (S754_finite false 7036874417766400 (-48)))
  /\ Py.truediv 1 0 = Py.Raises Py.ZeroDivisionError.
Proof. split; vm_compute; reflexivity. Qed.

End Builtins.

(* ================================================================= *)
(** * Properties of the completion evaluation *)
(* ================================================================= *)

Section Completion.
Import Database CheckWorkflowStatus.

Lemma fold_phase_step (db : Store) (l : list Phase.t) :
  forall acc b,
    fold_left (phase_step db) l (acc, b)
    = (acc ++ map (Summary.phase_entry db) l,
       b && forallb (Summary.phase_complete db) l).
Proof.
  induction l as [|phase l IH]; intros acc b; simpl.
  - now rewrite app_nil_r, andb_true_r.
  - rewrite IH. f_equal.
    + now rewrite <- app_assoc.
    + fold (Summary.phase_complete db phase).
      destruct (Summary.phase_complete db phase), b; reflexivity.
Qed.

(** *** The guarded percentage *)

Lemma overflow_threshold_large : 2 <= Py.overflow_threshold.
Proof. intros H. vm_compute in H. discriminate H. Qed.

(** The guarded expression never reaches a division by zero; the
    division overflows only when the quotient is too large for a float. *)
Lemma completion_percentage_cases (completed total : Z) :
  completion_percentage completed total
  = if total >? 0
    then if Py.overflow_threshold * total <=? Z.abs completed
         then Py.Raises Py.OverflowError
         else Py.Returns (Py.Float (Summary.ratio_times_100 completed total))
    else Py.Returns (Py.Int 0).
Proof.
  unfold completion_percentage, Py.truediv.
  destruct (total >? 0) eqn:Hpos; [|reflexivity].
  assert (Hnz : (total =? 0) = false) by lia.
  rewrite Hnz, (Z.abs_eq total) by lia.
  now destruct (Py.overflow_threshold * total <=? Z.abs completed).
Qed.

(** With no more completed tasks than tasks it returns. *)
Lemma completion_percentage_returns (completed total : Z) :
  0 <= completed <= total ->
  completion_percentage completed total
  = Py.Returns (if total >? 0
                then Py.Float (Summary.ratio_times_100 completed total)
                else Py.Int 0).
Proof.
  intros Hbound. rewrite completion_percentage_cases.
  destruct (total >? 0) eqn:Hpos; [|reflexivity].
  assert (Hfits : (Py.overflow_threshold * total <=? Z.abs completed) = false).
  { pose proof overflow_threshold_large. apply Z.leb_gt. nia. }
  now rewrite Hfits.
Qed.

(** *** Queries as statements about rows *)

Lemma first_filter_none {A : Type} (p : A -> bool) (rows : list A) :
  first (filter p rows) = None <-> forall x, In x rows -> p x = false.
Proof.
  induction rows as [|a rows IH]; simpl.
  - split; [intros _ x [] | reflexivity].
  - destruct (p a) eqn:Ha; simpl.
    + split; [discriminate|]. intros H.
      specialize (H a (or_introl eq_refl)). congruence.
    + rewrite IH. split.
      * intros H x [<-|Hx]; auto.
      * intros H x Hx. apply H. now right.
Qed.

Lemma first_filter_some {A : Type} (p : A -> bool) (rows : list A) (x : A) :
  first (filter p rows) = Some x -> In x rows /\ p x = true.
Proof.
  intros H. apply filter_In. unfold first in H.
  destruct (filter p rows) as [|y l]; [discriminate|].
  injection H as ->. now left.
Qed.

Lemma first_filter_exists {A : Type} (p : A -> bool) (rows : list A) :
  (exists x, first (filter p rows) = Some x)
  <-> exists x, In x rows /\ p x = true.
Proof.
  split.
  - intros [x Hx]. exists x. now apply first_filter_some.
  - intros [x Hx]. destruct (first (filter p rows)) as [y|] eqn:Hy.
    + now exists y.
    + rewrite first_filter_none in Hy. destruct Hx as [Hin Hp].
      rewrite (Hy x Hin) in Hp. discriminate.
Qed.

Lemma in_insert_by_order (p x : Phase.t) (l : list Phase.t) :
  In x (insert_by_order p l) <-> x = p \/ In x l.
Proof.
  induction l as [|q l IH]; simpl.
  - intuition.
  - destruct (Phase.order p <? Phase.order q); simpl; rewrite ?IH; intuition.
Qed.

Lemma in_order_by_order (x : Phase.t) (l : list Phase.t) :
  In x (order_by_order l) <-> In x l.
Proof.
  induction l as [|p l IH]; simpl; [tauto|].
  rewrite in_insert_by_order, IH. intuition.
Qed.

Lemma in_phases_of (db : Store) (w : Workflow.t) (p : Phase.t) :
  In p (phases_of db w)
  <-> In p (phases db) /\ Phase.workflow_id p = Workflow.id w.
Proof.
  unfold phases_of. rewrite in_order_by_order, filter_In, String.eqb_eq.
  tauto.
Qed.

Lemma filter_twice {A : Type} (p q : A -> bool) (rows : list A) :
  filter q (filter p rows) = filter (fun x => p x && q x) rows.
Proof.
  induction rows as [|a rows IH]; simpl; [reflexivity|].
  destruct (p a); simpl; [|assumption].
  destruct (q a); now rewrite IH.
Qed.

Lemma count_filter_le {A : Type} (p q : A -> bool) (rows : list A) :
  count (filter (fun x => p x && q x) rows) <= count (filter p rows).
Proof.
  unfold count. apply inj_le.
  induction rows as [|a rows IH]; simpl; [lia|].
  destruct (p a), (q a); simpl; lia.
Qed.

Lemma count_nonneg {A : Type} (rows : list A) : 0 <= count rows.
Proof. unfold count. lia. Qed.

(** The active count is one count over the phase's tasks whose status is
    [assigned] or [in_progress]. *)
Lemma active_tasks_of_one_filter (db : Store) (phase : Phase.t) :
  active_tasks_of db phase
  = count (filter (fun t => String.eqb (Task.phase_id t) (Phase.id phase)
                            && (String.eqb (Task.status t) "assigned"
                                || String.eqb (Task.status t) "in_progress"))
                  (tasks db)).
Proof.
  unfold active_tasks_of. rewrite filter_twice. f_equal.
  apply filter_ext. intros t. unfold in_. simpl.
  now rewrite orb_false_r.
Qed.

(** [sum] as a right fold. *)
Lemma sum_cons (x : Z) (l : list Z) : Py.sum (x :: l) = x + Py.sum l.
Proof.
  unfold Py.sum. simpl.
  assert (H : forall l a, fold_left Z.add l a = a + fold_left Z.add l 0).
  { clear. induction l as [|y l IH]; intros a; simpl; [lia|].
    rewrite (IH (a + y)), (IH y). lia. }
  apply H.
Qed.

Lemma sum_map_nonneg {A : Type} (f : A -> Z) (l : list A) :
  (forall x, In x l -> 0 <= f x) -> 0 <= Py.sum (map f l).
Proof.
  induction l as [|x l IH]; intros H; [reflexivity|].
  cbn [map]. rewrite sum_cons.
  assert (0 <= f x) by (apply H; now left).
  assert (0 <= Py.sum (map f l)) by (apply IH; intros y Hy; apply H; now right).
  lia.
Qed.

Lemma sum_map_bound {A : Type} (f g h k : A -> Z) (l : list A) :
  (forall x, In x l -> f x + g x + h x <= k x) ->
  Py.sum (map f l) + Py.sum (map g l) + Py.sum (map h l) <= Py.sum (map k l).
Proof.
  induction l as [|x l IH]; intros H; [reflexivity|].
  cbn [map]. rewrite !sum_cons.
  assert (f x + g x + h x <= k x) by (apply H; now left).
  assert (Py.sum (map f l) + Py.sum (map g l) + Py.sum (map h l)
          <= Py.sum (map k l)) by (apply IH; intros y Hy; apply H; now right).
  lia.
Qed.

(** A task is counted in at most one of the three buckets of its phase. *)
Lemma phase_counts_bounded (db : Store) (phase : Phase.t) :
  0 <= completed_tasks_of db phase
  /\ 0 <= active_tasks_of db phase
  /\ 0 <= pending_tasks_of db phase
  /\ completed_tasks_of db phase + active_tasks_of db phase
     + pending_tasks_of db phase <= total_tasks_of db phase.
Proof.
  rewrite active_tasks_of_one_filter.
  unfold completed_tasks_of, pending_tasks_of, total_tasks_of, count.
  repeat split; try lia.
  assert (Hnat :
    (List.length (filter (fun t => String.eqb (Task.phase_id t) (Phase.id phase)
                                   && String.eqb (Task.status t) "done")
                         (tasks db))
     + List.length (filter (fun t => String.eqb (Task.phase_id t) (Phase.id phase)
                                     && (String.eqb (Task.status t) "assigned"
                                         || String.eqb (Task.status t) "in_progress"))
                           (tasks db))
     + List.length (filter (fun t => String.eqb (Task.phase_id t) (Phase.id phase)
                                     && String.eqb (Task.status t) "pending")
                           (tasks db))
     <= List.length (filter (fun t => String.eqb (Task.phase_id t) (Phase.id phase))
                            (tasks db)))%nat).
  { induction (tasks db) as [|t l IH]; simpl; [lia|].
    destruct (String.eqb (Task.phase_id t) (Phase.id phase)); simpl;
      [|exact IH].
    destruct (String.eqb (Task.status t) "done") eqn:Hd.
    { apply String.eqb_eq in Hd. rewrite Hd. simpl. lia. }
    destruct (String.eqb (Task.status t) "pending") eqn:Hp.
    { apply String.eqb_eq in Hp. rewrite Hp. simpl. lia. }
    destruct (String.eqb (Task.status t) "assigned"
              || String.eqb (Task.status t) "in_progress"); simpl; lia. }
  lia.
Qed.

(** Over any phases the store counts no more completed tasks than
    tasks. *)
Lemma store_sums_bounded (db : Store) (ps : list Phase.t) :
  0 <= Py.sum (map (completed_tasks_of db) ps)
       <= Py.sum (map (total_tasks_of db) ps).
Proof.
  split.
  - apply sum_map_nonneg. intros p _. apply phase_counts_bounded.
  - pose proof (sum_map_bound (completed_tasks_of db) (active_tasks_of db)
                  (pending_tasks_of db) (total_tasks_of db) ps
                  (fun p _ => proj2 (proj2 (proj2 (phase_counts_bounded db p)))))
      as Hsum.
    assert (0 <= Py.sum (map (active_tasks_of db) ps))
      by (apply sum_map_nonneg; intros p _; apply phase_counts_bounded).
    assert (0 <= Py.sum (map (pending_tasks_of db) ps))
      by (apply sum_map_nonneg; intros p _; apply phase_counts_bounded).
    lia.
Qed.

(** *** The store-backed evaluation, branch by branch *)

Lemma via_db_rollup (db : Store) (workflow_id : option string)
  (w : Workflow.t) :
  select_workflow db workflow_id = Some w ->
  String.eqb (Workflow.status w) "completed" = false ->
  validated_result_of db w = None ->
  check_workflow_completion_via_db db workflow_id
  = Py.Returns
      (if forallb (Summary.phase_complete db) (phases_of db w)
          && (Z.of_nat (List.length (phases_of db w)) >? 0)
       then {| complete := true;
               reason := "All phases complete (all tasks done)";
               keys := PhasesDone (Workflow.id w) (Workflow.name w)
                         (map (Summary.phase_entry db) (phases_of db w)) |}
       else {| complete := false;
               reason := "Workflow still in progress";
               keys := DbProgress (Workflow.id w) (Workflow.name w)
                         (Workflow.status w)
                         (map (Summary.phase_entry db) (phases_of db w))
                         (Summary.db_progress db (phases_of db w)) |}).
Proof.
  intros Hsel Hst Hval. unfold check_workflow_completion_via_db.
  rewrite Hsel, Hst, Hval, fold_phase_step. cbn [app andb].
  destruct (forallb (Summary.phase_complete db) (phases_of db w)
            && (Z.of_nat (List.length (phases_of db w)) >? 0)); [reflexivity|].
  rewrite !map_map.
  rewrite completion_percentage_returns by apply store_sums_bounded.
  reflexivity.
Qed.

(** Every entry of ["phases"] is the loop body's entry for a phase of
    the store. *)
Lemma via_db_phase_entries (db : Store) (workflow_id : option string)
  (r : Result) (ps : list PhaseStatus.t) (entry : PhaseStatus.t) :
  check_workflow_completion_via_db db workflow_id = Py.Returns r ->
  key_phases (keys r) = Some ps ->
  In entry ps ->
  exists phase, In phase (phases db) /\ entry = Summary.phase_entry db phase.
Proof.
  intros Hrun Hkey Hin.
  destruct (select_workflow db workflow_id) as [w|] eqn:Hsel.
  2:{ unfold check_workflow_completion_via_db in Hrun. rewrite Hsel in Hrun.
      injection Hrun as <-. discriminate. }
  destruct (String.eqb (Workflow.status w) "completed") eqn:Hst.
  { unfold check_workflow_completion_via_db in Hrun.
    rewrite Hsel, Hst in Hrun. injection Hrun as <-. discriminate. }
  destruct (validated_result_of db w) as [v|] eqn:Hval.
  { unfold check_workflow_completion_via_db in Hrun.
    rewrite Hsel, Hst, Hval in Hrun. injection Hrun as <-. discriminate. }
  rewrite (via_db_rollup db workflow_id w Hsel Hst Hval) in Hrun.
  assert (Hps : ps = map (Summary.phase_entry db) (phases_of db w)).
  { destruct (forallb _ _ && _); injection Hrun as <-;
      simpl in Hkey; congruence. }
  subst ps. apply in_map_iff in Hin as [phase [<- Hphase]].
  exists phase. split; [|reflexivity].
  now apply in_phases_of in Hphase.
Qed.

Lemma phase_complete_iff (db : Store) (phase : Phase.t) :
  Summary.phase_complete db phase = true
  <-> completed_tasks_of db phase > 0
      /\ active_tasks_of db phase = 0
      /\ pending_tasks_of db phase = 0.
Proof.
  unfold Summary.phase_complete.
  rewrite !andb_true_iff, !Z.eqb_eq, Z.gtb_gt. lia.
Qed.

(** *** The API-backed evaluation, branch by branch *)

Lemma eq_str_true (x : option string) (literal : string) :
  eq_str x literal = true <-> x = Some literal.
Proof.
  destruct x as [s|]; simpl.
  - rewrite String.eqb_eq. split; congruence.
  - split; discriminate.
Qed.

Lemma eq_str_false (x : option string) (literal : string) :
  eq_str x literal = false <-> x <> Some literal.
Proof.
  rewrite <- eq_str_true. destruct (eq_str x literal); split; congruence.
Qed.

Lemma length_positive {A : Type} (l : list A) :
  (Z.of_nat (List.length l) >? 0) = true <-> l <> [].
Proof.
  destruct l; simpl.
  - split; [discriminate|congruence].
  - split; [discriminate|]. intros _. reflexivity.
Qed.

(** The reported roll-up as a statement about the reported phases. *)
Lemma api_rolled_up_iff (reported : list ApiPhase.t) :
  forallb api_phase_complete reported
  && (Z.of_nat (List.length reported) >? 0) = true
  <-> reported <> []
      /\ forall phase,
           In phase reported ->
           Py.get (ApiPhase.completed_tasks phase) 0 > 0
           /\ Py.get (ApiPhase.active_tasks phase) 0 = 0
           /\ Py.get (ApiPhase.pending_tasks phase) 0 = 0.
Proof.
  rewrite andb_true_iff, forallb_forall, length_positive.
  assert (Hphase : forall phase,
             api_phase_complete phase = true
             <-> Py.get (ApiPhase.completed_tasks phase) 0 > 0
                 /\ Py.get (ApiPhase.active_tasks phase) 0 = 0
                 /\ Py.get (ApiPhase.pending_tasks phase) 0 = 0).
  { intros phase. unfold api_phase_complete.
    rewrite !andb_true_iff, !Z.eqb_eq, Z.gtb_gt. lia. }
  split.
  - intros [Hall Hne]. split; [exact Hne|].
    intros phase Hin. now apply Hphase, Hall.
  - intros [Hne Hall]. split; [|exact Hne].
    intros phase Hin. now apply Hphase, Hall.
Qed.

(** The statements after the body was decoded, when the body is neither
    finished nor rolled up: the progress computation. *)
Lemma api_evaluate_in_progress (workflow_info : WorkflowInfo.t) :
  let reported := Py.get (WorkflowInfo.phases workflow_info) [] in
  let total :=
    Py.sum (map (fun p => Py.get (ApiPhase.total_tasks p) 0) reported) in
  let completed :=
    Py.sum (map (fun p => Py.get (ApiPhase.completed_tasks p) 0) reported) in
  eq_str (WorkflowInfo.status workflow_info) "inactive" = false ->
  eq_str (WorkflowInfo.status workflow_info) "completed" = false ->
  forallb api_phase_complete reported
  && (Z.of_nat (List.length reported) >? 0) = false ->
  api_evaluate workflow_info
  = (pct <- completion_percentage completed total ;;
     Py.Returns
       {| complete := false;
          reason := "Workflow still in progress";
          keys := ApiProgress workflow_info
                    {| Progress.total_tasks := total;
                       Progress.completed_tasks := completed;
                       Progress.active_tasks :=
                         Py.sum (map (fun p => Py.get (ApiPhase.active_tasks p) 0)
                                   reported);
                       Progress.pending_tasks :=
                         Py.sum (map (fun p => Py.get (ApiPhase.pending_tasks p) 0)
                                   reported);
                       Progress.completion_percentage := pct |} |}).
Proof.
  intros reported total completed Hi Hc Hr. unfold api_evaluate.
  rewrite Hi, Hc. cbv zeta. fold reported. now rewrite Hr.
Qed.

(** The API-backed verdict and reason for a decoded body. *)
Lemma via_api_signals (workflow_info : WorkflowInfo.t)
  (workflow_id : option string) :
  let a := check_workflow_completion_via_api (Body workflow_info) workflow_id in
  let reported := Py.get (WorkflowInfo.phases workflow_info) [] in
  complete a
  = (eq_str (WorkflowInfo.status workflow_info) "inactive"
     || eq_str (WorkflowInfo.status workflow_info) "completed"
     || (forallb api_phase_complete reported
         && (Z.of_nat (List.length reported) >? 0)))
  /\ (complete a = true ->
      reason a
      = (if eq_str (WorkflowInfo.status workflow_info) "inactive"
         then "No active workflow"
         else if eq_str (WorkflowInfo.status workflow_info) "completed"
         then "Workflow marked as completed"
         else "All phases complete (all tasks done)")).
Proof.
  unfold check_workflow_completion_via_api, api_evaluate. cbv zeta.
  destruct (eq_str (WorkflowInfo.status workflow_info) "inactive").
  { split; reflexivity. }
  destruct (eq_str (WorkflowInfo.status workflow_info) "completed").
  { split; reflexivity. }
  destruct (forallb _ _ && _).
  { split; reflexivity. }
  destruct (completion_percentage _ _); split; (reflexivity || discriminate).
Qed.

(** ** C1 *)

(** C1. In the store-backed evaluation every entry of ["phases"] belongs
    to a phase of the store, its [completed_tasks] counts the phase's tasks
    with status [done], its [active_tasks] those with status [assigned] or
    [in_progress], its [pending_tasks] those with status [pending], and its
    verdict [complete] is true exactly when [completed > 0], [active = 0]
    and [pending = 0].  The API-backed evaluation applies the same rule to
    the counts of every reported phase (an absent count reads as 0): for a
    body whose status is neither [inactive] nor [completed] its verdict is
    true exactly when at least one phase is reported and every reported
    phase has [completed > 0], [active = 0] and [pending = 0]. *)
Theorem phase_complete_iff_counts
  (db : Store) (workflow_id : option string) (workflow_info : WorkflowInfo.t) :
  (forall r ps entry,
      check_workflow_completion_via_db db workflow_id = Py.Returns r ->
      key_phases (keys r) = Some ps ->
      In entry ps ->
      (exists phase,
          In phase (phases db)
          /\ PhaseStatus.phase_id entry = Phase.id phase
          /\ PhaseStatus.completed_tasks entry
             = count (filter (fun t => String.eqb (Task.phase_id t) (Phase.id phase)
                                       && String.eqb (Task.status t) "done")
                             (tasks db))
          /\ PhaseStatus.active_tasks entry
             = count (filter (fun t => String.eqb (Task.phase_id t) (Phase.id phase)
                                       && (String.eqb (Task.status t) "assigned"
                                           || String.eqb (Task.status t)
                                                "in_progress"))
                             (tasks db))
          /\ PhaseStatus.pending_tasks entry
             = count (filter (fun t => String.eqb (Task.phase_id t) (Phase.id phase)
                                       && String.eqb (Task.status t) "pending")
                             (tasks db)))
      /\ (PhaseStatus.complete entry = true
          <-> PhaseStatus.completed_tasks entry > 0
              /\ PhaseStatus.active_tasks entry = 0
              /\ PhaseStatus.pending_tasks entry = 0))
  /\ (WorkflowInfo.status workflow_info <> Some "inactive" ->
      WorkflowInfo.status workflow_info <> Some "completed" ->
      (complete (check_workflow_completion_via_api (Body workflow_info)
                   workflow_id) = true
       <-> Py.get (WorkflowInfo.phases workflow_info) [] <> []
           /\ forall reported,
                In reported (Py.get (WorkflowInfo.phases workflow_info) []) ->
                Py.get (ApiPhase.completed_tasks reported) 0 > 0
                /\ Py.get (ApiPhase.active_tasks reported) 0 = 0
                /\ Py.get (ApiPhase.pending_tasks reported) 0 = 0)).
Proof.
  split.
  - intros r ps entry Hrun Hkey Hin.
    destruct (via_db_phase_entries db workflow_id r ps entry Hrun Hkey Hin)
      as [phase [Hphase ->]].
    split.
    + exists phase. cbn [Summary.phase_entry PhaseStatus.phase_id
        PhaseStatus.completed_tasks PhaseStatus.active_tasks
        PhaseStatus.pending_tasks].
      repeat split; try assumption.
      apply active_tasks_of_one_filter.
    + cbn [Summary.phase_entry PhaseStatus.complete
        PhaseStatus.completed_tasks PhaseStatus.active_tasks
        PhaseStatus.pending_tasks].
      apply phase_complete_iff.
  - intros Hi Hm.
    destruct (via_api_signals workflow_info workflow_id) as [Hc _].
    cbv zeta in Hc. rewrite Hc.
    apply eq_str_false in Hi, Hm. rewrite Hi, Hm. cbn [orb].
    apply api_rolled_up_iff.
Qed.

Lemma phase_complete_iff_counts_witness :
  (exists r ps entry,
      check_workflow_completion_via_db Scenario.running None = Py.Returns r
      /\ key_phases (keys r) = Some ps
      /\ In entry ps
      /\ PhaseStatus.phase_id entry = "p1"
      /\ PhaseStatus.completed_tasks entry = 2
      /\ (PhaseStatus.complete entry = true
          <-> PhaseStatus.completed_tasks entry > 0
              /\ PhaseStatus.active_tasks entry = 0
              /\ PhaseStatus.pending_tasks entry = 0))
  /\ complete (check_workflow_completion_via_api
                 (Body Scenario.running_body) None) = false
  /\ (complete (check_workflow_completion_via_api
                  (Body Scenario.running_body) None) = true
      <-> Py.get (WorkflowInfo.phases Scenario.running_body) [] <> []
          /\ forall reported,
               In reported (Py.get (WorkflowInfo.phases Scenario.running_body) []) ->
               Py.get (ApiPhase.completed_tasks reported) 0 > 0
               /\ Py.get (ApiPhase.active_tasks reported) 0 = 0
               /\ Py.get (ApiPhase.pending_tasks reported) 0 = 0).
Proof.
  destruct (phase_complete_iff_counts Scenario.running None
              Scenario.running_body) as [Hstore Hapi].
  split; [|split].
  - eexists. eexists. eexists.
    split; [vm_compute; reflexivity|].
    split; [reflexivity|].
    split; [left; reflexivity|].
    split; [reflexivity|].
    split; [reflexivity|].
    refine (proj2 (Hstore _ _ _ eq_refl eq_refl (or_introl eq_refl))).
  - reflexivity.
  - apply Hapi; discriminate.
Defined.

(** ** C3 *)

(** C3. In the store-backed evaluation an entry of ["phases"] whose
    [total_tasks] is zero has [completed_tasks] zero and is reported as not
    complete. *)
Theorem empty_phase_not_complete
  (db : Store) (workflow_id : option string) (r : Result)
  (ps : list PhaseStatus.t) (entry : PhaseStatus.t)
  (Hrun : check_workflow_completion_via_db db workflow_id = Py.Returns r)
  (Hkey : key_phases (keys r) = Some ps)
  (Hin : In entry ps)
  (Hempty : PhaseStatus.total_tasks entry = 0) :
  PhaseStatus.completed_tasks entry = 0
  /\ PhaseStatus.complete entry = false.
Proof.
  destruct (via_db_phase_entries db workflow_id r ps entry Hrun Hkey Hin)
    as [phase [Hphase ->]].
  cbn [Summary.phase_entry PhaseStatus.total_tasks PhaseStatus.complete
    PhaseStatus.completed_tasks] in *.
  assert (Hdone : completed_tasks_of db phase = 0).
  { unfold completed_tasks_of. unfold total_tasks_of in Hempty.
    pose proof (count_filter_le
      (fun t => String.eqb (Task.phase_id t) (Phase.id phase))
      (fun t => String.eqb (Task.status t) "done") (tasks db)) as Hle.
    pose proof (count_nonneg
      (filter (fun t => String.eqb (Task.phase_id t) (Phase.id phase)
                        && String.eqb (Task.status t) "done") (tasks db))) as Hge.
    cbv beta in *. lia. }
  split; [assumption|].
  unfold Summary.phase_complete. now rewrite Hdone.
Qed.

Lemma empty_phase_not_complete_witness :
  exists r ps entry,
    check_workflow_completion_via_db Scenario.unpopulated None = Py.Returns r
    /\ key_phases (keys r) = Some ps
    /\ In entry ps
    /\ PhaseStatus.total_tasks entry = 0
    /\ PhaseStatus.completed_tasks entry = 0
    /\ PhaseStatus.complete entry = false.
Proof.
  eexists. eexists. eexists.
  split; [vm_compute; reflexivity|].
  split; [reflexivity|].
  split; [left; reflexivity|].
  split; [reflexivity|].
  refine (empty_phase_not_complete Scenario.unpopulated None _ _ _
            eq_refl eq_refl (or_introl eq_refl) eq_refl).
Defined.

Lemma validated_result_none (db : Store) (w : Workflow.t) :
  validated_result_of db w = None
  <-> ~ exists res, In res (workflow_results db)
                    /\ WorkflowResult.workflow_id res = Workflow.id w
                    /\ WorkflowResult.status res = "validated".
Proof.
  unfold validated_result_of. rewrite first_filter_none. split.
  - intros H [res [Hin [Hw Hs]]]. specialize (H res Hin).
    rewrite Hw, Hs, !String.eqb_refl in H. discriminate.
  - intros H res Hin. apply not_true_is_false. intros Htrue.
    apply andb_true_iff in Htrue as [Hw Hs].
    apply String.eqb_eq in Hw, Hs. apply H. now exists res.
Qed.

Lemma validated_result_some (db : Store) (w : Workflow.t)
  (v : WorkflowResult.t) :
  validated_result_of db w = Some v ->
  exists res, In res (workflow_results db)
              /\ WorkflowResult.workflow_id res = Workflow.id w
              /\ WorkflowResult.status res = "validated".
Proof.
  intros H. apply first_filter_some in H as [Hin Hp].
  apply andb_true_iff in Hp as [Hw Hs]. apply String.eqb_eq in Hw, Hs.
  now exists v.
Qed.

(** ** C9 *)

(** The store-backed evaluation always returns. *)
Lemma via_db_returns (db : Store) (workflow_id : option string) :
  exists r, check_workflow_completion_via_db db workflow_id = Py.Returns r
            /\ forall p, key_progress (keys r) = Some p ->
                 exists w, p = Summary.db_progress db (phases_of db w).
Proof.
  destruct (select_workflow db workflow_id) as [w|] eqn:Hsel.
  2:{ unfold check_workflow_completion_via_db. rewrite Hsel.
      eexists. split; [reflexivity|]. discriminate. }
  destruct (String.eqb (Workflow.status w) "completed") eqn:Hst.
  { unfold check_workflow_completion_via_db. rewrite Hsel, Hst.
    eexists. split; [reflexivity|]. discriminate. }
  destruct (validated_result_of db w) as [v|] eqn:Hval.
  { unfold check_workflow_completion_via_db. rewrite Hsel, Hst, Hval.
    eexists. split; [reflexivity|]. discriminate. }
  rewrite (via_db_rollup db workflow_id w Hsel Hst Hval).
  eexists. split; [reflexivity|].
  destruct (forallb _ _ && _); cbn [keys key_progress]; [discriminate|].
  intros p [= <-]. now exists w.
Qed.

(** C9. The store-backed evaluation always returns, and neither
    evaluation ever divides by zero.  For a workflow still in progress the
    store-backed snapshot holds the sums of the store's counts over the
    workflow's phases, with [0 <= completed <= total]; for a decoded body
    still in progress the API-backed snapshot holds the sums of the reported
    counts.  In both, [completion_percentage] is the float
    [completed / total * 100] of these sums when [total > 0] and the integer
    [0] otherwise.  The one case without a snapshot is a reported quotient
    too large for a float: the division raises [OverflowError], which the
    API-backed evaluation turns into a failed check. *)
Theorem completion_percentage_guarded
  (db : Store) (workflow_id : option string) (workflow_info : WorkflowInfo.t) :
  let reported := Py.get (WorkflowInfo.phases workflow_info) [] in
  let total :=
    Py.sum (map (fun p => Py.get (ApiPhase.total_tasks p) 0) reported) in
  let completed :=
    Py.sum (map (fun p => Py.get (ApiPhase.completed_tasks p) 0) reported) in
  let a := check_workflow_completion_via_api (Body workflow_info) workflow_id in
  (exists r,
      check_workflow_completion_via_db db workflow_id = Py.Returns r
      /\ (reason r = "Workflow still in progress" ->
          exists w p,
            select_workflow db workflow_id = Some w
            /\ key_progress (keys r) = Some p
            /\ Progress.total_tasks p
               = Py.sum (map (total_tasks_of db) (phases_of db w))
            /\ Progress.completed_tasks p
               = Py.sum (map (completed_tasks_of db) (phases_of db w))
            /\ 0 <= Progress.completed_tasks p <= Progress.total_tasks p
            /\ (Progress.total_tasks p > 0 ->
                exists q,
                  Py.truediv (Progress.completed_tasks p)
                    (Progress.total_tasks p) = Py.Returns q
                  /\ Progress.completion_percentage p
                     = Py.Float (Py.mul_int q 100))
            /\ (Progress.total_tasks p = 0 ->
                Progress.completion_percentage p = Py.Int 0))
      /\ (forall w,
             select_workflow db workflow_id = Some w ->
             Workflow.status w <> "completed" ->
             (forall res, In res (workflow_results db) ->
                          WorkflowResult.workflow_id res = Workflow.id w ->
                          WorkflowResult.status res <> "validated") ->
             forall phase,
               In phase (phases db) ->
               Phase.workflow_id phase = Workflow.id w ->
               completed_tasks_of db phase = 0 ->
               reason r = "Workflow still in progress"))
  /\ api_evaluate workflow_info <> Py.Raises Py.ZeroDivisionError
  /\ (forall p,
         key_progress (keys a) = Some p ->
         Progress.total_tasks p = total
         /\ Progress.completed_tasks p = completed
         /\ (total > 0 ->
             exists q,
               Py.truediv completed total = Py.Returns q
               /\ Progress.completion_percentage p
                  = Py.Float (Py.mul_int q 100))
         /\ (total <= 0 -> Progress.completion_percentage p = Py.Int 0))
  /\ (WorkflowInfo.status workflow_info <> Some "inactive" ->
      WorkflowInfo.status workflow_info <> Some "completed" ->
      forall phase,
        In phase reported ->
        Py.get (ApiPhase.completed_tasks phase) 0 <= 0 ->
        (total <= 0 \/ Z.abs completed < Py.overflow_threshold * total ->
         exists p, key_progress (keys a) = Some p)
        /\ (total > 0 -> Py.overflow_threshold * total <= Z.abs completed ->
            Py.truediv completed total = Py.Raises Py.OverflowError
            /\ a = {| complete := false;
                      reason := "Failed to check workflow status";
                      keys := Error (Py.str Py.OverflowError) |})).
Proof.
  intros reported total completed a. split; [|split; [|split]].
  - destruct (select_workflow db workflow_id) as [w|] eqn:Hsel.
    2:{ unfold check_workflow_completion_via_db. rewrite Hsel.
        eexists. split; [reflexivity|]. split; [discriminate|].
        intros w Hw. discriminate Hw. }
    destruct (String.eqb (Workflow.status w) "completed") eqn:Hst.
    { unfold check_workflow_completion_via_db. rewrite Hsel, Hst.
      eexists. split; [reflexivity|]. split; [discriminate|].
      intros w' [= <-] Hopen. apply String.eqb_eq in Hst. contradiction. }
    destruct (validated_result_of db w) as [v|] eqn:Hval.
    { unfold check_workflow_completion_via_db. rewrite Hsel, Hst, Hval.
      eexists. split; [reflexivity|]. split; [discriminate|].
      intros w' [= <-] _ Hno. exfalso.
      destruct (validated_result_some db w v Hval) as [res [Hin [Hw Hs]]].
      exact (Hno res Hin Hw Hs). }
    rewrite (via_db_rollup db workflow_id w Hsel Hst Hval).
    eexists. split; [reflexivity|].
    destruct (forallb (Summary.phase_complete db) (phases_of db w)
              && (Z.of_nat (List.length (phases_of db w)) >? 0)) eqn:Hroll.
    + split; [discriminate|].
      intros w' [= <-] _ _ phase Hin Hw Hzero. exfalso.
      apply andb_true_iff in Hroll as [Hall _].
      rewrite forallb_forall in Hall.
      assert (Hc : Summary.phase_complete db phase = true)
        by (apply Hall, in_phases_of; now split).
      apply phase_complete_iff in Hc. lia.
    + cbn [reason keys key_progress]. split; [|reflexivity].
      intros _. exists w, (Summary.db_progress db (phases_of db w)).
      pose proof (store_sums_bounded db (phases_of db w)) as Hbound.
      unfold Summary.db_progress.
      cbn [Progress.total_tasks Progress.completed_tasks
             Progress.completion_percentage].
      repeat split; try apply Hbound.
      * intros Hpos.
        assert (Hgt : (Py.sum (map (total_tasks_of db) (phases_of db w)) >? 0)
                      = true) by lia.
        pose proof (completion_percentage_returns _ _ Hbound) as Hpct.
        unfold completion_percentage in Hpct. rewrite Hgt in *.
        destruct (Py.truediv _ _) as [q|e] eqn:Hq; [|discriminate Hpct].
        exists q. split; [reflexivity|].
        cbn [Py.bind] in Hpct. now injection Hpct as <-.
      * intros Hzero. now rewrite Hzero.
  - unfold api_evaluate.
    destruct (eq_str (WorkflowInfo.status workflow_info) "inactive");
      [discriminate|].
    destruct (eq_str (WorkflowInfo.status workflow_info) "completed");
      [discriminate|].
    cbv zeta. destruct (forallb _ _ && _); [discriminate|].
    rewrite completion_percentage_cases.
    destruct (_ >? 0); [|discriminate].
    destruct (_ <=? _); discriminate.
  - intros p. subst a.
    unfold check_workflow_completion_via_api, api_evaluate.
    destruct (eq_str (WorkflowInfo.status workflow_info) "inactive");
      [discriminate|].
    destruct (eq_str (WorkflowInfo.status workflow_info) "completed");
      [discriminate|].
    cbv zeta. fold reported. destruct (forallb _ _ && _); [discriminate|].
    fold total completed.
    pose proof (completion_percentage_cases completed total) as Hcases.
    unfold completion_percentage in Hcases |- *.
    destruct (total >? 0) eqn:Hpos.
    + destruct (Py.truediv completed total) as [q|e] eqn:Hq;
        cbn [Py.bind keys key_progress]; [|discriminate].
      intros [= <-].
      cbn [Progress.total_tasks Progress.completed_tasks
             Progress.completion_percentage].
      repeat split.
      * intros _. exists q. split; reflexivity.
      * lia.
    + cbn [Py.bind keys key_progress]. intros [= <-].
      cbn [Progress.total_tasks Progress.completed_tasks
             Progress.completion_percentage].
      repeat split. lia.
  - intros Hi Hm phase Hin Hzero.
    apply eq_str_false in Hi, Hm.
    assert (Hroll : forallb api_phase_complete reported
                    && (Z.of_nat (List.length reported) >? 0) = false).
    { apply not_true_is_false. intros Htrue.
      apply api_rolled_up_iff in Htrue as [_ Hall].
      destruct (Hall phase Hin) as [Hpos _]. lia. }
    pose proof (api_evaluate_in_progress workflow_info Hi Hm Hroll) as Heval.
    cbv zeta in Heval. fold reported total completed in Heval.
    pose proof (completion_percentage_cases completed total) as Hcases.
    subst a. unfold check_workflow_completion_via_api. rewrite Heval.
    split.
    + intros Hfits. rewrite Hcases.
      destruct (total >? 0) eqn:Hpos.
      * assert (Hlt : (Py.overflow_threshold * total <=? Z.abs completed)
                      = false) by lia.
        rewrite Hlt. eexists. reflexivity.
      * eexists. reflexivity.
    + intros Hpos Hover.
      assert (Hgt : (total >? 0) = true) by lia.
      assert (Hle : (Py.overflow_threshold * total <=? Z.abs completed)
                    = true) by lia.
      split.
      * unfold Py.truediv.
        assert (Hnz : (total =? 0) = false) by lia.
        rewrite Hnz, (Z.abs_eq total) by lia. now rewrite Hle.
      * rewrite Hcases, Hgt, Hle. reflexivity.
Qed.

(** Two of five tasks done is reported as the float 40.0, and a workflow
    whose only phase has no task as the integer 0. *)
Example percentage_of_running :
  option_map Progress.completion_percentage
    (match check_workflow_completion_via_db Scenario.running None with
     | Py.Returns r => key_progress (keys r)
     | Py.Raises _ => None
     end)
  = Some (Py.Float (S754_finite false 5629499534213120 (-47))).
Proof. vm_compute. reflexivity. Qed.

Example percentage_of_unpopulated :
  option_map Progress.completion_percentage
    (match check_workflow_completion_via_db Scenario.unpopulated None with
     | Py.Returns r => key_progress (keys r)
     | Py.Raises _ => None
     end)
  = Some (Py.Int 0).
Proof. vm_compute. reflexivity. Qed.

(** The remote view of the running store reports five tasks of which two
    are completed: the float 40.0 again. *)
Example percentage_of_running_body :
  option_map Progress.completion_percentage
    (key_progress (keys (check_workflow_completion_via_api
                           (Body Scenario.running_body) None)))
  = Some (Py.Float (S754_finite false 5629499534213120 (-47))).
Proof. vm_compute. reflexivity. Qed.

(** The quotient is rounded once, from the exact integers:
    [(2^53 + 1) / 3] is [3002399751580331.0]; equal counts of any size give
    [1.0]; a quotient beyond the largest float raises. *)
Example truediv_rounds_once :
  Py.truediv (2 ^ 53 + 1) 3
  = Py.Returns (S754_finite false 6004799503160662 (-1))
  /\ Py.truediv (10 ^ 400) (10 ^ 400)
     = Py.Returns (S754_finite false 4503599627370496 (-52))
  /\ Py.truediv (10 ^ 400) 1 = Py.Raises Py.OverflowError.
Proof. repeat split; vm_compute; reflexivity. Qed.

(** The boundary of [OverflowError]: just below the threshold the
    quotient is the largest float, [(2^53 - 1) * 2^971]; at the threshold
    the division raises. *)
Example overflow_boundary :
  Py.truediv (Py.overflow_threshold - 1) 1
  = Py.Returns (S754_finite false 9007199254740991 971)
  /\ Py.truediv (3 * Py.overflow_threshold - 1) 3
     = Py.Returns (S754_finite false 9007199254740991 971)
  /\ Py.truediv Py.overflow_threshold 1 = Py.Raises Py.OverflowError
  /\ Py.truediv (3 * Py.overflow_threshold) (-3) = Py.Raises Py.OverflowError.
Proof. repeat split; vm_compute; reflexivity. Qed.

Lemma completion_percentage_guarded_witness :
  (exists r p q,
      check_workflow_completion_via_db Scenario.running None = Py.Returns r
      /\ key_progress (keys r) = Some p
      /\ Progress.total_tasks p = 5
      /\ Progress.completed_tasks p = 2
      /\ Py.truediv 2 5 = Py.Returns q
      /\ Progress.completion_percentage p = Py.Float (Py.mul_int q 100))
  /\ (exists p q,
         key_progress (keys (check_workflow_completion_via_api
                               (Body Scenario.running_body) None)) = Some p
         /\ Progress.total_tasks p = 5
         /\ Progress.completed_tasks p = 2
         /\ Py.truediv 2 5 = Py.Returns q
         /\ Progress.completion_percentage p = Py.Float (Py.mul_int q 100)).
Proof.
  destruct (completion_percentage_guarded Scenario.running None
              Scenario.running_body)
    as [[r [Hr [Hsnapshot Hreason]]] [_ [Hapi Hpresent]]].
  split.
  - assert (Hprogress : reason r = "Workflow still in progress").
    { eapply (Hreason {| Database.Workflow.id := "w1";
                         Database.Workflow.name := "demo";
                         Database.Workflow.status := "active" |}
                eq_refl).
      - discriminate.
      - intros res [].
      - left. reflexivity.
      - reflexivity.
      - reflexivity. }
    destruct (Hsnapshot Hprogress)
      as [w [p [Hsel [Hkey [Htotal [Hdone [_ [Hpos _]]]]]]]].
    injection Hsel as <-.
    assert (Ht : Progress.total_tasks p = 5) by (rewrite Htotal; reflexivity).
    assert (Hc : Progress.completed_tasks p = 2)
      by (rewrite Hdone; reflexivity).
    destruct Hpos as [q [Hq Hpct]]; [lia|].
    rewrite Ht, Hc in Hq.
    exists r, p, q. repeat split; assumption.
  - destruct (Hpresent ltac:(discriminate) ltac:(discriminate)
                {| ApiPhase.total_tasks := Some 2;
                   ApiPhase.completed_tasks := None;
                   ApiPhase.active_tasks := Some 0;
                   ApiPhase.pending_tasks := Some 1 |}
                (or_intror (or_introl eq_refl)) ltac:(cbn; lia))
      as [Hsome _].
    destruct Hsome as [p Hkey].
    { right. vm_compute. reflexivity. }
    destruct (Hapi p Hkey) as [Ht [Hc [Hpos _]]].
    destruct Hpos as [q [Hq Hpct]]; [vm_compute; reflexivity|].
    exists p, q. split; [exact Hkey|].
    split; [rewrite Ht; reflexivity|].
    split; [rewrite Hc; reflexivity|].
    split; [exact Hq|exact Hpct].
Defined.

(** ** C2 *)

Lemma phases_rolled_up (db : Store) (w : Workflow.t) :
  forallb (Summary.phase_complete db) (phases_of db w)
  && (Z.of_nat (List.length (phases_of db w)) >? 0) = true
  <-> (exists p, In p (phases db) /\ Phase.workflow_id p = Workflow.id w)
      /\ (forall p, In p (phases db) ->
                    Phase.workflow_id p = Workflow.id w ->
                    completed_tasks_of db p > 0
                    /\ active_tasks_of db p = 0
                    /\ pending_tasks_of db p = 0).
Proof.
  rewrite andb_true_iff, forallb_forall, length_positive. split.
  - intros [Hall Hne]. split.
    + destruct (phases_of db w) as [|p l] eqn:Hps; [congruence|].
      exists p. apply in_phases_of. rewrite Hps. now left.
    + intros p Hin Hw. apply phase_complete_iff, Hall, in_phases_of. tauto.
  - intros [[p Hp] Hall]. split.
    + intros q Hq. apply in_phases_of in Hq as [Hin Hw].
      apply phase_complete_iff. now apply Hall.
    + apply in_phases_of in Hp. intros Hnil. rewrite Hnil in Hp. exact Hp.
Qed.

(** The store-backed verdict and reason for a selected workflow. *)
Lemma via_db_signals (db : Store) (workflow_id : option string)
  (w : Workflow.t) :
  select_workflow db workflow_id = Some w ->
  exists r,
    check_workflow_completion_via_db db workflow_id = Py.Returns r
    /\ complete r
       = (String.eqb (Workflow.status w) "completed"
          || match validated_result_of db w with
             | Some _ => true
             | None => false
             end
          || (forallb (Summary.phase_complete db) (phases_of db w)
              && (Z.of_nat (List.length (phases_of db w)) >? 0)))
    /\ reason r
       = (if String.eqb (Workflow.status w) "completed"
          then "Workflow marked as completed"
          else match validated_result_of db w with
               | Some _ => "Workflow has validated result"
               | None =>
                   if forallb (Summary.phase_complete db) (phases_of db w)
                      && (Z.of_nat (List.length (phases_of db w)) >? 0)
                   then "All phases complete (all tasks done)"
                   else "Workflow still in progress"
               end).
Proof.
  intros Hsel.
  destruct (String.eqb (Workflow.status w) "completed") eqn:Hst.
  { unfold check_workflow_completion_via_db. rewrite Hsel, Hst.
    eexists. split; [reflexivity|]. split; reflexivity. }
  destruct (validated_result_of db w) as [v|] eqn:Hval.
  { unfold check_workflow_completion_via_db. rewrite Hsel, Hst, Hval.
    eexists. split; [reflexivity|]. split; reflexivity. }
  rewrite (via_db_rollup db workflow_id w Hsel Hst Hval).
  eexists. split; [reflexivity|].
  destruct (forallb _ _ && _); split; reflexivity.
Qed.

(** C2, as stated, fails for the API-backed evaluation: the store holds a
    validated result for workflow [w1], yet the remote view of the same
    workflow (status [active], two pending tasks) is judged not complete;
    that evaluation never looks at workflow results. *)
Lemma api_view_ignores_validated_result :
  ~ (complete (check_workflow_completion_via_api
                 (Body Scenario.validated_body) (Some "w1")) = true
     <-> (WorkflowInfo.status Scenario.validated_body = Some "completed"
          \/ (exists res,
                 In res (workflow_results Scenario.validated)
                 /\ WorkflowResult.workflow_id res = "w1"
                 /\ WorkflowResult.status res = "validated")
          \/ (Py.get (WorkflowInfo.phases Scenario.validated_body) [] <> []
              /\ forall p,
                   In p (Py.get (WorkflowInfo.phases Scenario.validated_body) []) ->
                   api_phase_complete p = true))).
Proof.
  intros [_ H].
  assert (Habs : complete (check_workflow_completion_via_api
                             (Body Scenario.validated_body) (Some "w1")) = true).
  { apply H. right. left. eexists. split; [left; reflexivity|].
    split; reflexivity. }
  vm_compute in Habs. discriminate.
Qed.

(** C2, amended.  For the workflow the store view selects, the
    store-backed verdict is true exactly when (1) its status is [completed],
    or (2) a validated WorkflowResult of it exists, or (3) it has at least
    one phase and every phase of it is complete; the reason names the first
    of these that holds, in that order.  The API-backed verdict for a decoded
    body does not consult workflow results: it is true exactly when the
    reported status is [inactive] or [completed], or at least one phase is
    reported and every reported phase is complete, and the reason names the
    first of these that holds. *)
Theorem workflow_completion_signals
  (db : Store) (workflow_id : option string) (w : Workflow.t)
  (workflow_info : WorkflowInfo.t)
  (Hsel : select_workflow db workflow_id = Some w) :
  let marked := Workflow.status w = "completed" in
  let validated :=
    exists res, In res (workflow_results db)
                /\ WorkflowResult.workflow_id res = Workflow.id w
                /\ WorkflowResult.status res = "validated" in
  let rolled_up :=
    (exists p, In p (phases db) /\ Phase.workflow_id p = Workflow.id w)
    /\ (forall p, In p (phases db) ->
                  Phase.workflow_id p = Workflow.id w ->
                  completed_tasks_of db p > 0
                  /\ active_tasks_of db p = 0
                  /\ pending_tasks_of db p = 0) in
  let reported := Py.get (WorkflowInfo.phases workflow_info) [] in
  let api_inactive := WorkflowInfo.status workflow_info = Some "inactive" in
  let api_marked := WorkflowInfo.status workflow_info = Some "completed" in
  let api_rolled_up :=
    reported <> [] /\ forall p, In p reported -> api_phase_complete p = true in
  (exists r,
      check_workflow_completion_via_db db workflow_id = Py.Returns r
      /\ (complete r = true <-> marked \/ validated \/ rolled_up)
      /\ (marked -> reason r = "Workflow marked as completed")
      /\ (~ marked -> validated -> reason r = "Workflow has validated result")
      /\ (~ marked -> ~ validated -> rolled_up ->
          reason r = "All phases complete (all tasks done)"))
  /\ (let a := check_workflow_completion_via_api (Body workflow_info)
                 workflow_id in
      (complete a = true <-> api_inactive \/ api_marked \/ api_rolled_up)
      /\ (api_inactive -> reason a = "No active workflow")
      /\ (~ api_inactive -> api_marked ->
          reason a = "Workflow marked as completed")
      /\ (~ api_inactive -> ~ api_marked -> api_rolled_up ->
          reason a = "All phases complete (all tasks done)")).
Proof.
  intros marked validated rolled_up reported api_inactive api_marked
    api_rolled_up.
  split.
  - destruct (via_db_signals db workflow_id w Hsel) as [r [Hr [Hc Hreason]]].
    exists r. split; [assumption|].
    assert (Hm : String.eqb (Workflow.status w) "completed" = true <-> marked)
      by apply String.eqb_eq.
    assert (Hv : match validated_result_of db w with
                 | Some _ => true | None => false end = true <-> validated).
    { destruct (validated_result_of db w) as [v|] eqn:Hval.
      - split; [intros _|reflexivity].
        now apply (validated_result_some db w v).
      - split; [discriminate|]. intros Hex.
        now apply validated_result_none in Hval. }
    pose proof (phases_rolled_up db w) as Hp. fold rolled_up in Hp.
    rewrite Hc, Hreason.
    destruct (String.eqb (Workflow.status w) "completed");
      destruct (validated_result_of db w);
      destruct (forallb _ _ && _); cbn [orb];
      repeat split; try tauto; try reflexivity; intros;
      try (exfalso; (tauto || (assert (false = true) by tauto; discriminate)));
      try (right; tauto); try (left; tauto).
  - cbv zeta.
    destruct (via_api_signals workflow_info workflow_id) as [Hc Hreason].
    cbv zeta in Hc, Hreason. rewrite Hc in Hreason. rewrite Hc. clear Hc.
    revert Hreason.
    pose proof (eq_str_true (WorkflowInfo.status workflow_info) "inactive") as Hi.
    pose proof (eq_str_true (WorkflowInfo.status workflow_info) "completed") as Hm.
    assert (Hp : forallb api_phase_complete reported
                 && (Z.of_nat (List.length reported) >? 0) = true
                 <-> api_rolled_up).
    { rewrite andb_true_iff, forallb_forall, length_positive.
      unfold api_rolled_up. tauto. }
    fold reported. fold api_inactive in Hi. fold api_marked in Hm.
    destruct (eq_str (WorkflowInfo.status workflow_info) "inactive");
      destruct (eq_str (WorkflowInfo.status workflow_info) "completed");
      destruct (forallb _ _ && _); cbn [orb]; intros Hreason;
      try rewrite (Hreason eq_refl);
      repeat split; try tauto; try reflexivity; intros;
      try (exfalso; (tauto || (assert (false = true) by tauto; discriminate)));
      try (right; tauto); try (left; tauto).
Qed.

Lemma workflow_completion_signals_witness :
  exists r,
    check_workflow_completion_via_db Scenario.validated None = Py.Returns r
    /\ complete r = true
    /\ reason r = "Workflow has validated result"
    /\ (complete (check_workflow_completion_via_api
                    (Body Scenario.validated_body) None) = true
        <-> WorkflowInfo.status Scenario.validated_body = Some "inactive"
            \/ WorkflowInfo.status Scenario.validated_body = Some "completed"
            \/ (Py.get (WorkflowInfo.phases Scenario.validated_body) [] <> []
                /\ forall p,
                     In p (Py.get (WorkflowInfo.phases Scenario.validated_body) []) ->
                     api_phase_complete p = true)).
Proof.
  destruct (workflow_completion_signals Scenario.validated None
              {| Workflow.id := "w1"; Workflow.name := "demo";
                 Workflow.status := "active" |}
              Scenario.validated_body eq_refl)
    as [[r [Hr [Hc [_ [Hv _]]]]] [Ha _]].
  assert (Hres : exists res,
             In res (workflow_results Scenario.validated)
             /\ WorkflowResult.workflow_id res = "w1"
             /\ WorkflowResult.status res = "validated").
  { eexists. split; [left; reflexivity|]. split; reflexivity. }
  exists r. split; [exact Hr|]. split; [|split].
  - apply Hc. right. left. exact Hres.
  - apply Hv; [discriminate|exact Hres].
  - exact Ha.
Defined.

(** ** C10 *)

(** C10, as stated, fails when a workflow id is passed: the store has no
    active or paused workflow, but the lookup by id finds the finished
    workflow [w1] and the reason is another one. *)
Lemma lookup_by_id_gives_other_reason :
  ~ ((forall w, In w (workflows Scenario.finished) ->
                in_ (Workflow.status w) ["active"; "paused"] = false) ->
     exists r,
       check_workflow_completion_via_db Scenario.finished (Some "w1")
       = Py.Returns r
       /\ complete r = true
       /\ reason r = "No active workflow found").
Proof.
  intros H. destruct H as [r [Hr [_ Hreason]]].
  - intros w [<-|[]]. reflexivity.
  - vm_compute in Hr. injection Hr as <-. discriminate.
Qed.

(** C10, amended.  The store-backed evaluation returns the verdict true
    with reason ["No active workflow found"] when no workflow id is passed
    and no workflow has status [active] or [paused], and also when a
    workflow id is passed and no workflow has that id.  The API-backed
    evaluation returns the verdict true with reason ["No active workflow"]
    when the decoded body reports status [inactive]. *)
Theorem no_active_workflow_is_complete
  (db : Store) (workflow_id : option string) (workflow_info : WorkflowInfo.t) :
  (Py.truthy workflow_id = false ->
   (forall w, In w (workflows db) ->
              Workflow.status w <> "active" /\ Workflow.status w <> "paused") ->
   check_workflow_completion_via_db db workflow_id
   = Py.Returns {| complete := true;
                   reason := "No active workflow found";
                   keys := NoWorkflow |})
  /\ (Py.truthy workflow_id = true ->
      (forall w, In w (workflows db) -> workflow_id <> Some (Workflow.id w)) ->
      check_workflow_completion_via_db db workflow_id
      = Py.Returns {| complete := true;
                      reason := "No active workflow found";
                      keys := NoWorkflow |})
  /\ (WorkflowInfo.status workflow_info = Some "inactive" ->
      check_workflow_completion_via_api (Body workflow_info) workflow_id
      = {| complete := true;
           reason := "No active workflow";
           keys := ApiInfo workflow_info |}).
Proof.
  split; [|split].
  - intros Hfalsy Hnone.
    assert (Hsel : select_workflow db workflow_id = None).
    { unfold select_workflow. rewrite Hfalsy. apply first_filter_none.
      intros w Hw. destruct (Hnone w Hw) as [Ha Hp]. unfold in_. simpl.
      apply String.eqb_neq in Ha, Hp. now rewrite Ha, Hp. }
    unfold check_workflow_completion_via_db. now rewrite Hsel.
  - intros Htruthy Hnone.
    assert (Hsel : select_workflow db workflow_id = None).
    { unfold select_workflow. rewrite Htruthy. apply first_filter_none.
      intros w Hw. apply eq_str_false. now apply Hnone. }
    unfold check_workflow_completion_via_db. now rewrite Hsel.
  - intros Hinactive. apply eq_str_true in Hinactive.
    unfold check_workflow_completion_via_api, api_evaluate.
    now rewrite Hinactive.
Qed.

Lemma no_active_workflow_is_complete_witness :
  check_workflow_completion_via_db Scenario.finished None
  = Py.Returns {| complete := true;
                  reason := "No active workflow found";
                  keys := NoWorkflow |}
  /\ check_workflow_completion_via_db Scenario.finished (Some "w9")
     = Py.Returns {| complete := true;
                     reason := "No active workflow found";
                     keys := NoWorkflow |}
  /\ check_workflow_completion_via_api (Body Scenario.inactive_body) None
     = {| complete := true;
          reason := "No active workflow";
          keys := ApiInfo Scenario.inactive_body |}.
Proof.
  split; [|split].
  - apply (proj1 (no_active_workflow_is_complete Scenario.finished None
                    Scenario.inactive_body)); [reflexivity|].
    intros w [<-|[]]. split; discriminate.
  - apply (proj1 (proj2 (no_active_workflow_is_complete Scenario.finished
                           (Some "w9") Scenario.inactive_body)));
      [reflexivity|].
    intros w [<-|[]]. discriminate.
  - apply (proj2 (proj2 (no_active_workflow_is_complete Scenario.finished None
                           Scenario.inactive_body))). reflexivity.
Defined.

End Completion.

(* ================================================================= *)
(** * Properties of the reporter *)
(* ================================================================= *)

Section Reporter.
Import Database CheckWorkflowStatus.

Lemma no_verdict_line_in_phases (ps : list PhaseStatus.t) :
  filter Summary.is_verdict_line (flat_map print_phase ps) = [].
Proof.
  induction ps as [|p ps IH]; simpl; [reflexivity|assumption].
Qed.

(** What [main] prints for one source, reduced to source and verdict. *)
Lemma verdict_lines_of_result (method : string) (r : Result) :
  filter Summary.is_verdict_line (print_result (method, r))
  = [MethodLine (upper method); Summary.verdict_line (complete r)].
Proof.
  unfold print_result. rewrite !filter_app.
  destruct r as [c rs k]. cbn [complete reason keys].
  destruct c, k; cbn [key_workflow_id key_workflow_name key_status
    key_progress key_phases filter Summary.is_verdict_line app
    Summary.verdict_line];
    rewrite ?no_verdict_line_in_phases; reflexivity.
Qed.

(** ** C7 *)

(** C7, as stated, fails.  The store holds a validated result, so the
    store-backed verdict is complete, while the remote view of the same
    workflow is in progress: the two verdicts disagree.  Yet the output for
    [--method both] has no entry about that: every line of it is a line the
    report of the API source alone or of the store source alone prints, and
    the JSON dictionary is the two single-source dictionaries put together. *)
Lemma disagreement_adds_nothing_to_the_output :
  let env := {| http := Body Scenario.validated_body;
                store := Scenario.validated |} in
  let run m j := main env {| workflow_id := None; method := m; json := j |} in
  (exists r_db,
      check_workflow_completion_via_db (store env) None = Py.Returns r_db
      /\ complete (check_workflow_completion_via_api (http env) None)
         <> complete r_db)
  /\ ~ (exists line,
           In line (Views.lines_of (run both false))
           /\ ~ In line (Views.lines_of (run api false))
           /\ ~ In line (Views.lines_of (run db false)))
  /\ Views.dumped (run both true)
     = Views.dumped (run api true) ++ Views.dumped (run db true).
Proof.
  cbv zeta. split; [|split].
  - eexists. split; [vm_compute; reflexivity|]. vm_compute. discriminate.
  - intros [line [Hin [Hapi Hdb]]]. vm_compute in Hin.
    repeat (destruct Hin as [<-|Hin];
            [first [ apply Hapi;
                     solve [vm_compute;
                            repeat (first [left; reflexivity | right])]
                   | apply Hdb;
                     solve [vm_compute;
                            repeat (first [left; reflexivity | right])] ]
            |]).
    exact Hin.
  - vm_compute. reflexivity.
Qed.

(** C7, amended.  With [--method both] the reporter calls the API-backed
    evaluation once and then the store-backed evaluation once, keeps the two
    results side by side under the keys ["api"] and ["db"], and writes both:
    the JSON output is that dictionary, and the human-readable output is the
    report of the API source followed by the report of the store source and
    the closing tips, each report stating that source's own verdict.  The
    reporter does not compare the two verdicts and writes nothing more when
    they differ: neither verdict is replaced by the other, so a
    disagreement shows only as one source complete and the other in
    progress. *)
Theorem both_sources_reported (env : Env) (args : Args)
  (Hboth : method args = both) :
  let r_api :=
    check_workflow_completion_via_api (http env) (workflow_id args) in
  exists r_db run,
    check_workflow_completion_via_db (store env) (workflow_id args)
    = Py.Returns r_db
    /\ main env args = Py.Returns run
    /\ calls run = [ViaApi (workflow_id args); ViaDb (workflow_id args)]
    /\ results run = [("api", r_api); ("db", r_db)]
    /\ (json args = true ->
        output run = JsonDump [("api", r_api); ("db", r_db)]
        /\ Views.dumped (main env (Views.with_method args api))
           = [("api", r_api)]
        /\ Views.dumped (main env (Views.with_method args db))
           = [("db", r_db)])
    /\ (json args = false ->
        exists lines,
          output run = HumanReadable lines
          /\ filter Summary.is_verdict_line lines
             = [MethodLine "API"; Summary.verdict_line (complete r_api);
                MethodLine "DB"; Summary.verdict_line (complete r_db)]
          /\ (complete r_api <> complete r_db ->
              In WorkflowIsComplete lines /\ In WorkflowInProgress lines)
          /\ lines = print_result ("api", r_api) ++ print_result ("db", r_db)
                     ++ [Rule; TipFrontend; TipApi]
          /\ Views.lines_of (main env (Views.with_method args api))
             = print_result ("api", r_api) ++ [Rule; TipFrontend; TipApi]
          /\ Views.lines_of (main env (Views.with_method args db))
             = print_result ("db", r_db) ++ [Rule; TipFrontend; TipApi]).
Proof.
  intros r_api.
  destruct (via_db_returns (store env) (workflow_id args)) as [r_db [Hdb _]].
  exists r_db. unfold main. rewrite Hboth.
  cbn [Views.with_method method workflow_id json].
  rewrite Hdb.
  cbn [method_name in_ existsb String.eqb Ascii.eqb Bool.eqb orb app Py.bind].
  eexists. split; [reflexivity|]. split; [reflexivity|].
  cbn [calls results output]. split; [reflexivity|]. split; [reflexivity|].
  split.
  - intros ->. cbn [Views.dumped output]. repeat split.
  - intros ->. eexists. split; [reflexivity|].
    assert (Hlines :
      filter Summary.is_verdict_line
        (flat_map print_result [("api", r_api); ("db", r_db)]
         ++ [Rule; TipFrontend; TipApi])
      = [MethodLine "API"; Summary.verdict_line (complete r_api);
         MethodLine "DB"; Summary.verdict_line (complete r_db)]).
    { cbn [flat_map]. rewrite !filter_app, !verdict_lines_of_result.
      reflexivity. }
    split; [exact Hlines|]. split.
    + intros Hdiff.
      assert (Hin : forall l,
                 In l [MethodLine "API"; Summary.verdict_line (complete r_api);
                       MethodLine "DB"; Summary.verdict_line (complete r_db)] ->
                 In l (flat_map print_result [("api", r_api); ("db", r_db)]
                       ++ [Rule; TipFrontend; TipApi])).
      { intros l Hl. rewrite <- Hlines in Hl. now apply filter_In in Hl. }
      fold r_api in Hin, Hdiff |- *.
      destruct (complete r_api), (complete r_db); try congruence;
        split; apply Hin; simpl; tauto.
    + cbn [Views.lines_of output flat_map].
      rewrite !app_nil_r, <- !app_assoc. repeat split.
Qed.

Lemma both_sources_reported_witness :
  exists run lines,
    main {| http := Body Scenario.validated_body;
            store := Scenario.validated |}
         {| workflow_id := None; method := both; json := false |}
    = Py.Returns run
    /\ calls run = [ViaApi None; ViaDb None]
    /\ output run = HumanReadable lines
    /\ In WorkflowIsComplete lines
    /\ In WorkflowInProgress lines.
Proof.
  destruct (both_sources_reported
              {| http := Body Scenario.validated_body;
                 store := Scenario.validated |}
              {| workflow_id := None; method := both; json := false |}
              eq_refl)
    as [r_db [run [Hdb [Hmain [Hcalls [_ [_ Hhuman]]]]]]].
  destruct (Hhuman eq_refl) as [lines [Hout [_ [Hdiffer _]]]].
  exists run, lines. split; [exact Hmain|]. split; [exact Hcalls|].
  split; [exact Hout|].
  apply Hdiffer. vm_compute in Hdb. injection Hdb as <-.
  vm_compute. discriminate.
Defined.

End Reporter.

(* ================================================================= *)
(** * Row objects: positions and assignment *)
(* ================================================================= *)

Section Rows.
Context {A : Type}.

Lemma nth_error_at_length (pre : list A) (r : A) (rest : list A) :
  nth_error (pre ++ r :: rest) (List.length pre) = Some r.
Proof. induction pre as [|a pre IH]; simpl; [reflexivity|assumption]. Qed.

Lemma assign_at_length (f : A -> A) (pre : list A) (r : A) (rest : list A) :
  Session.assign (List.length pre) f (pre ++ r :: rest) = pre ++ f r :: rest.
Proof.
  induction pre as [|a pre IH]; simpl; [reflexivity|]. now rewrite IH.
Qed.

Lemma length_snoc (pre : list A) (r : A) :
  List.length (pre ++ [r]) = S (List.length pre).
Proof. rewrite length_app. simpl. apply Nat.add_1_r. Qed.

Lemma positions_length (p : A -> bool) (rows : list A) :
  forall i, List.length (Session.positions_from p i rows)
            = List.length (filter p rows).
Proof.
  induction rows as [|r rows IH]; intros i; simpl; [reflexivity|].
  destruct (p r); simpl; now rewrite IH.
Qed.

Lemma positions_nil (p : A -> bool) (rows : list A) (i : nat) :
  Session.positions_from p i rows = [] <-> filter p rows = [].
Proof.
  rewrite <- !length_zero_iff_nil. now rewrite positions_length.
Qed.

(** Looking the selected positions up again gives the selected rows. *)
Lemma positions_lookup {B : Type} (p : A -> bool) (g : A -> list B)
  (rest : list A) :
  forall pre,
    flat_map (fun i => match nth_error (pre ++ rest) i with
                       | Some r => g r
                       | None => []
                       end)
             (Session.positions_from p (List.length pre) rest)
    = flat_map g (filter p rest).
Proof.
  induction rest as [|r rest IH]; intros pre; simpl; [reflexivity|].
  assert (Hshift : pre ++ r :: rest = (pre ++ [r]) ++ rest)
    by now rewrite <- app_assoc.
  destruct (p r); simpl.
  - rewrite nth_error_at_length. f_equal.
    rewrite Hshift, <- (length_snoc pre r). apply IH.
  - rewrite Hshift, <- (length_snoc pre r). apply IH.
Qed.

End Rows.

(* ================================================================= *)
(** * Properties of the failed-task reset *)
(* ================================================================= *)

Section FailedTaskReset.
Import Database RestartStalledWorkflow.

(** The reset loop, started after the rows [pre] that are already
    processed. *)
Lemma fold_reset_step (rest : list Task.t) :
  forall pre task_ids,
    fold_left reset_step
      (Session.positions_from is_failed (List.length pre) rest)
      (pre ++ rest, task_ids)
    = (pre ++ Summary.reset_failed rest,
       task_ids ++ map Task.id (filter is_failed rest)).
Proof.
  induction rest as [|t rest IH]; intros pre task_ids; simpl.
  - now rewrite !app_nil_r.
  - assert (Hshift : forall x, pre ++ x :: rest = (pre ++ [x]) ++ rest)
      by (intros x; now rewrite <- app_assoc).
    destruct (is_failed t) eqn:Hf; simpl.
    + rewrite nth_error_at_length, assign_at_length.
      rewrite (Hshift (reset t)), <- (length_snoc pre (reset t)), IH.
      now rewrite <- !app_assoc.
    + rewrite (Hshift t), <- (length_snoc pre t), IH.
      now rewrite <- !app_assoc.
Qed.

Lemma reset_loop (rows : list Task.t) :
  fold_left reset_step (Session.positions is_failed rows) (rows, [])
  = (Summary.reset_failed rows, map Task.id (filter is_failed rows)).
Proof. exact (fold_reset_step rows [] []). Qed.

Lemma listing_has_no_call (rows : list Task.t) (l : list nat) :
  forall ev,
    In ev (flat_map (fun i => match nth_error rows i with
                              | Some task => describe task
                              | None => []
                              end) l) ->
    ev <> Commit /\ ev <> Rollback /\ Summary.is_enqueue_call ev = false.
Proof.
  intros ev Hin. apply in_flat_map in Hin as [i [_ Hin]].
  destruct (nth_error rows i) as [task|]; [|destruct Hin].
  unfold describe in Hin.
  destruct (Py.truthy (Task.failure_reason task)); simpl in Hin;
    repeat (destruct Hin as [<-|Hin]); try destruct Hin;
    repeat split; discriminate.
Qed.

Lemma enqueue_steps_no_rollback (env : Env) (task_ids : list string) :
  forall ev, In ev (flat_map (enqueue_step env) task_ids) ->
             ev <> Rollback /\ ev <> Commit.
Proof.
  intros ev Hin. apply in_flat_map in Hin as [id [_ Hin]].
  unfold enqueue_step in Hin.
  destruct (enqueue_raises env id); simpl in Hin;
    repeat (destruct Hin as [<-|Hin]); try destruct Hin;
    split; discriminate.
Qed.

(** The rows the reset leaves, attribute by attribute. *)
Lemma reset_failed_rows (rows : list Task.t) :
  Forall2 (fun t t' =>
             if is_failed t
             then Task.status t' = "queued"
                  /\ Task.failure_reason t' = None
                  /\ Task.assigned_agent_id t' = None
                  /\ Task.started_at t' = None
                  /\ Task.completed_at t' = None
                  /\ Task.id t' = Task.id t
                  /\ Task.phase_id t' = Task.phase_id t
             else t' = t)
          rows (Summary.reset_failed rows).
Proof.
  induction rows as [|t rows IH]; simpl; constructor; [|assumption].
  destruct (is_failed t); [|reflexivity]. repeat split.
Qed.

(** [restart_failed_tasks] in terms of the failed rows. *)
Lemma restart_failed_tasks_eq (env : Env) (db : Store) :
  restart_failed_tasks env db
  = match filter is_failed (tasks db) with
    | [] => (db, [NoFailedTasksFound; Close])
    | _ :: _ =>
        let failed := filter is_failed (tasks db) in
        let n := Z.of_nat (List.length failed) in
        let listing :=
          FoundFailed n :: flat_map describe failed ++ [Resetting n] in
        match commit_raises env with
        | Some e => (db, listing ++ [ErrorLine (Py.str e); Rollback; Close])
        | None =>
            (with_tasks db (Summary.reset_failed (tasks db)),
             listing ++ [Commit; ResetDone n; Enqueuing n]
             ++ flat_map (enqueue_step env) (map Task.id failed)
             ++ [Completed n; QueueProcessorNote; Close])
        end
    end.
Proof.
  unfold restart_failed_tasks.
  pose proof (positions_nil is_failed (tasks db) 0) as Hnil.
  pose proof (positions_length is_failed (tasks db) 0) as Hlen.
  pose proof (reset_loop (tasks db)) as Hloop.
  pose proof (positions_lookup is_failed describe (tasks db) []) as Hlook.
  cbn [app List.length] in Hlook. unfold Session.positions in *.
  destruct (Session.positions_from is_failed 0 (tasks db)) as [|i l].
  - now rewrite (proj1 Hnil eq_refl).
  - destruct (filter is_failed (tasks db)) as [|t f] eqn:Hf.
    + destruct Hnil as [_ Hnil]. discriminate (Hnil eq_refl).
    + rewrite Hloop, Hlook, Hlen. cbv zeta. rewrite length_map.
      reflexivity.
Qed.

Lemma reset_failed_none (rows : list Task.t) :
  filter is_failed rows = [] -> Summary.reset_failed rows = rows.
Proof.
  induction rows as [|t rows IH]; simpl; [reflexivity|].
  destruct (is_failed t); [discriminate|]. intros H. now rewrite IH.
Qed.

(** ** C4 *)

(** C4. [restart_failed_tasks] selects the rows with status [failed].
    When the commit raises, the store is left exactly as it was (every
    selected task is still [failed]) and neither a commit nor any call on
    the queue service is recorded.  When the commit returns, every selected
    row has status [queued] and its failure reason, assigned agent, start
    and completion times cleared, every other row and table is untouched,
    the commit comes before the first call on the queue service, the queue
    service is called once per selected task id, a call that raises is
    reported for that task, and no rollback follows. *)
Theorem failed_task_reset_all_or_nothing (env : Env) (db : Store) :
  let failed := filter is_failed (tasks db) in
  let task_ids := map Task.id failed in
  let n := Z.of_nat (List.length failed) in
  let db' := fst (restart_failed_tasks env db) in
  let events := snd (restart_failed_tasks env db) in
  (forall e, commit_raises env = Some e ->
     db' = db
     /\ (forall t, In t failed -> In t (tasks db') /\ Task.status t = "failed")
     /\ (forall ev, In ev events ->
                    ev <> Commit /\ Summary.is_enqueue_call ev = false))
  /\ (commit_raises env = None ->
      Forall2 (fun t t' =>
                 if String.eqb (Task.status t) "failed"
                 then Task.status t' = "queued"
                      /\ Task.failure_reason t' = None
                      /\ Task.assigned_agent_id t' = None
                      /\ Task.started_at t' = None
                      /\ Task.completed_at t' = None
                      /\ Task.id t' = Task.id t
                      /\ Task.phase_id t' = Task.phase_id t
                 else t' = t)
              (tasks db) (tasks db')
      /\ (workflows db' = workflows db /\ phases db' = phases db
          /\ workflow_results db' = workflow_results db
          /\ agents db' = agents db /\ worktrees db' = worktrees db)
      /\ ~ In Rollback events
      /\ (failed <> [] ->
          exists listing,
            events = listing
                     ++ [Commit; ResetDone n; Enqueuing n]
                     ++ flat_map (enqueue_step env) task_ids
                     ++ [Completed n; QueueProcessorNote; Close]
            /\ forall ev, In ev listing ->
                          Summary.is_enqueue_call ev = false)
      /\ (forall id e, In id task_ids -> enqueue_raises env id = Some e ->
                       In (EnqueueFailed (Py.take 8 id) (Py.str e)) events)).
Proof.
  intros failed task_ids n db' events.
  subst db' events. rewrite restart_failed_tasks_eq. fold failed.
  assert (Hlisting : forall ev,
             In ev (FoundFailed n :: flat_map describe failed ++ [Resetting n]) ->
             ev <> Commit /\ ev <> Rollback
             /\ Summary.is_enqueue_call ev = false).
  { intros ev [<-|Hin]; [repeat split; discriminate|].
    apply in_app_or in Hin as [Hin|[<-|[]]]; [|repeat split; discriminate].
    apply in_flat_map in Hin as [t [_ Hin]]. unfold describe in Hin.
    destruct (Py.truthy (Task.failure_reason t)); simpl in Hin;
      repeat (destruct Hin as [<-|Hin]); try destruct Hin;
      repeat split; discriminate. }
  split.
  - intros e He. rewrite He.
    assert (Hdb : fst (match failed with
                       | [] => (db, [NoFailedTasksFound; Close])
                       | _ :: _ =>
                           (db, (FoundFailed n
                                 :: flat_map describe failed ++ [Resetting n])
                                ++ [ErrorLine (Py.str e); Rollback; Close])
                       end) = db) by (destruct failed; reflexivity).
    cbv zeta. fold n. rewrite Hdb. split; [reflexivity|]. split.
    + intros t Ht. apply filter_In in Ht as [Hin Hf]. split; [assumption|].
      now apply String.eqb_eq.
    + intros ev Hin. destruct failed as [|t f].
      * simpl in Hin. destruct Hin as [<-|[<-|[]]]; repeat split; discriminate.
      * cbn [snd] in Hin. apply in_app_or in Hin as [Hin|Hin].
        -- destruct (Hlisting ev Hin) as [Hc [_ Hq]]. now split.
        -- simpl in Hin. destruct Hin as [<-|[<-|[<-|[]]]]; repeat split; discriminate.
  - intros Hok. rewrite Hok. cbv zeta. fold n. fold task_ids.
    destruct failed as [|t f] eqn:Hfailed.
    + cbn [fst snd]. rewrite <- (reset_failed_none (tasks db) Hfailed) at 2.
      split; [apply reset_failed_rows|]. split; [repeat split|].
      split; [simpl; intuition discriminate|].
      split; [congruence|]. intros id e [].
    + cbn [fst snd with_tasks tasks workflows phases workflow_results agents
        worktrees].
      split; [apply reset_failed_rows|]. split; [repeat split|].
      split; [|split].
      * intros Hin. apply in_app_or in Hin as [Hin|Hin].
        { destruct (Hlisting Rollback Hin) as [_ [Hr _]]. congruence. }
        apply in_app_or in Hin as [Hin|Hin].
        { simpl in Hin. intuition discriminate. }
        apply in_app_or in Hin as [Hin|Hin].
        { destruct (enqueue_steps_no_rollback env task_ids Rollback Hin).
          congruence. }
        simpl in Hin. intuition discriminate.
      * intros _. eexists. split; [reflexivity|].
        intros ev Hin. now apply Hlisting.
      * intros id e Hin He. apply in_or_app. right.
        apply in_or_app. right. apply in_or_app. left.
        apply in_flat_map. exists id. split; [assumption|].
        unfold enqueue_step. rewrite He. right. now left.
Qed.

Lemma failed_task_reset_all_or_nothing_witness :
  fst (restart_failed_tasks Scenario.commit_fails Scenario.running)
  = Scenario.running
  /\ In (EnqueueFailed "t5" "queue full")
        (snd (restart_failed_tasks Scenario.queue_refuses_t5 Scenario.running))
  /\ ~ In Rollback
         (snd (restart_failed_tasks Scenario.queue_refuses_t5 Scenario.running)).
Proof.
  split; [|split].
  - destruct (failed_task_reset_all_or_nothing Scenario.commit_fails
                Scenario.running) as [Hfails _].
    exact (proj1 (Hfails _ eq_refl)).
  - destruct (failed_task_reset_all_or_nothing Scenario.queue_refuses_t5
                Scenario.running) as [_ Hok].
    destruct (Hok eq_refl) as [_ [_ [_ [_ Hreport]]]].
    apply (Hreport "t5" (Py.Exception "queue full")); [|reflexivity].
    right. left. reflexivity.
  - destruct (failed_task_reset_all_or_nothing Scenario.queue_refuses_t5
                Scenario.running) as [_ Hok].
    exact (proj1 (proj2 (proj2 (Hok eq_refl)))).
Defined.

(** On the running store with the queue refusing [t5]: both failed tasks
    end up [queued], the others keep their status. *)
Example reset_of_running :
  map Task.status
    (tasks (fst (restart_failed_tasks Scenario.queue_refuses_t5
                   Scenario.running)))
  = ["done"; "done"; "queued"; "pending"; "queued"].
Proof. vm_compute. reflexivity. Qed.

End FailedTaskReset.

(* ================================================================= *)
(** * Properties of the staleness detector *)
(* ================================================================= *)

Section Staleness.
Import Database CleanupStaleWorktrees.

(** The detection loop, started after the rows [pre]. *)
Lemma fold_detect_step (w : World) (git_worktrees : list string)
  (rest : list AgentWorktree.t) :
  forall pre acc,
    worktrees (store w) = pre ++ rest ->
    fold_left (detect_step w git_worktrees)
      (Session.positions_from is_active (List.length pre) rest) acc
    = acc ++ Summary.stale_items_from (store w) (path_exists w) git_worktrees
               (List.length pre) rest.
Proof.
  induction rest as [|wt rest IH]; intros pre acc Hrows; simpl.
  - now rewrite app_nil_r.
  - assert (Hshift : worktrees (store w) = (pre ++ [wt]) ++ rest)
      by now rewrite <- app_assoc.
    destruct (is_active wt) eqn:Hactive; simpl.
    + unfold detect_step at 2. rewrite Hrows, nth_error_at_length.
      fold (Summary.is_stale (path_exists w) git_worktrees wt).
      rewrite <- (length_snoc pre wt).
      destruct (Summary.is_stale (path_exists w) git_worktrees wt).
      * rewrite (IH _ _ Hshift). now rewrite <- app_assoc.
      * now rewrite (IH _ _ Hshift).
    + rewrite <- (length_snoc pre wt). now apply IH.
Qed.

Lemma find_stale_worktrees_eq (w : World) (r : Repo) :
  find_stale_worktrees w r
  = Summary.stale_items_from (store w) (path_exists w)
      (Py.split "worktree " (worktree_list r)) 0 (worktrees (store w)).
Proof.
  unfold find_stale_worktrees, Session.positions.
  exact (fold_detect_step w _ (worktrees (store w)) [] [] eq_refl).
Qed.

(** The marking loop, started after the rows [pre]. *)
Lemma fold_mark_step (db : Store) (path_exists : string -> bool)
  (git_worktrees : list string) (rest : list AgentWorktree.t) :
  forall pre,
    fold_left mark_step
      (Summary.stale_items_from db path_exists git_worktrees
         (List.length pre) rest)
      (pre ++ rest)
    = pre ++ Summary.clean_stale path_exists git_worktrees rest.
Proof.
  induction rest as [|wt rest IH]; intros pre; simpl; [reflexivity|].
  assert (Hshift : forall x, pre ++ x :: rest = (pre ++ [x]) ++ rest)
    by (intros x; now rewrite <- app_assoc).
  destruct (is_active wt && Summary.is_stale path_exists git_worktrees wt);
    simpl.
  - unfold mark_step at 2. cbn [position].
    rewrite assign_at_length, (Hshift (mark_cleaned wt)).
    rewrite <- (length_snoc pre (mark_cleaned wt)), IH.
    now rewrite <- app_assoc.
  - rewrite (Hshift wt), <- (length_snoc pre wt), IH.
    now rewrite <- app_assoc.
Qed.

(** After the marking nothing is stale any more. *)
Lemma nothing_stale_after_cleaning (db : Store) (path_exists : string -> bool)
  (git_worktrees : list string) (rows : list AgentWorktree.t) :
  forall i,
    Summary.stale_items_from db path_exists git_worktrees i
      (Summary.clean_stale path_exists git_worktrees rows) = [].
Proof.
  induction rows as [|wt rows IH]; intros i; simpl; [reflexivity|].
  destruct (is_active wt && Summary.is_stale path_exists git_worktrees wt)
    eqn:Hstale.
  - cbn [is_active mark_cleaned AgentWorktree.merge_status String.eqb
      Ascii.eqb Bool.eqb andb]. apply IH.
  - rewrite Hstale. apply IH.
Qed.

Lemma clean_stale_none (db : Store) (path_exists : string -> bool)
  (git_worktrees : list string) (rows : list AgentWorktree.t) :
  forall i,
    Summary.stale_items_from db path_exists git_worktrees i rows = [] ->
    Summary.clean_stale path_exists git_worktrees rows = rows.
Proof.
  induction rows as [|wt rows IH]; intros i; simpl; [reflexivity|].
  destruct (is_active wt && Summary.is_stale path_exists git_worktrees wt);
    [discriminate|].
  intros H. f_equal. exact (IH _ H).
Qed.

Lemma delete_step_eq (env : Env) (r : Repo) (events : list Event)
  (b : string) :
  delete_step env (r, events) b
  = if has_branch r b
    then match branch_delete_raises env b with
         | None => (remove_branch b r, events ++ [BranchDelete b; Deleted b])
         | Some e => (r, events ++ [BranchDelete b; DeleteFailed b (Py.str e)])
         end
    else (r, events ++ [BranchDelete b;
                        DeleteFailed b (Py.str (branch_not_found env b))]).
Proof.
  unfold delete_step, git_branch_delete.
  destruct (has_branch r b); [|reflexivity].
  now destruct (branch_delete_raises env b).
Qed.

(** Deleting branches does not change the worktree listing. *)
Lemma delete_keeps_listing (env : Env) (branches : list string) :
  forall r events,
    worktree_list (fst (fold_left (delete_step env) branches (r, events)))
    = worktree_list r.
Proof.
  induction branches as [|b bs IH]; intros r events; cbn [fold_left];
    [reflexivity|].
  rewrite delete_step_eq.
  destruct (has_branch r b); [destruct (branch_delete_raises env b)|];
    rewrite IH; reflexivity.
Qed.

(** The world an execute-mode run leaves when the commit returns. *)
Lemma execute_run (env : Env) (w : World) (r : Repo) :
  repo w = Py.Returns r ->
  commit_raises env = None ->
  exists r',
    worktree_list r' = worktree_list r
    /\ fst (cleanup_stale_worktrees env false w)
       = match find_stale_worktrees w r with
         | [] => w
         | _ :: _ =>
             with_store_repo w
               (with_worktrees (store w)
                  (Summary.clean_stale (path_exists w)
                     (Py.split "worktree " (worktree_list r))
                     (worktrees (store w))))
               r'
         end.
Proof.
  intros Hrepo Hcommit. unfold cleanup_stale_worktrees.
  rewrite Hrepo, Hcommit.
  destruct (find_stale_worktrees w r) as [|item items] eqn:Hstale.
  { exists r. split; reflexivity. }
  cbv zeta.
  assert (Hmark : fold_left mark_step (item :: items) (worktrees (store w))
                  = Summary.clean_stale (path_exists w)
                      (Py.split "worktree " (worktree_list r))
                      (worktrees (store w))).
  { rewrite <- Hstale, find_stale_worktrees_eq.
    exact (fold_mark_step (store w) (path_exists w) _ (worktrees (store w)) []). }
  rewrite Hmark.
  destruct (fold_left (collect_step r) (item :: items) ([], []))
    as [branches_to_delete warnings].
  destruct branches_to_delete as [|b bs].
  { exists r. split; reflexivity. }
  pose proof (delete_keeps_listing env (b :: bs) r
                [FoundBranches (Z.of_nat (List.length (b :: bs)))]) as Hkeep.
  destruct (fold_left (delete_step env) (b :: bs)
              (r, [FoundBranches (Z.of_nat (List.length (b :: bs)))]))
    as [r' deletions].
  exists r'. split; [exact Hkeep|reflexivity].
Qed.

Lemma in_stale_items (db : Store) (path_exists : string -> bool)
  (git_worktrees : list string) (item : Item)
  (rows : list AgentWorktree.t) :
  forall i,
    In item (Summary.stale_items_from db path_exists git_worktrees i rows) ->
    In (worktree item) rows
    /\ is_active (worktree item) = true
    /\ Summary.is_stale path_exists git_worktrees (worktree item) = true
    /\ agent_status item = agent_status_of db (worktree item).
Proof.
  induction rows as [|wt rows IH]; intros i; simpl; [intros []|].
  destruct (is_active wt && Summary.is_stale path_exists git_worktrees wt)
    eqn:Hstale.
  - intros [<-|Hin].
    + apply andb_true_iff in Hstale as [Ha Hs]. cbn [worktree agent_status].
      repeat split; try assumption. now left.
    + destruct (IH _ Hin) as [H1 H2]. split; [now right|exact H2].
  - intros Hin. destruct (IH _ Hin) as [H1 H2]. split; [now right|exact H2].
Qed.

Lemma stale_row_has_item (db : Store) (path_exists : string -> bool)
  (git_worktrees : list string) (wt : AgentWorktree.t)
  (rows : list AgentWorktree.t) :
  forall i,
    In wt rows ->
    is_active wt = true ->
    Summary.is_stale path_exists git_worktrees wt = true ->
    In wt (map worktree
             (Summary.stale_items_from db path_exists git_worktrees i rows)).
Proof.
  induction rows as [|x rows IH]; intros i; simpl; [intros []|].
  intros [->|Hin] Ha Hs.
  - rewrite Ha, Hs. now left.
  - destruct (is_active x && Summary.is_stale path_exists git_worktrees x);
      [right|]; now apply IH.
Qed.

Lemma is_stale_iff (path_exists : string -> bool)
  (git_worktrees : list string) (wt : AgentWorktree.t) :
  Summary.is_stale path_exists git_worktrees wt = true
  <-> path_exists (AgentWorktree.worktree_path wt) = false
      \/ forall chunk, In chunk git_worktrees ->
                       Py.contains (AgentWorktree.worktree_path wt) chunk = false.
Proof.
  unfold Summary.is_stale, listed.
  rewrite orb_true_iff, !negb_true_iff. apply or_iff_compat_l.
  split.
  - intros H chunk Hin. apply not_true_is_false. intros Hc.
    assert (Hex : existsb (fun c => Py.contains (AgentWorktree.worktree_path wt) c)
                    git_worktrees = true)
      by (apply existsb_exists; now exists chunk).
    congruence.
  - intros H. apply not_true_is_false. intros Hex.
    apply existsb_exists in Hex as [chunk [Hin Hc]].
    rewrite (H chunk Hin) in Hc. discriminate.
Qed.

Lemma agent_status_of_cases (db : Store) (wt : AgentWorktree.t) :
  (exists agent,
      In agent (agents db)
      /\ Agent.id agent = AgentWorktree.agent_id wt
      /\ agent_status_of db wt = Agent.status agent)
  \/ ((forall agent, In agent (agents db) ->
                     Agent.id agent <> AgentWorktree.agent_id wt)
      /\ agent_status_of db wt = "NOT_FOUND").
Proof.
  unfold agent_status_of.
  destruct (first (filter (fun a => String.eqb (Agent.id a)
                                      (AgentWorktree.agent_id wt))
                          (agents db))) as [agent|] eqn:Hfirst.
  - left. apply first_filter_some in Hfirst as [Hin Hid].
    exists agent. apply String.eqb_eq in Hid. now repeat split.
  - right. split; [|reflexivity].
    intros agent Hin. apply String.eqb_neq.
    exact (proj1 (first_filter_none _ _) Hfirst agent Hin).
Qed.

(** ** C6 *)

(** C6, at an input where the code misses it.  The row of [/tmp/wt-7] is
    [active], its directory is on disk, and git does not list that path: by
    the claim it is stale.  The script tests whether the path occurs inside
    a piece of the listing, [/tmp/wt-7] occurs inside [/tmp/wt-77], and the
    run reports that nothing is stale. *)
Lemma prefix_of_a_listed_path_passes_for_listed :
  let row := {| AgentWorktree.agent_id := "agent-7";
                AgentWorktree.worktree_path := "/tmp/wt-7";
                AgentWorktree.branch_name := "agent-7";
                AgentWorktree.merge_status := "active" |} in
  In row (worktrees (store Scenario.leftover_checkout))
  /\ path_exists Scenario.leftover_checkout "/tmp/wt-7" = true
  /\ Views.listed_paths (worktree_list Scenario.repo_with_wt77)
     = ["/repo"; "/tmp/wt-1"; "/tmp/wt-77"]
  /\ ~ In "/tmp/wt-7"
         (Views.listed_paths (worktree_list Scenario.repo_with_wt77))
  /\ find_stale_worktrees Scenario.leftover_checkout Scenario.repo_with_wt77
     = []
  /\ snd (cleanup_stale_worktrees Scenario.cleanup_succeeds false
            Scenario.leftover_checkout)
     = [NoStaleWorktreesFound; Close].
Proof.
  cbv zeta. split; [right; left; reflexivity|].
  split; [reflexivity|]. split; [vm_compute; reflexivity|].
  split.
  - vm_compute. intros [H|[H|[H|[]]]]; discriminate H.
  - split; vm_compute; reflexivity.
Qed.

(** The same test misses in the other direction: the path
    [/srv/worktree pool/wt-3] is on disk and git lists it, but splitting the
    listing at ["worktree "] cuts the path in two, no piece contains it, and
    the row is reported stale. *)
Example listed_path_cut_by_the_separator :
  let r := {| worktree_list :=
                ("worktree /srv/worktree pool/wt-3" ++ Scenario.nl
                 ++ "HEAD 6a7b" ++ Scenario.nl
                 ++ "branch refs/heads/agent-3" ++ Scenario.nl)%string;
              branches := Py.Returns ["agent-3"] |} in
  let w := {| store :=
                {| workflows := [];
                   phases := [];
                   tasks := [];
                   workflow_results := [];
                   agents := [];
                   worktrees :=
                     [ {| AgentWorktree.agent_id := "agent-3";
                          AgentWorktree.worktree_path := "/srv/worktree pool/wt-3";
                          AgentWorktree.branch_name := "agent-3";
                          AgentWorktree.merge_status := "active" |} ] |};
              path_exists := fun _ => true;
              repo := Py.Returns r |} in
  Views.listed_paths (worktree_list r) = ["/srv/worktree pool/wt-3"]
  /\ map (fun item => (AgentWorktree.worktree_path (worktree item),
                       exists_on_disk item, in_git_list item))
       (find_stale_worktrees w r)
     = [("/srv/worktree pool/wt-3", true, false)].
Proof. split; vm_compute; reflexivity. Qed.

(** ** The staleness test of the script *)

(** X21. When the repository can be opened, the detector's stale list
    holds exactly the worktree rows with [merge_status] [active] whose path
    does not exist on disk or occurs inside no piece of the porcelain
    listing split at ["worktree "].  Every entry of the list is printed in
    the report, in both modes, and carries the status of the agent with the
    row's [agent_id], or ['NOT_FOUND'] when the store has no agent with that
    id. *)
Theorem stale_worktrees_detected (env : Env) (dry_run : bool) (w : World)
  (r : Repo) (Hrepo : repo w = Py.Returns r) :
  let git_worktrees := Py.split "worktree " (worktree_list r) in
  let stale_worktrees := find_stale_worktrees w r in
  (forall wt,
      In wt (map worktree stale_worktrees)
      <-> In wt (worktrees (store w))
          /\ AgentWorktree.merge_status wt = "active"
          /\ (path_exists w (AgentWorktree.worktree_path wt) = false
              \/ forall chunk,
                   In chunk git_worktrees ->
                   Py.contains (AgentWorktree.worktree_path wt) chunk = false))
  /\ (forall item,
         In item stale_worktrees ->
         In (StaleLine item) (snd (cleanup_stale_worktrees env dry_run w))
         /\ ((exists agent,
                 In agent (agents (store w))
                 /\ Agent.id agent = AgentWorktree.agent_id (worktree item)
                 /\ agent_status item = Agent.status agent)
             \/ ((forall agent,
                     In agent (agents (store w)) ->
                     Agent.id agent <> AgentWorktree.agent_id (worktree item))
                 /\ agent_status item = "NOT_FOUND"))).
Proof.
  intros git_worktrees stale_worktrees. split.
  - intros wt. subst stale_worktrees. rewrite find_stale_worktrees_eq.
    fold git_worktrees. split.
    + intros Hin. apply in_map_iff in Hin as [item [<- Hin]].
      apply in_stale_items in Hin as [H1 [H2 [H3 _]]].
      split; [exact H1|]. split.
      * now apply String.eqb_eq.
      * now apply is_stale_iff.
    + intros [Hin [Ha Hs]]. apply stale_row_has_item; [assumption| |].
      * now apply String.eqb_eq.
      * now apply is_stale_iff.
  - intros item Hin. split.
    + unfold cleanup_stale_worktrees. rewrite Hrepo.
      fold stale_worktrees.
      destruct stale_worktrees as [|x xs] eqn:Hstale; [destruct Hin|].
      cbv zeta.
      assert (Hline : In (StaleLine item) (map StaleLine (x :: xs)))
        by now apply in_map.
      destruct dry_run.
      { cbn [snd]. right. apply in_or_app. now left. }
      destruct (commit_raises env).
      { cbn [snd]. right. apply in_or_app. now left. }
      destruct (fold_left (collect_step r) (x :: xs) ([], [])) as [bs ws].
      destruct (match bs with
                | [] => (r, [NoOrphanedBranches])
                | _ :: _ => _
                end) as [r' ds].
      cbn [snd]. right. apply in_or_app. now left.
    + subst stale_worktrees. rewrite find_stale_worktrees_eq in Hin.
      apply in_stale_items in Hin as [_ [_ [_ ->]]].
      apply agent_status_of_cases.
Qed.

Lemma stale_worktrees_detected_witness :
  exists item,
    In item (find_stale_worktrees Scenario.checkout_7_gone
               Scenario.repo_without_wt7)
    /\ AgentWorktree.worktree_path (worktree item) = "/tmp/wt-7"
    /\ agent_status item = "NOT_FOUND"
    /\ In (StaleLine item)
          (snd (cleanup_stale_worktrees Scenario.cleanup_succeeds true
                  Scenario.checkout_7_gone)).
Proof.
  destruct (stale_worktrees_detected Scenario.cleanup_succeeds true
              Scenario.checkout_7_gone Scenario.repo_without_wt7 eq_refl)
    as [Hexactly Hreport].
  assert (Hin : In {| AgentWorktree.agent_id := "agent-7";
                      AgentWorktree.worktree_path := "/tmp/wt-7";
                      AgentWorktree.branch_name := "agent-7";
                      AgentWorktree.merge_status := "active" |}
                   (map worktree
                      (find_stale_worktrees Scenario.checkout_7_gone
                         Scenario.repo_without_wt7))).
  { apply Hexactly. split; [right; left; reflexivity|].
    split; [reflexivity|]. left. reflexivity. }
  apply in_map_iff in Hin as [item [Hwt Hitem]].
  exists item. split; [exact Hitem|]. split; [now rewrite Hwt|].
  destruct (Hreport item Hitem) as [Hline Hstatus].
  split; [|exact Hline].
  destruct Hstatus as [[agent [Hagent [Hid _]]]|[_ Hnot]]; [|exact Hnot].
  exfalso. rewrite Hwt in Hid. cbn [AgentWorktree.agent_id] in Hid.
  simpl in Hagent.
  repeat (destruct Hagent as [<-|Hagent]; [discriminate Hid|]).
  exact Hagent.
Defined.

(** ** C5 *)

(** C5. When the commit of an execute-mode run returns, that run has set
    [merge_status] to [cleaned] on exactly the rows that were [active] and
    stale and has left every other row as it was.  A second execute-mode
    run on the world the first one left finds no stale record, returns that
    world unchanged, and records no marking, no commit and no branch
    deletion. *)
Theorem execute_mode_is_idempotent (env1 env2 : Env) (w : World)
  (Hcommit : commit_raises env1 = None) :
  let w1 := fst (cleanup_stale_worktrees env1 false w) in
  (forall r,
      repo w = Py.Returns r ->
      worktrees (store w1)
      = map (fun wt =>
               if String.eqb (AgentWorktree.merge_status wt) "active"
                  && (negb (path_exists w (AgentWorktree.worktree_path wt))
                      || negb (listed (Py.split "worktree " (worktree_list r))
                                 wt))
               then mark_cleaned wt else wt)
            (worktrees (store w)))
  /\ (forall r1, repo w1 = Py.Returns r1 -> find_stale_worktrees w1 r1 = [])
  /\ fst (cleanup_stale_worktrees env2 false w1) = w1
  /\ (forall ev,
         In ev (snd (cleanup_stale_worktrees env2 false w1)) ->
         Summary.is_action ev = false).
Proof.
  intros w1. subst w1.
  destruct (repo w) as [r|e] eqn:Hrepo.
  - destruct (execute_run env1 w r Hrepo Hcommit) as [r' [Hlist Hw1]].
    rewrite Hw1. clear Hw1.
    destruct (find_stale_worktrees w r) as [|x xs] eqn:Hstale.
    + assert (Hrun : cleanup_stale_worktrees env2 false w
                     = (w, [NoStaleWorktreesFound; Close])).
      { unfold cleanup_stale_worktrees. now rewrite Hrepo, Hstale. }
      rewrite Hrun. split; [|split; [|split]].
      * intros r0 [= <-]. symmetry.
        apply (clean_stale_none (store w) (path_exists w) _ _ O).
        now rewrite <- find_stale_worktrees_eq.
      * intros r1 Hr1. rewrite Hrepo in Hr1. injection Hr1 as <-.
        exact Hstale.
      * reflexivity.
      * intros ev [<-|[<-|[]]]; reflexivity.
    + set (w1 := with_store_repo w _ r').
      assert (Hnone : find_stale_worktrees w1 r' = []).
      { rewrite find_stale_worktrees_eq. subst w1.
        cbn [store path_exists with_store_repo with_worktrees worktrees].
        rewrite Hlist. apply nothing_stale_after_cleaning. }
      assert (Hrun : cleanup_stale_worktrees env2 false w1
                     = (w1, [NoStaleWorktreesFound; Close])).
      { unfold cleanup_stale_worktrees.
        replace (repo w1) with (Py.Returns r') by reflexivity.
        now rewrite Hnone. }
      rewrite Hrun. split; [|split; [|split]].
      * intros r0 [= <-]. reflexivity.
      * intros r1 Hr1. injection Hr1 as <-. exact Hnone.
      * reflexivity.
      * intros ev [<-|[<-|[]]]; reflexivity.
  - assert (Hrun : forall env,
               cleanup_stale_worktrees env false w
               = (w, [ErrorLine (Py.str e); Rollback; Close])).
    { intros env. unfold cleanup_stale_worktrees. now rewrite Hrepo. }
    rewrite !Hrun. cbn [fst snd]. rewrite Hrepo.
    split; [intros r0; discriminate|].
    split; [intros r1; discriminate|].
    split; [reflexivity|].
    intros ev [<-|[<-|[<-|[]]]]; reflexivity.
Qed.

Lemma execute_mode_is_idempotent_witness :
  let w1 := fst (cleanup_stale_worktrees Scenario.cleanup_succeeds false
                   Scenario.checkout_7_gone) in
  map AgentWorktree.merge_status (worktrees (store w1))
  = ["active"; "cleaned"; "merged"]
  /\ fst (cleanup_stale_worktrees Scenario.cleanup_succeeds false w1) = w1
  /\ (forall r1, repo w1 = Py.Returns r1 -> find_stale_worktrees w1 r1 = []).
Proof.
  destruct (execute_mode_is_idempotent Scenario.cleanup_succeeds
              Scenario.cleanup_succeeds Scenario.checkout_7_gone eq_refl)
    as [Hrows [Hnone [Hsame _]]].
  split; [|split].
  - cbv zeta. rewrite (Hrows Scenario.repo_without_wt7 eq_refl).
    vm_compute. reflexivity.
  - exact Hsame.
  - exact Hnone.
Defined.

(** The scenario of the stale checkout [/tmp/wt-7]: the first
    execute-mode run marks it and deletes branch [agent-7]; the second run
    reports that nothing is stale. *)
Example cleanup_of_wt7 :
  filter Summary.is_action
    (snd (cleanup_stale_worktrees Scenario.cleanup_succeeds false
            Scenario.checkout_7_gone))
  = [Marked "/tmp/wt-7"; Commit; BranchDelete "agent-7"; Deleted "agent-7"]
  /\ snd (cleanup_stale_worktrees Scenario.cleanup_succeeds false
            (fst (cleanup_stale_worktrees Scenario.cleanup_succeeds false
                    Scenario.checkout_7_gone)))
     = [NoStaleWorktreesFound; Close].
Proof. split; vm_compute; reflexivity. Qed.

End Staleness.

(* ================================================================= *)
(** * Properties of the stalled-agent restart *)
(* ================================================================= *)

Section StalledAgents.
Import Database RestartStalledAgents.

Lemma terminate_calls_app (a b : list Event) :
  Summary.terminate_calls (a ++ b)
  = Summary.terminate_calls a ++ Summary.terminate_calls b.
Proof. apply flat_map_app. Qed.

Lemma restart_calls_app (a b : list Event) :
  Summary.restart_calls (a ++ b)
  = Summary.restart_calls a ++ Summary.restart_calls b.
Proof. apply flat_map_app. Qed.

(** The first loop: what it collects, and that it calls nobody. *)
Lemma fold_collect_step (db : Store) (l : list Agent.t) :
  forall task_ids lines,
    fst (fold_left (collect_step db) l (task_ids, lines))
    = task_ids ++ Summary.collected_task_ids l
    /\ Summary.terminate_calls
         (snd (fold_left (collect_step db) l (task_ids, lines)))
       = Summary.terminate_calls lines
    /\ Summary.restart_calls
         (snd (fold_left (collect_step db) l (task_ids, lines)))
       = Summary.restart_calls lines.
Proof.
  induction l as [|agent l IH]; intros task_ids lines; simpl.
  - now rewrite app_nil_r.
  - destruct (Py.truthy (Agent.current_task_id agent));
      destruct (IH (if true then task_ids ++ [Py.get (Agent.current_task_id agent) ""]
                    else task_ids)
                   (lines ++ [AgentLine (Py.take 8 (Agent.id agent))
                                (Agent.status agent) (task_desc db agent)]))
        as [H1 [H2 H3]];
      destruct (IH task_ids
                   (lines ++ [AgentLine (Py.take 8 (Agent.id agent))
                                (Agent.status agent) (task_desc db agent)]))
        as [H1' [H2' H3']];
      cbv iota in H1.
    + rewrite H1, H2, H3, terminate_calls_app, restart_calls_app. simpl.
      now rewrite <- app_assoc, !app_nil_r.
    + rewrite H1', H2', H3', terminate_calls_app, restart_calls_app. simpl.
      now rewrite !app_nil_r.
Qed.

(** The termination loop: one request per agent, in order, whatever the
    control plane does to the store. *)
Lemma fold_terminate_step (env : Env) (l : list Agent.t) :
  forall db events,
    Summary.terminate_calls
      (snd (fold_left (terminate_step env) l (db, events)))
    = Summary.terminate_calls events ++ map Agent.id l
    /\ Summary.restart_calls
         (snd (fold_left (terminate_step env) l (db, events)))
       = Summary.restart_calls events.
Proof.
  induction l as [|agent l IH]; intros db events; simpl.
  - now rewrite app_nil_r.
  - destruct (terminate_agent env (Agent.id agent) db) as [db' raised].
    destruct raised as [e|];
      match goal with
      | |- context [fold_left _ l (db', ?ev)] =>
          destruct (IH db' ev) as [H1 H2]
      end;
      rewrite H1, H2, terminate_calls_app, restart_calls_app; simpl;
      now rewrite <- app_assoc, !app_nil_r.
Qed.

Lemma restart_steps_calls (env : Env) (task_ids : list string) :
  Summary.restart_calls (flat_map (restart_step env) task_ids) = task_ids
  /\ Summary.terminate_calls (flat_map (restart_step env) task_ids) = [].
Proof.
  induction task_ids as [|t l [IH1 IH2]]; simpl; [split; reflexivity|].
  rewrite restart_calls_app, terminate_calls_app, IH1, IH2.
  unfold restart_step.
  destruct (restart_task env t) as [a|m|c d|m|e]; try destruct (c =? 400);
    split; reflexivity.
Qed.

Lemma is_active_iff (agent : Agent.t) :
  is_active agent = true
  <-> Agent.status agent = "working" \/ Agent.status agent = "running"
      \/ Agent.status agent = "stuck".
Proof.
  unfold is_active, in_. cbn [existsb].
  rewrite !orb_true_iff, !String.eqb_eq. intuition discriminate.
Qed.

(** The events of a run with at least one selected agent. *)
Lemma restart_stalled_agents_events (env : Env) (db : Store) :
  filter is_active (agents db) <> [] ->
  exists before after,
    snd (restart_stalled_agents env db) = before ++ Sleep 2 :: after
    /\ Summary.terminate_calls before = map Agent.id (filter is_active (agents db))
    /\ Summary.restart_calls before = []
    /\ Summary.terminate_calls after = []
    /\ Summary.restart_calls after
       = Summary.collected_task_ids (filter is_active (agents db)).
Proof.
  intros Hne. unfold restart_stalled_agents.
  destruct (filter is_active (agents db)) as [|a l] eqn:Hsel; [congruence|].
  cbv zeta.
  destruct (fold_collect_step db (a :: l) []
              [FoundActive (Z.of_nat (List.length (a :: l)))])
    as [Hids [Hlt Hlr]].
  destruct (fold_left (collect_step db) (a :: l)
              ([], [FoundActive (Z.of_nat (List.length (a :: l)))]))
    as [task_ids lines].
  destruct (fold_terminate_step env (a :: l) db
              [Step1 (Z.of_nat (List.length (a :: l)))]) as [Htt Htr].
  destruct (fold_left (terminate_step env) (a :: l)
              (db, [Step1 (Z.of_nat (List.length (a :: l)))]))
    as [db' terminations].
  cbn [fst snd] in *.
  destruct (restart_steps_calls env task_ids) as [Hrr Hrt].
  exists (lines ++ terminations).
  exists (Step2 (Z.of_nat (List.length task_ids))
          :: flat_map (restart_step env) task_ids
          ++ [Completed (Z.of_nat (List.length task_ids)); NewAgentsNote; Close]).
  split; [now rewrite <- !app_assoc|].
  rewrite terminate_calls_app, restart_calls_app, Hlt, Hlr, Htt, Htr.
  split; [reflexivity|]. split; [reflexivity|].
  change (Step2 ?n :: ?x) with ([Step2 n] ++ x).
  rewrite !terminate_calls_app, !restart_calls_app, Hrr, Hrt, Hids.
  split; [reflexivity|]. simpl. now rewrite app_nil_r.
Qed.

(** ** C8 *)

(** C8, as stated, fails in two ways.  The idle [agent-2] is attached to
    the same task [t1] as the working [agent-1], and [t1] is submitted for
    restart; and the stuck [agent-3] is selected with the non-null task id
    [""], which is not submitted, because the script tests the truthiness of
    [current_task_id]. *)
Lemma shared_and_empty_task_ids :
  let events :=
    snd (restart_stalled_agents Scenario.control_plane Scenario.shared_task) in
  (exists agent,
      In agent (agents Scenario.shared_task)
      /\ Agent.status agent = "idle"
      /\ Agent.current_task_id agent = Some "t1"
      /\ In "t1" (Summary.restart_calls events))
  /\ (exists agent,
         In agent (filter is_active (agents Scenario.shared_task))
         /\ Agent.current_task_id agent = Some ""
         /\ ~ In "" (Summary.restart_calls events)).
Proof.
  cbv zeta. split.
  - eexists. split; [right; left; reflexivity|].
    split; [reflexivity|]. split; [reflexivity|].
    vm_compute. left. reflexivity.
  - eexists. split; [vm_compute; right; left; reflexivity|].
    split; [reflexivity|].
    vm_compute. intros [H|[]]. discriminate H.
Qed.

(** C8, amended.  [restart_stalled_agents] selects exactly the agents
    with status [working], [running] or [stuck]; termination is requested
    for exactly the selected agents, so never for an agent that is [idle] or
    [terminated]; restart is requested for exactly the non-null, non-empty
    [current_task_id] values the selected agents had in the store the script
    read, one request per such agent, whatever the control plane does to the
    store while terminating.  The task of an agent that is [idle] or
    [terminated] is submitted only when a selected agent carries the same
    task id.  Every termination request precedes the pause, every restart
    request follows it. *)
Theorem stalled_agent_selection (env : Env) (db : Store) :
  let selected := filter is_active (agents db) in
  let events := snd (restart_stalled_agents env db) in
  (forall agent,
      In agent selected
      <-> In agent (agents db)
          /\ (Agent.status agent = "working" \/ Agent.status agent = "running"
              \/ Agent.status agent = "stuck"))
  /\ (forall agent,
         In agent (agents db) ->
         Agent.status agent = "idle" \/ Agent.status agent = "terminated" ->
         ~ In agent selected)
  /\ Summary.terminate_calls events = map Agent.id selected
  /\ Summary.restart_calls events
     = flat_map (fun agent => match Agent.current_task_id agent with
                              | Some task_id =>
                                  if String.eqb task_id "" then [] else [task_id]
                              | None => []
                              end) selected
  /\ (forall task_id,
         In task_id (Summary.restart_calls events)
         <-> task_id <> ""
             /\ exists agent,
                  In agent selected
                  /\ Agent.current_task_id agent = Some task_id)
  /\ (forall agent task_id,
         In agent (agents db) ->
         Agent.status agent = "idle" \/ Agent.status agent = "terminated" ->
         Agent.current_task_id agent = Some task_id ->
         (forall other, In other selected ->
                        Agent.current_task_id other <> Some task_id) ->
         ~ In task_id (Summary.restart_calls events))
  /\ (selected <> [] ->
      exists before after,
        events = before ++ Sleep 2 :: after
        /\ Summary.restart_calls before = []
        /\ Summary.terminate_calls after = []).
Proof.
  intros selected events.
  assert (Hsel : forall agent,
             In agent selected
             <-> In agent (agents db)
                 /\ (Agent.status agent = "working"
                     \/ Agent.status agent = "running"
                     \/ Agent.status agent = "stuck")).
  { intros agent. unfold selected. now rewrite filter_In, is_active_iff. }
  assert (Htruthy : Summary.collected_task_ids selected
                    = flat_map (fun agent =>
                                  match Agent.current_task_id agent with
                                  | Some task_id =>
                                      if String.eqb task_id "" then []
                                      else [task_id]
                                  | None => []
                                  end) selected).
  { unfold Summary.collected_task_ids. apply flat_map_ext. intros agent.
    now destruct (Agent.current_task_id agent) as [[|c t]|]. }
  assert (Hcalls : Summary.terminate_calls events = map Agent.id selected
                   /\ Summary.restart_calls events
                      = Summary.collected_task_ids selected
                   /\ (selected <> [] ->
                       exists before after,
                         events = before ++ Sleep 2 :: after
                         /\ Summary.restart_calls before = []
                         /\ Summary.terminate_calls after = [])).
  { unfold events, selected.
    destruct (filter is_active (agents db)) as [|a l] eqn:Hs.
    - unfold restart_stalled_agents. rewrite Hs.
      split; [reflexivity|]. split; [reflexivity|]. congruence.
    - assert (Hne : filter is_active (agents db) <> [])
        by (rewrite Hs; discriminate).
      destruct (restart_stalled_agents_events env db Hne)
        as [before [after [Hev [Hbt [Hbr [Hat Har]]]]]].
      rewrite Hs in Hbt, Har. rewrite Hev.
      change (Sleep 2 :: after) with ([Sleep 2] ++ after).
      rewrite !terminate_calls_app, !restart_calls_app, Hbt, Hbr, Hat, Har.
      split; [simpl; now rewrite app_nil_r|]. split; [reflexivity|].
      intros _. exists before, after. now repeat split. }
  destruct Hcalls as [Hterm [Hrestart Horder]].
  assert (Hmem : forall task_id,
             In task_id (Summary.restart_calls events)
             <-> task_id <> ""
                 /\ exists agent,
                      In agent selected
                      /\ Agent.current_task_id agent = Some task_id).
  { intros task_id. rewrite Hrestart, Htruthy, in_flat_map. split.
    - intros [agent [Hin Ht]].
      destruct (Agent.current_task_id agent) as [t|] eqn:Hcur; [|destruct Ht].
      destruct (String.eqb t "") eqn:Hempty; [destruct Ht|].
      destruct Ht as [<-|[]]. apply String.eqb_neq in Hempty.
      split; [exact Hempty|]. now exists agent.
    - intros [Hne [agent [Hin Ht]]]. exists agent. split; [assumption|].
      rewrite Ht. apply String.eqb_neq in Hne. rewrite Hne. now left. }
  split; [exact Hsel|]. split.
  { intros agent _ Hstatus Hin. apply Hsel in Hin as [_ Hst].
    destruct Hstatus as [H|H]; rewrite H in Hst; intuition discriminate. }
  split; [exact Hterm|]. split; [now rewrite Hrestart|].
  split; [exact Hmem|]. split.
  { intros agent task_id _ _ _ Hothers Hin.
    apply Hmem in Hin as [_ [other [Hother Ht]]].
    exact (Hothers other Hother Ht). }
  exact Horder.
Qed.

Lemma stalled_agent_selection_witness :
  Summary.terminate_calls
    (snd (restart_stalled_agents Scenario.control_plane Scenario.running))
  = ["agent-1"; "agent-3"; "agent-5"]
  /\ Summary.restart_calls
       (snd (restart_stalled_agents Scenario.control_plane Scenario.running))
     = ["t4"; "t5"]
  /\ ~ In "t1" (Summary.restart_calls
                  (snd (restart_stalled_agents Scenario.control_plane
                          Scenario.running))).
Proof.
  destruct (stalled_agent_selection Scenario.control_plane Scenario.running)
    as [_ [_ [Hterminate [Hrestart [_ [Hidle _]]]]]].
  split; [|split].
  - rewrite Hterminate. reflexivity.
  - rewrite Hrestart. reflexivity.
  - apply (Hidle {| Agent.id := "agent-2"; Agent.status := "idle";
                    Agent.current_task_id := Some "t1" |} "t1").
    + right. left. reflexivity.
    + left. reflexivity.
    + reflexivity.
    + intros other Hother. vm_compute in Hother.
      repeat (destruct Hother as [<-|Hother]; [discriminate|]).
      destruct Hother.
Defined.

(** On the running store: the idle [agent-2] and the terminated [agent-4]
    are left alone although they carry task ids, the stuck [agent-3] has no
    task to restart, and the restart of [t5] is refused as not ready. *)
Example restart_of_running :
  filter (fun ev => match ev with
                    | Terminate _ | Sleep _ | Restart _ | NotReady _ => true
                    | _ => false
                    end)
    (snd (restart_stalled_agents Scenario.control_plane Scenario.running))
  = [Terminate "agent-1"; Terminate "agent-3"; Terminate "agent-5"; Sleep 2;
     Restart "t4"; Restart "t5"; NotReady "task is not failed"].
Proof. vm_compute. reflexivity. Qed.

End StalledAgents.

(* ================================================================= *)
(** * More on the completion evaluation *)
(* ================================================================= *)

Section CompletionBreakdown.
Import Database CheckWorkflowStatus.

Lemma count_positive {A : Type} (p : A -> bool) (rows : list A) :
  count (filter p rows) > 0 <-> exists x, In x rows /\ p x = true.
Proof.
  unfold count. split.
  - intros Hpos. destruct (filter p rows) as [|x l] eqn:Hf; [simpl in Hpos; lia|].
    exists x. apply filter_In. rewrite Hf. now left.
  - intros [x Hx]. apply filter_In in Hx.
    destruct (filter p rows); [destruct Hx|]. simpl. lia.
Qed.

Lemma count_zero {A : Type} (p : A -> bool) (rows : list A) :
  count (filter p rows) = 0 <-> forall x, In x rows -> p x = false.
Proof.
  unfold count. split.
  - intros Hz x Hin. apply not_true_is_false. intros Hp.
    assert (Hx : In x (filter p rows)) by now apply filter_In.
    destruct (filter p rows); [destruct Hx|]. simpl in Hz. lia.
  - intros Hnone. destruct (filter p rows) as [|x l] eqn:Hf; [reflexivity|].
    assert (Hx : In x (filter p rows)) by (rewrite Hf; now left).
    apply filter_In in Hx as [Hin Hp]. rewrite (Hnone x Hin) in Hp.
    discriminate.
Qed.

(** The results that carry a breakdown come from the roll-up. *)
Lemma via_db_breakdown (db : Store) (workflow_id : option string)
  (r : Result) (ps : list PhaseStatus.t) :
  check_workflow_completion_via_db db workflow_id = Py.Returns r ->
  key_phases (keys r) = Some ps ->
  exists w,
    select_workflow db workflow_id = Some w
    /\ validated_result_of db w = None
    /\ ps = map (Summary.phase_entry db) (phases_of db w)
    /\ complete r
       = forallb (Summary.phase_complete db) (phases_of db w)
         && (Z.of_nat (List.length (phases_of db w)) >? 0)
    /\ key_progress (keys r)
       = (if complete r then None
          else Some (Summary.db_progress db (phases_of db w))).
Proof.
  intros Hrun Hkey.
  destruct (select_workflow db workflow_id) as [w|] eqn:Hsel.
  2:{ unfold check_workflow_completion_via_db in Hrun. rewrite Hsel in Hrun.
      injection Hrun as <-. discriminate. }
  destruct (String.eqb (Workflow.status w) "completed") eqn:Hst.
  { unfold check_workflow_completion_via_db in Hrun.
    rewrite Hsel, Hst in Hrun. injection Hrun as <-. discriminate. }
  destruct (validated_result_of db w) as [v|] eqn:Hval.
  { unfold check_workflow_completion_via_db in Hrun.
    rewrite Hsel, Hst, Hval in Hrun. injection Hrun as <-. discriminate. }
  rewrite (via_db_rollup db workflow_id w Hsel Hst Hval) in Hrun.
  exists w. split; [reflexivity|]. split; [exact Hval|].
  destruct (forallb _ _ && _); injection Hrun as <-;
    cbn [keys key_phases] in Hkey; injection Hkey as <-;
    repeat split.
Qed.

(** X1. In the store-backed breakdown a phase is reported complete
    exactly when one of its tasks is [done] and none of its tasks is
    [assigned], [in_progress] or [pending]; tasks in any other status
    ([failed], [queued], [blocked]) do not keep a phase from being
    complete. *)
Theorem phase_complete_by_task_statuses
  (db : Store) (workflow_id : option string) (r : Result)
  (ps : list PhaseStatus.t) (entry : PhaseStatus.t)
  (Hrun : check_workflow_completion_via_db db workflow_id = Py.Returns r)
  (Hkey : key_phases (keys r) = Some ps)
  (Hin : In entry ps) :
  exists phase,
    In phase (phases db)
    /\ PhaseStatus.phase_id entry = Phase.id phase
    /\ (PhaseStatus.complete entry = true
        <-> (exists t, In t (tasks db)
                       /\ Task.phase_id t = Phase.id phase
                       /\ Task.status t = "done")
            /\ (forall t, In t (tasks db) ->
                          Task.phase_id t = Phase.id phase ->
                          Task.status t <> "assigned"
                          /\ Task.status t <> "in_progress"
                          /\ Task.status t <> "pending")).
Proof.
  destruct (via_db_phase_entries db workflow_id r ps entry Hrun Hkey Hin)
    as [phase [Hphase ->]].
  exists phase. split; [assumption|]. split; [reflexivity|].
  cbn [Summary.phase_entry PhaseStatus.complete].
  rewrite phase_complete_iff, active_tasks_of_one_filter.
  unfold completed_tasks_of, pending_tasks_of.
  rewrite count_positive, !count_zero. split.
  - intros [[t [Ht Hp]] [Hactive Hpending]]. split.
    + exists t. apply andb_true_iff in Hp as [Hph Hd].
      apply String.eqb_eq in Hph, Hd. now repeat split.
    + intros t' Ht' Hph. specialize (Hactive t' Ht').
      specialize (Hpending t' Ht'). cbv beta in Hactive, Hpending.
      rewrite Hph, String.eqb_refl in Hactive, Hpending.
      cbn [andb] in Hactive, Hpending.
      apply orb_false_iff in Hactive as [Ha Hi].
      apply String.eqb_neq in Ha, Hi, Hpending. now repeat split.
  - intros [[t [Ht [Hph Hd]]] Hnone]. split; [|split].
    + exists t. split; [assumption|].
      now rewrite Hph, Hd, !String.eqb_refl.
    + intros t' Ht'.
      destruct (String.eqb (Task.phase_id t') (Phase.id phase)) eqn:Hph';
        [|reflexivity].
      apply String.eqb_eq in Hph'.
      destruct (Hnone t' Ht' Hph') as [Ha [Hi _]].
      apply String.eqb_neq in Ha, Hi. now rewrite Ha, Hi.
    + intros t' Ht'.
      destruct (String.eqb (Task.phase_id t') (Phase.id phase)) eqn:Hph';
        [|reflexivity].
      apply String.eqb_eq in Hph'.
      destruct (Hnone t' Ht' Hph') as [_ [_ Hp]].
      apply String.eqb_neq in Hp. now rewrite Hp.
Qed.

Lemma phase_complete_by_task_statuses_witness :
  exists r ps entry,
    check_workflow_completion_via_db Scenario.running None = Py.Returns r
    /\ key_phases (keys r) = Some ps
    /\ In entry ps
    /\ PhaseStatus.phase_id entry = "p1"
    /\ PhaseStatus.total_tasks entry = 3
    /\ PhaseStatus.complete entry = true
    /\ exists phase,
         In phase (phases Scenario.running)
         /\ PhaseStatus.phase_id entry = Phase.id phase.
Proof.
  eexists. eexists. eexists.
  split; [vm_compute; reflexivity|].
  split; [reflexivity|].
  split; [left; reflexivity|].
  split; [reflexivity|]. split; [reflexivity|]. split; [reflexivity|].
  destruct (phase_complete_by_task_statuses Scenario.running None _ _ _
              eq_refl eq_refl (or_introl eq_refl)) as [phase [H1 [H2 _]]].
  exists phase. split; assumption.
Defined.

(** X2. Whenever the store-backed result carries a breakdown, its verdict
    is true exactly when the breakdown is not empty and every entry in it
    is complete. *)
Theorem verdict_agrees_with_breakdown
  (db : Store) (workflow_id : option string) (r : Result)
  (ps : list PhaseStatus.t)
  (Hrun : check_workflow_completion_via_db db workflow_id = Py.Returns r)
  (Hkey : key_phases (keys r) = Some ps) :
  complete r = true
  <-> ps <> [] /\ forall entry, In entry ps -> PhaseStatus.complete entry = true.
Proof.
  destruct (via_db_breakdown db workflow_id r ps Hrun Hkey)
    as [w [_ [_ [-> [-> _]]]]].
  rewrite andb_true_iff, forallb_forall, length_positive. split.
  - intros [Hall Hne]. split.
    + intros Hnil. apply map_eq_nil in Hnil. contradiction.
    + intros entry Hin. apply in_map_iff in Hin as [phase [<- Hphase]].
      now apply Hall.
  - intros [Hne Hall]. split.
    + intros phase Hphase.
      apply (Hall (Summary.phase_entry db phase)). now apply in_map.
    + intros Hnil. apply Hne. now rewrite Hnil.
Qed.

Lemma verdict_agrees_with_breakdown_witness :
  exists r ps,
    check_workflow_completion_via_db Scenario.running None = Py.Returns r
    /\ key_phases (keys r) = Some ps
    /\ List.length ps = 2%nat
    /\ (complete r = true
        <-> ps <> []
            /\ forall entry, In entry ps -> PhaseStatus.complete entry = true).
Proof.
  eexists. eexists.
  split; [vm_compute; reflexivity|].
  split; [reflexivity|]. split; [reflexivity|].
  exact (verdict_agrees_with_breakdown Scenario.running None _ _
           eq_refl eq_refl).
Defined.

(** X3. In every store-backed result the counts are consistent: in each
    entry of the breakdown and in the aggregate progress snapshot,
    completed, active and pending are non-negative and together never
    exceed the total. *)
Theorem store_counts_are_consistent
  (db : Store) (workflow_id : option string) (r : Result)
  (Hrun : check_workflow_completion_via_db db workflow_id = Py.Returns r) :
  (forall ps entry,
      key_phases (keys r) = Some ps -> In entry ps ->
      0 <= PhaseStatus.completed_tasks entry
      /\ 0 <= PhaseStatus.active_tasks entry
      /\ 0 <= PhaseStatus.pending_tasks entry
      /\ PhaseStatus.completed_tasks entry + PhaseStatus.active_tasks entry
         + PhaseStatus.pending_tasks entry <= PhaseStatus.total_tasks entry)
  /\ (forall p,
         key_progress (keys r) = Some p ->
         0 <= Progress.completed_tasks p
         /\ 0 <= Progress.active_tasks p
         /\ 0 <= Progress.pending_tasks p
         /\ Progress.completed_tasks p + Progress.active_tasks p
            + Progress.pending_tasks p <= Progress.total_tasks p).
Proof.
  split.
  - intros ps entry Hkey Hin.
    destruct (via_db_phase_entries db workflow_id r ps entry Hrun Hkey Hin)
      as [phase [_ ->]].
    apply phase_counts_bounded.
  - intros p Hkey.
    destruct (via_db_returns db workflow_id) as [r' [Hr' Hp]].
    rewrite Hrun in Hr'. injection Hr' as <-.
    destruct (Hp p Hkey) as [w ->].
    cbn [Summary.db_progress Progress.completed_tasks Progress.active_tasks
      Progress.pending_tasks Progress.total_tasks].
    repeat split;
      try (apply sum_map_nonneg; intros phase _;
           apply (phase_counts_bounded db phase)).
    apply sum_map_bound. intros phase _. apply (phase_counts_bounded db phase).
Qed.

Lemma store_counts_are_consistent_witness :
  exists r p,
    check_workflow_completion_via_db Scenario.running None = Py.Returns r
    /\ key_progress (keys r) = Some p
    /\ Progress.completed_tasks p = 2
    /\ Progress.total_tasks p = 5
    /\ Progress.completed_tasks p + Progress.active_tasks p
       + Progress.pending_tasks p <= Progress.total_tasks p.
Proof.
  eexists. eexists.
  split; [vm_compute; reflexivity|].
  split; [reflexivity|]. split; [reflexivity|]. split; [reflexivity|].
  destruct (store_counts_are_consistent Scenario.running None _ eq_refl)
    as [_ Hprogress].
  exact (proj2 (proj2 (proj2 (Hprogress _ eq_refl)))).
Defined.

(** *** The order of the breakdown *)

Lemma insert_by_order_sorted (p : Phase.t) (l : list Phase.t) :
  Sorted (fun a b => Phase.order a <= Phase.order b) l ->
  Sorted (fun a b => Phase.order a <= Phase.order b) (insert_by_order p l).
Proof.
  induction l as [|q l IH]; intros Hs; simpl.
  - repeat constructor.
  - destruct (Phase.order p <? Phase.order q) eqn:Hlt.
    + constructor; [assumption|]. constructor. lia.
    + inversion Hs as [|? ? Hs' Hhd]; subst.
      constructor; [now apply IH|].
      destruct l as [|x l]; simpl.
      * constructor. lia.
      * destruct (Phase.order p <? Phase.order x); constructor;
          [lia|now inversion Hhd].
Qed.

Lemma order_by_order_sorted (l : list Phase.t) :
  Sorted (fun a b => Phase.order a <= Phase.order b) (order_by_order l).
Proof.
  induction l as [|p l IH]; simpl; [constructor|].
  now apply insert_by_order_sorted.
Qed.

Lemma insert_by_order_perm (p : Phase.t) (l : list Phase.t) :
  Permutation (insert_by_order p l) (p :: l).
Proof.
  induction l as [|q l IH]; simpl; [reflexivity|].
  destruct (Phase.order p <? Phase.order q); [reflexivity|].
  rewrite IH. apply perm_swap.
Qed.

Lemma order_by_order_perm (l : list Phase.t) :
  Permutation (order_by_order l) l.
Proof.
  induction l as [|p l IH]; simpl; [reflexivity|].
  rewrite insert_by_order_perm. now constructor.
Qed.

Lemma sorted_map {A B : Type} (R : B -> B -> Prop) (f : A -> B)
  (l : list A) :
  Sorted (fun a b => R (f a) (f b)) l -> Sorted R (map f l).
Proof.
  induction 1 as [|a l Hs IH Hhd]; simpl; constructor; [assumption|].
  destruct Hhd; simpl; constructor. assumption.
Qed.

(** X4. The store-backed breakdown lists the phases of the selected
    workflow, each exactly once, in non-decreasing [phase_order]. *)
Theorem breakdown_is_ordered
  (db : Store) (workflow_id : option string) (r : Result)
  (ps : list PhaseStatus.t)
  (Hrun : check_workflow_completion_via_db db workflow_id = Py.Returns r)
  (Hkey : key_phases (keys r) = Some ps) :
  StronglySorted Views.in_order ps
  /\ exists w,
       select_workflow db workflow_id = Some w
       /\ Permutation
            (map PhaseStatus.phase_id ps)
            (map Phase.id
               (filter (fun p => String.eqb (Phase.workflow_id p)
                                   (Workflow.id w))
                       (phases db))).
Proof.
  destruct (via_db_breakdown db workflow_id r ps Hrun Hkey)
    as [w [Hsel [_ [-> _]]]].
  split.
  - apply Sorted_StronglySorted.
    + intros a b c. unfold Views.in_order. lia.
    + apply sorted_map. unfold Views.in_order, phases_of.
      cbn [Summary.phase_entry PhaseStatus.phase_order].
      apply order_by_order_sorted.
  - exists w. split; [assumption|].
    rewrite map_map. cbn [Summary.phase_entry PhaseStatus.phase_id].
    apply Permutation_map. unfold phases_of. apply order_by_order_perm.
Qed.

Lemma breakdown_is_ordered_witness :
  exists r ps,
    check_workflow_completion_via_db Scenario.running None = Py.Returns r
    /\ key_phases (keys r) = Some ps
    /\ map PhaseStatus.phase_id ps = ["p1"; "p2"]
    /\ map Phase.id (phases Scenario.running) = ["p2"; "p1"]
    /\ StronglySorted Views.in_order ps.
Proof.
  eexists. eexists.
  split; [vm_compute; reflexivity|].
  split; [reflexivity|]. split; [reflexivity|]. split; [reflexivity|].
  exact (proj1 (breakdown_is_ordered Scenario.running None _ _
                  eq_refl eq_refl)).
Defined.

(** *** The summary of a validated result *)

Lemma take_length (n : nat) (s : string) :
  (String.length (Py.take n s) <= n)%nat.
Proof.
  unfold Py.take. revert s.
  induction n as [|n IH]; intros s; destruct s as [|c s]; simpl;
    try lia.
  specialize (IH s). lia.
Qed.

Lemma take_prefix (n : nat) (s : string) : prefix (Py.take n s) s = true.
Proof.
  unfold Py.take. revert s.
  induction n as [|n IH]; intros s; destruct s as [|c s]; simpl;
    try reflexivity.
  rewrite IH. destruct (ascii_dec c c); [reflexivity|congruence].
Qed.

(** X5. When the store-backed verdict rests on a validated result, the
    reported [result_id] is the id of a validated result of the selected
    workflow, and the reported [result_summary] is the first 100 characters
    of that result's summary (a prefix of it, never longer than 100), or
    [None] when the summary is missing or empty. *)
Theorem result_summary_is_bounded
  (db : Store) (workflow_id : option string) (r : Result)
  (wid wname rid : string) (result_summary : option string)
  (Hrun : check_workflow_completion_via_db db workflow_id = Py.Returns r)
  (Hkeys : keys r = ValidatedResult wid wname rid result_summary) :
  exists res,
    In res (workflow_results db)
    /\ WorkflowResult.id res = rid
    /\ WorkflowResult.workflow_id res = wid
    /\ WorkflowResult.status res = "validated"
    /\ match result_summary with
       | Some shown =>
           exists full,
             WorkflowResult.summary res = Some full
             /\ full <> ""
             /\ shown = substring 0 100 full
             /\ (String.length shown <= 100)%nat
             /\ prefix shown full = true
       | None =>
           WorkflowResult.summary res = None
           \/ WorkflowResult.summary res = Some ""
       end.
Proof.
  destruct (select_workflow db workflow_id) as [w|] eqn:Hsel.
  2:{ unfold check_workflow_completion_via_db in Hrun. rewrite Hsel in Hrun.
      injection Hrun as <-. discriminate. }
  destruct (String.eqb (Workflow.status w) "completed") eqn:Hst.
  { unfold check_workflow_completion_via_db in Hrun.
    rewrite Hsel, Hst in Hrun. injection Hrun as <-. discriminate. }
  destruct (validated_result_of db w) as [v|] eqn:Hval.
  2:{ rewrite (via_db_rollup db workflow_id w Hsel Hst Hval) in Hrun.
      destruct (forallb _ _ && _); injection Hrun as <-; discriminate. }
  unfold check_workflow_completion_via_db in Hrun.
  rewrite Hsel, Hst, Hval in Hrun. injection Hrun as <-.
  cbn [keys] in Hkeys. injection Hkeys as <- <- <- <-.
  apply first_filter_some in Hval as [Hin Hp].
  apply andb_true_iff in Hp as [Hw Hs]. apply String.eqb_eq in Hw, Hs.
  exists v. repeat (split; [assumption || reflexivity|]).
  destruct (WorkflowResult.summary v) as [[|c full]|]; cbn [Py.truthy option_map].
  - now right.
  - exists (String c full). split; [reflexivity|]. split; [discriminate|].
    split; [reflexivity|]. split.
    + apply (take_length 100).
    + apply (take_prefix 100).
  - now left.
Qed.

Lemma result_summary_is_bounded_witness :
  exists r shown,
    check_workflow_completion_via_db Scenario.validated None = Py.Returns r
    /\ keys r = ValidatedResult "w1" "demo" "r1" (Some shown)
    /\ shown = "accepted by the reviewer"
    /\ exists res,
         In res (workflow_results Scenario.validated)
         /\ WorkflowResult.id res = "r1".
Proof.
  eexists. eexists.
  split; [vm_compute; reflexivity|].
  split; [reflexivity|]. split; [reflexivity|].
  destruct (result_summary_is_bounded Scenario.validated None _
              "w1" "demo" "r1" (Some "accepted by the reviewer")
              eq_refl eq_refl) as [res [Hin [Hid _]]].
  exists res. split; assumption.
Defined.

(** *** The two sources on the same workflow *)

Lemma mirror_verdicts (db : Store) (l : list Phase.t) :
  forallb api_phase_complete
    (map (fun phase => Views.reported_phase (Summary.phase_entry db phase)) l)
  = forallb (Summary.phase_complete db) l.
Proof.
  induction l as [|phase l IH]; simpl; [reflexivity|]. now rewrite IH.
Qed.

Lemma mirror_progress (db : Store) (l : list Phase.t) :
  let reported :=
    map (fun phase => Views.reported_phase (Summary.phase_entry db phase)) l in
  Py.sum (map (fun p => Py.get (ApiPhase.total_tasks p) 0) reported)
  = Py.sum (map (total_tasks_of db) l)
  /\ Py.sum (map (fun p => Py.get (ApiPhase.completed_tasks p) 0) reported)
     = Py.sum (map (completed_tasks_of db) l)
  /\ Py.sum (map (fun p => Py.get (ApiPhase.active_tasks p) 0) reported)
     = Py.sum (map (active_tasks_of db) l)
  /\ Py.sum (map (fun p => Py.get (ApiPhase.pending_tasks p) 0) reported)
     = Py.sum (map (pending_tasks_of db) l).
Proof.
  cbv zeta. rewrite !map_map. repeat split.
Qed.

(** X6. If the remote body reports a workflow as the store has it (same
    status, same per-phase counts in the same order), the workflow has no
    validated result and its status is not [inactive], then the two
    evaluations agree: same verdict, same reason and same progress
    snapshot. *)
Theorem sources_agree_on_mirrored_workflow
  (db : Store) (workflow_id : option string) (w : Workflow.t)
  (Hsel : select_workflow db workflow_id = Some w)
  (Hno : forall res, In res (workflow_results db) ->
                     WorkflowResult.workflow_id res = Workflow.id w ->
                     WorkflowResult.status res <> "validated")
  (Hstatus : Workflow.status w <> "inactive") :
  exists r,
    check_workflow_completion_via_db db workflow_id = Py.Returns r
    /\ complete (check_workflow_completion_via_api
                   (Body (Views.mirror db w)) workflow_id) = complete r
    /\ reason (check_workflow_completion_via_api
                 (Body (Views.mirror db w)) workflow_id) = reason r
    /\ key_progress (keys (check_workflow_completion_via_api
                             (Body (Views.mirror db w)) workflow_id))
       = key_progress (keys r).
Proof.
  assert (Hval : validated_result_of db w = None).
  { apply validated_result_none. intros [res [Hin [Hw Hs]]].
    exact (Hno res Hin Hw Hs). }
  apply String.eqb_neq in Hstatus.
  unfold check_workflow_completion_via_api, api_evaluate.
  cbn [Views.mirror WorkflowInfo.status WorkflowInfo.phases eq_str Py.get].
  rewrite Hstatus.
  destruct (String.eqb (Workflow.status w) "completed") eqn:Hst.
  { unfold check_workflow_completion_via_db. rewrite Hsel, Hst.
    eexists. split; [reflexivity|]. repeat split. }
  rewrite (via_db_rollup db workflow_id w Hsel Hst Hval).
  eexists. split; [reflexivity|].
  rewrite mirror_verdicts, length_map.
  destruct (forallb (Summary.phase_complete db) (phases_of db w)
            && (Z.of_nat (List.length (phases_of db w)) >? 0)).
  { repeat split. }
  destruct (mirror_progress db (phases_of db w)) as [Ht [Hc [Ha Hp]]].
  cbv zeta in Ht, Hc, Ha, Hp. rewrite Ht, Hc, Ha, Hp.
  rewrite completion_percentage_returns by apply store_sums_bounded.
  repeat split.
Qed.

Lemma sources_agree_on_mirrored_workflow_witness :
  exists r,
    check_workflow_completion_via_db Scenario.running None = Py.Returns r
    /\ complete r = false
    /\ complete (check_workflow_completion_via_api
                   (Body (Views.mirror Scenario.running
                            {| Workflow.id := "w1"; Workflow.name := "demo";
                               Workflow.status := "active" |})) None)
       = complete r.
Proof.
  destruct (sources_agree_on_mirrored_workflow Scenario.running None
              {| Workflow.id := "w1"; Workflow.name := "demo";
                 Workflow.status := "active" |} eq_refl)
    as [r [Hr [Hc _]]].
  - intros res [].
  - discriminate.
  - exists r. split; [exact Hr|]. split; [|exact Hc].
    vm_compute in Hr. injection Hr as <-. reflexivity.
Defined.

(** *** A workflow without phases *)

(** X7. A workflow that has no phase is never complete by roll-up: when
    its status is not [completed] and it has no validated result, the
    store-backed evaluation reports it in progress with an empty breakdown,
    all counts 0 and the integer percentage 0; the API-backed evaluation does
    the same for a body whose status is neither [inactive] nor [completed]
    and whose ["phases"] key is absent or empty. *)
Theorem workflow_without_phases_is_in_progress
  (db : Store) (workflow_id : option string) (w : Workflow.t)
  (workflow_info : WorkflowInfo.t)
  (Hsel : select_workflow db workflow_id = Some w)
  (Hopen : Workflow.status w <> "completed")
  (Hno : forall res, In res (workflow_results db) ->
                     WorkflowResult.workflow_id res = Workflow.id w ->
                     WorkflowResult.status res <> "validated")
  (Hempty : forall p, In p (phases db) ->
                      Phase.workflow_id p <> Workflow.id w)
  (Hactive : WorkflowInfo.status workflow_info <> Some "inactive"
             /\ WorkflowInfo.status workflow_info <> Some "completed")
  (Hmissing : WorkflowInfo.phases workflow_info = None
              \/ WorkflowInfo.phases workflow_info = Some []) :
  let nothing :=
    {| Progress.total_tasks := 0;
       Progress.completed_tasks := 0;
       Progress.active_tasks := 0;
       Progress.pending_tasks := 0;
       Progress.completion_percentage := Py.Int 0 |} in
  check_workflow_completion_via_db db workflow_id
  = Py.Returns {| complete := false;
                  reason := "Workflow still in progress";
                  keys := DbProgress (Workflow.id w) (Workflow.name w)
                            (Workflow.status w) [] nothing |}
  /\ check_workflow_completion_via_api (Body workflow_info) workflow_id
     = {| complete := false;
          reason := "Workflow still in progress";
          keys := ApiProgress workflow_info nothing |}.
Proof.
  intros nothing. split.
  - assert (Hval : validated_result_of db w = None).
    { apply validated_result_none. intros [res [Hin [Hw Hs]]].
      exact (Hno res Hin Hw Hs). }
    apply String.eqb_neq in Hopen.
    rewrite (via_db_rollup db workflow_id w Hsel Hopen Hval).
    assert (Hnil : phases_of db w = []).
    { destruct (phases_of db w) as [|p l] eqn:Hps; [reflexivity|].
      assert (Hp : In p (phases_of db w)) by (rewrite Hps; now left).
      apply in_phases_of in Hp as [Hin Hw]. now destruct (Hempty p Hin). }
    rewrite Hnil. reflexivity.
  - destruct Hactive as [Hi Hc]. apply eq_str_false in Hi, Hc.
    unfold check_workflow_completion_via_api, api_evaluate.
    rewrite Hi, Hc. destruct Hmissing as [-> | ->]; reflexivity.
Qed.

Lemma workflow_without_phases_is_in_progress_witness :
  exists r,
    check_workflow_completion_via_db
      {| workflows := workflows Scenario.unpopulated;
         phases := [];
         tasks := [];
         workflow_results := [];
         agents := [];
         worktrees := [] |} None = Py.Returns r
    /\ complete r = false
    /\ key_phases (keys r) = Some []
    /\ complete (check_workflow_completion_via_api
                   (Body {| WorkflowInfo.status := Some "active";
                            WorkflowInfo.phases := None |}) None) = false.
Proof.
  destruct (workflow_without_phases_is_in_progress
              {| workflows := workflows Scenario.unpopulated;
                 phases := [];
                 tasks := [];
                 workflow_results := [];
                 agents := [];
                 worktrees := [] |} None
              {| Workflow.id := "w1"; Workflow.name := "demo";
                 Workflow.status := "active" |}
              {| WorkflowInfo.status := Some "active";
                 WorkflowInfo.phases := None |} eq_refl)
    as [Hdb Hapi].
  - discriminate.
  - intros res [].
  - intros p [].
  - split; discriminate.
  - now left.
  - eexists. split; [exact Hdb|]. split; [reflexivity|].
    split; [reflexivity|]. now rewrite Hapi.
Defined.

End CompletionBreakdown.

(* ================================================================= *)
(** * More on the reporter *)
(* ================================================================= *)

Section ReporterSources.
Import Database CheckWorkflowStatus.

(** X8. [main] always returns.  It calls only the evaluations [--method]
    selects (with [api] the store is not queried, with [db] no request is
    made), keeps their results in the order [api], [db], and writes them
    all: the JSON output is the dictionary of results, the human-readable
    output states, for each result in turn, its source and its own
    verdict. *)
Theorem main_reports_selected_sources (env : Env) (args : Args) :
  exists run,
    main env args = Py.Returns run
    /\ calls run
       = match method args with
         | api => [ViaApi (workflow_id args)]
         | db => [ViaDb (workflow_id args)]
         | both => [ViaApi (workflow_id args); ViaDb (workflow_id args)]
         end
    /\ map fst (results run)
       = match method args with
         | api => ["api"]
         | db => ["db"]
         | both => ["api"; "db"]
         end
    /\ (forall r, In ("api", r) (results run) ->
                  r = check_workflow_completion_via_api (http env)
                        (workflow_id args))
    /\ (forall r, In ("db", r) (results run) ->
                  check_workflow_completion_via_db (store env)
                    (workflow_id args) = Py.Returns r)
    /\ (json args = true -> output run = JsonDump (results run))
    /\ (json args = false ->
        exists lines,
          output run = HumanReadable lines
          /\ filter Summary.is_verdict_line lines
             = flat_map Views.source_and_verdict (results run)).
Proof.
  destruct (via_db_returns (store env) (workflow_id args)) as [r_db [Hdb _]].
  assert (Hlines : forall results,
             filter Summary.is_verdict_line
               (flat_map print_result results ++ [Rule; TipFrontend; TipApi])
             = flat_map Views.source_and_verdict results).
  { intros results. rewrite filter_app. cbn [filter Summary.is_verdict_line].
    rewrite app_nil_r.
    induction results as [|[m r] l IH]; [reflexivity|].
    cbn [flat_map]. rewrite filter_app, IH, verdict_lines_of_result.
    reflexivity. }
  unfold main. rewrite Hdb.
  destruct (method args);
    cbn [method_name in_ existsb String.eqb Ascii.eqb Bool.eqb orb app
      Py.bind];
    eexists; (split; [reflexivity|]); cbn [calls results output map fst];
    (split; [reflexivity|]); (split; [reflexivity|]).
  - split.
    { intros r [H|[]]. now injection H as <-. }
    split.
    { intros r [H|[]]. discriminate H. }
    split; [now intros ->|].
    intros ->. eexists. split; [reflexivity|]. apply Hlines.
  - split.
    { intros r [H|[]]. discriminate H. }
    split.
    { intros r [H|[]]. now injection H as <-. }
    split; [now intros ->|].
    intros ->. eexists. split; [reflexivity|]. apply Hlines.
  - split.
    { intros r [H|[H|[]]]; [now injection H as <-|discriminate H]. }
    split.
    { intros r [H|[H|[]]]; [discriminate H|now injection H as <-]. }
    split; [now intros ->|].
    intros ->. eexists. split; [reflexivity|]. apply Hlines.
Qed.

Lemma main_reports_selected_sources_witness :
  exists run r,
    main {| http := RequestRaises (Py.Exception "connection refused");
            store := Scenario.validated |}
         {| workflow_id := None; method := db; json := true |}
    = Py.Returns run
    /\ calls run = [ViaDb None]
    /\ output run = JsonDump [("db", r)]
    /\ complete r = true.
Proof.
  destruct (main_reports_selected_sources
              {| http := RequestRaises (Py.Exception "connection refused");
                 store := Scenario.validated |}
              {| workflow_id := None; method := db; json := true |})
    as [run [Hmain [Hcalls [_ [_ [_ [Hjson _]]]]]]].
  exists run. eexists. split; [exact Hmain|]. split; [exact Hcalls|].
  rewrite (Hjson eq_refl).
  vm_compute in Hmain. injection Hmain as <-.
  split; reflexivity.
Defined.

End ReporterSources.

(* ================================================================= *)
(** * More on the failed-task reset and the blocked tasks *)
(* ================================================================= *)

Section ResetAgain.
Import Database RestartStalledWorkflow.

Lemma reset_failed_leaves_none (rows : list Task.t) :
  filter is_failed (Summary.reset_failed rows) = [].
Proof.
  induction rows as [|t rows IH]; simpl; [reflexivity|].
  destruct (is_failed t) eqn:Hf; [exact IH|]. now rewrite Hf.
Qed.

Lemma reset_failed_keeps_ids (rows : list Task.t) :
  map Task.id (Summary.reset_failed rows) = map Task.id rows.
Proof.
  induction rows as [|t rows IH]; simpl; [reflexivity|].
  rewrite IH. now destruct (is_failed t).
Qed.

Lemma reset_failed_keeps_blocked (rows : list Task.t) :
  filter (fun t => String.eqb (Task.status t) "blocked")
    (Summary.reset_failed rows)
  = filter (fun t => String.eqb (Task.status t) "blocked") rows.
Proof.
  induction rows as [|t rows IH]; simpl; [reflexivity|].
  destruct (is_failed t) eqn:Hf.
  - unfold is_failed in Hf. apply String.eqb_eq in Hf. rewrite Hf.
    simpl. exact IH.
  - now rewrite IH.
Qed.

(** The store a run leaves is the old one or the old one with the failed
    rows reset. *)
Lemma store_after_reset (env : Env) (db : Store) :
  fst (restart_failed_tasks env db) = db
  \/ (commit_raises env = None
      /\ fst (restart_failed_tasks env db)
         = with_tasks db (Summary.reset_failed (tasks db))).
Proof.
  rewrite restart_failed_tasks_eq.
  destruct (filter is_failed (tasks db)); [now left|].
  cbv zeta. destruct (commit_raises env); [now left|now right].
Qed.

(** X9. The reset is idempotent: after a run whose commit returned, no
    task has status [failed], the table has the same task ids in the same
    order, and a second run finds nothing to reset: it leaves the store as
    it is and makes no call on the queue service. *)
Theorem failed_task_reset_is_idempotent (env1 env2 : Env) (db : Store)
  (Hcommit : commit_raises env1 = None) :
  let db1 := fst (restart_failed_tasks env1 db) in
  (forall t, In t (tasks db1) -> Task.status t <> "failed")
  /\ map Task.id (tasks db1) = map Task.id (tasks db)
  /\ restart_failed_tasks env2 db1 = (db1, [NoFailedTasksFound; Close]).
Proof.
  intros db1.
  assert (Hnone : filter is_failed (tasks db1) = []
                  /\ map Task.id (tasks db1) = map Task.id (tasks db)).
  { subst db1. rewrite restart_failed_tasks_eq, Hcommit.
    destruct (filter is_failed (tasks db)) eqn:Hf.
    - now split.
    - cbn [fst with_tasks tasks]. split.
      + apply reset_failed_leaves_none.
      + apply reset_failed_keeps_ids. }
  destruct Hnone as [Hnone Hids].
  split; [|split; [exact Hids|]].
  - intros t Hin Hstatus.
    assert (Ht : In t (filter is_failed (tasks db1))).
    { apply filter_In. split; [assumption|]. unfold is_failed.
      now rewrite Hstatus. }
    rewrite Hnone in Ht. destruct Ht.
  - rewrite restart_failed_tasks_eq. now rewrite Hnone.
Qed.

Lemma failed_task_reset_is_idempotent_witness :
  let db1 := fst (restart_failed_tasks Scenario.queue_refuses_t5
                    Scenario.running) in
  map Task.status (tasks db1) = ["done"; "done"; "queued"; "pending"; "queued"]
  /\ restart_failed_tasks Scenario.commit_fails db1
     = (db1, [NoFailedTasksFound; Close]).
Proof.
  split; [vm_compute; reflexivity|].
  exact (proj2 (proj2 (failed_task_reset_is_idempotent
                         Scenario.queue_refuses_t5 Scenario.commit_fails
                         Scenario.running eq_refl))).
Defined.

Lemma blocked_task_lines (l : list Task.t) :
  filter Views.is_blocked_task_line (flat_map describe_blocked l)
  = map (fun t => BlockedTask (Py.take 8 (Task.id t))
                    (Py.take 60 (or_else (Task.raw_description t)
                                   (Task.enriched_description t) "N/A"))) l.
Proof.
  induction l as [|t l IH]; simpl; [reflexivity|].
  rewrite filter_app, IH.
  now destruct (Py.truthy (Task.blocked_by t)).
Qed.

(** X10. [check_blocked_tasks] lists at most ten blocked tasks: the
    first ten in table order, one line each.  The line "... and k more" is
    printed exactly when more than ten tasks are blocked, with k the number
    of blocked tasks beyond ten. *)
Theorem blocked_report_is_capped (db : Store) :
  let blocked :=
    filter (fun t => String.eqb (Task.status t) "blocked") (tasks db) in
  let lines := check_blocked_tasks db in
  filter Views.is_blocked_task_line lines
  = map (fun t => BlockedTask (Py.take 8 (Task.id t))
                    (Py.take 60 (or_else (Task.raw_description t)
                                   (Task.enriched_description t) "N/A")))
        (firstn 10 blocked)
  /\ (List.length (filter Views.is_blocked_task_line lines) <= 10)%nat
  /\ (forall k, In (AndMore k) lines
                <-> (10 < List.length blocked)%nat
                    /\ k = Z.of_nat (List.length blocked) - 10).
Proof.
  intros blocked lines.
  assert (Hlines : filter Views.is_blocked_task_line lines
                   = map (fun t => BlockedTask (Py.take 8 (Task.id t))
                                     (Py.take 60 (or_else (Task.raw_description t)
                                                    (Task.enriched_description t)
                                                    "N/A")))
                         (firstn 10 blocked)).
  { subst lines. unfold check_blocked_tasks. fold blocked.
    destruct blocked as [|b bs] eqn:Hb; [reflexivity|].
    cbv zeta. cbn [filter Views.is_blocked_task_line].
    rewrite !filter_app, blocked_task_lines.
    destruct (Z.of_nat (List.length (b :: bs)) >? 10); cbn [filter
      Views.is_blocked_task_line]; now rewrite !app_nil_r. }
  split; [exact Hlines|]. split.
  { rewrite Hlines, length_map. apply firstn_le_length. }
  intros k. subst lines. unfold check_blocked_tasks. fold blocked.
  destruct blocked as [|b bs] eqn:Hb.
  { split.
    - intros [H|[H|[]]]; discriminate H.
    - intros [Hlt _]. simpl in Hlt. lia. }
  cbv zeta. split.
  - intros [H|Hin]; [discriminate H|].
    apply in_app_or in Hin as [Hin|Hin].
    { exfalso. apply in_flat_map in Hin as [t [_ Hin]].
      unfold describe_blocked in Hin.
      destruct (Py.truthy (Task.blocked_by t)); simpl in Hin;
        repeat (destruct Hin as [Hin|Hin]; [discriminate Hin|]);
        destruct Hin. }
    apply in_app_or in Hin as [Hin|Hin].
    + destruct (Z.of_nat (List.length (b :: bs)) >? 10) eqn:Hgt;
        [|destruct Hin].
      destruct Hin as [H|[]]. injection H as <-. split; [lia|reflexivity].
    + destruct Hin as [H|[H|[]]]; discriminate H.
  - intros [Hlt ->]. right. apply in_or_app. right. apply in_or_app. left.
    assert (Hgt : (Z.of_nat (List.length (b :: bs)) >? 10) = true) by lia.
    rewrite Hgt. now left.
Qed.

Lemma blocked_report_is_capped_witness :
  List.length (filter Views.is_blocked_task_line
                 (check_blocked_tasks Scenario.many_blocked)) = 10%nat
  /\ In (AndMore 2) (check_blocked_tasks Scenario.many_blocked).
Proof.
  destruct (blocked_report_is_capped Scenario.many_blocked)
    as [Hlines [_ Hmore]].
  split.
  - rewrite Hlines. reflexivity.
  - apply Hmore. split; [simpl; lia | reflexivity].
Defined.

(** X11. No invocation of [main] unblocks anything: whatever the flags
    ([--unblock] included) and whatever the commit and the queue service do,
    the blocked rows of the store are the same afterwards, and the store is
    the one the failed-task reset left. *)
Theorem blocked_tasks_are_never_unblocked (env : Env) (args : Args)
  (db : Store) :
  fst (main env args db) = fst (restart_failed_tasks env db)
  /\ filter (fun t => String.eqb (Task.status t) "blocked")
       (tasks (fst (main env args db)))
     = filter (fun t => String.eqb (Task.status t) "blocked") (tasks db).
Proof.
  assert (Hfst : fst (main env args db) = fst (restart_failed_tasks env db)).
  { unfold main. now destruct (restart_failed_tasks env db). }
  split; [exact Hfst|]. rewrite Hfst.
  destruct (store_after_reset env db) as [-> | [_ ->]]; [reflexivity|].
  apply reset_failed_keeps_blocked.
Qed.

End ResetAgain.

(* ================================================================= *)
(** * More on the staleness cleanup *)
(* ================================================================= *)

Section CleanupModes.
Import Database CleanupStaleWorktrees.

Lemma delete_attempts_app (a b : list Event) :
  Views.delete_attempts (a ++ b)
  = Views.delete_attempts a ++ Views.delete_attempts b.
Proof. apply flat_map_app. Qed.

Lemma deleted_branches_app (a b : list Event) :
  Views.deleted_branches (a ++ b)
  = Views.deleted_branches a ++ Views.deleted_branches b.
Proof. apply flat_map_app. Qed.

Lemma listing_is_quiet (items : list Item) :
  Views.delete_attempts (map StaleLine items) = []
  /\ Views.deleted_branches (map StaleLine items) = []
  /\ forall ev, In ev (map StaleLine items) -> Summary.is_action ev = false.
Proof.
  split; [|split].
  - induction items; simpl; auto.
  - induction items; simpl; auto.
  - intros ev Hin. apply in_map_iff in Hin as [item [<- _]]. reflexivity.
Qed.

Lemma marking_is_quiet (items : list Item) :
  Views.delete_attempts
    (map (fun item => Marked (AgentWorktree.worktree_path (worktree item)))
         items) = []
  /\ Views.deleted_branches
       (map (fun item => Marked (AgentWorktree.worktree_path (worktree item)))
            items) = [].
Proof. split; induction items; simpl; auto. Qed.

(** X12. A dry run changes nothing: for every world and whatever the
    collaborators would do, [cleanup_stale_worktrees(dry_run=True)] returns
    the world as it was and records no marking, commit or branch deletion;
    [main] without [--execute] is such a dry run. *)
Theorem dry_run_changes_nothing (env : Env) (w : World) (args : Args)
  (Hdry : execute args = false) :
  fst (cleanup_stale_worktrees env true w) = w
  /\ (forall ev, In ev (snd (cleanup_stale_worktrees env true w)) ->
                 Summary.is_action ev = false)
  /\ fst (main env args w) = w
  /\ snd (main env args w)
     = [MainRule; MainTitle; MainRule; MainBlank]
       ++ map Run (snd (cleanup_stale_worktrees env true w))
       ++ [MainRuleAfterBlank].
Proof.
  assert (Hrun : fst (cleanup_stale_worktrees env true w) = w
                 /\ forall ev,
                      In ev (snd (cleanup_stale_worktrees env true w)) ->
                      Summary.is_action ev = false).
  { unfold cleanup_stale_worktrees.
    destruct (repo w) as [r|e].
    - destruct (find_stale_worktrees w r) as [|item items].
      + split; [reflexivity|]. intros ev [<-|[<-|[]]]; reflexivity.
      + cbv zeta. cbn [fst snd]. split; [reflexivity|].
        intros ev [<-|Hin]; [reflexivity|].
        apply in_app_or in Hin as [Hin|[<-|[<-|[]]]]; try reflexivity.
        now apply (listing_is_quiet (item :: items)).
    - split; [reflexivity|]. intros ev [<-|[<-|[<-|[]]]]; reflexivity. }
  destruct Hrun as [Hworld Hquiet].
  split; [exact Hworld|]. split; [exact Hquiet|].
  unfold main. rewrite Hdry. cbn [negb].
  destruct (cleanup_stale_worktrees env true w) as [w' events].
  cbn [fst snd] in *. now subst w'.
Qed.

Lemma dry_run_changes_nothing_witness :
  fst (main Scenario.cleanup_succeeds {| execute := false |}
         Scenario.checkout_7_gone) = Scenario.checkout_7_gone
  /\ List.length
       (snd (cleanup_stale_worktrees Scenario.cleanup_succeeds true
               Scenario.checkout_7_gone)) = 4%nat.
Proof.
  split; [|vm_compute; reflexivity].
  exact (proj1 (proj2 (proj2 (dry_run_changes_nothing
                                Scenario.cleanup_succeeds
                                Scenario.checkout_7_gone
                                {| execute := false |} eq_refl)))).
Defined.

(** X13. When the commit of an execute-mode run raises, the world is
    left as it was: no row is cleaned, no branch deletion is attempted and
    no commit is recorded, although the "marked as cleaned" lines were
    already printed. *)
Theorem failed_commit_leaves_world (env : Env) (w : World) (e : Py.exn)
  (Hcommit : commit_raises env = Some e) :
  fst (cleanup_stale_worktrees env false w) = w
  /\ Views.delete_attempts (snd (cleanup_stale_worktrees env false w)) = []
  /\ ~ In Commit (snd (cleanup_stale_worktrees env false w))
  /\ (forall r item,
         repo w = Py.Returns r ->
         In item (find_stale_worktrees w r) ->
         In (Marked (AgentWorktree.worktree_path (worktree item)))
            (snd (cleanup_stale_worktrees env false w))
         /\ In Rollback (snd (cleanup_stale_worktrees env false w))).
Proof.
  unfold cleanup_stale_worktrees. rewrite Hcommit.
  destruct (repo w) as [r|e'].
  - destruct (find_stale_worktrees w r) as [|item items] eqn:Hstale.
    + split; [reflexivity|]. split; [reflexivity|]. split.
      * intros [H|[H|[]]]; discriminate H.
      * intros r0 item0 [= <-] Hin. rewrite Hstale in Hin. destruct Hin.
    + cbv zeta. cbn [fst snd]. split; [reflexivity|]. split; [|split].
      * change (FoundStale ?n :: ?l) with ([FoundStale n] ++ l).
        change (CleaningUp :: ?l) with ([CleaningUp] ++ l).
        rewrite !delete_attempts_app.
        rewrite (proj1 (listing_is_quiet (item :: items))).
        rewrite (proj1 (marking_is_quiet (item :: items))). reflexivity.
      * intros [H|Hin]; [discriminate H|].
        apply in_app_or in Hin as [Hin|Hin].
        { apply in_map_iff in Hin as [x [H _]]. discriminate H. }
        destruct Hin as [H|Hin]; [discriminate H|].
        apply in_app_or in Hin as [Hin|Hin].
        { apply in_map_iff in Hin as [x [H _]]. discriminate H. }
        destruct Hin as [H|[H|[H|[]]]]; discriminate H.
      * intros r0 item0 [= <-] Hin. rewrite Hstale in Hin. split.
        -- right. apply in_or_app. right. right. apply in_or_app. left.
           now apply (in_map (fun item =>
                        Marked (AgentWorktree.worktree_path (worktree item)))).
        -- right. apply in_or_app. right. right. apply in_or_app. right.
           right. now left.
  - split; [reflexivity|]. split; [reflexivity|]. split.
    + intros [H|[H|[H|[]]]]; discriminate H.
    + intros r item H. discriminate H.
Qed.

Lemma failed_commit_leaves_world_witness :
  fst (cleanup_stale_worktrees Scenario.cleanup_commit_fails false
         Scenario.checkout_7_gone) = Scenario.checkout_7_gone
  /\ In (Marked "/tmp/wt-7")
        (snd (cleanup_stale_worktrees Scenario.cleanup_commit_fails false
                Scenario.checkout_7_gone)).
Proof.
  destruct (failed_commit_leaves_world Scenario.cleanup_commit_fails
              Scenario.checkout_7_gone _ eq_refl) as [Hworld _].
  split; [exact Hworld|]. vm_compute. tauto.
Defined.

(** *** Branch deletion *)

Lemma collect_step_eq (r : Repo) (acc : list string)
  (warnings : list Event) (item : Item) :
  collect_step r (acc, warnings) item
  = match branches r with
    | Py.Returns names =>
        if in_ (Views.branch_of item) names
        then (acc ++ [Views.branch_of item], warnings)
        else (acc, warnings)
    | Py.Raises e =>
        (acc, warnings ++ [BranchCheckFailed (Views.branch_of item) (Py.str e)])
    end.
Proof. reflexivity. Qed.

Lemma fold_collect_branches (r : Repo) (items : list Item) :
  forall acc warnings,
    fold_left (collect_step r) items (acc, warnings)
    = match branches r with
      | Py.Returns names =>
          (acc ++ filter (fun b => in_ b names) (map Views.branch_of items),
           warnings)
      | Py.Raises e =>
          (acc,
           warnings
           ++ map (fun item => BranchCheckFailed (Views.branch_of item)
                                 (Py.str e)) items)
      end.
Proof.
  induction items as [|item items IH]; intros acc warnings;
    cbn [fold_left map filter].
  - destruct (branches r); now rewrite app_nil_r.
  - rewrite collect_step_eq.
    destruct (branches r) as [names|e] eqn:Hb.
    + destruct (in_ (Views.branch_of item) names) eqn:Hin.
      * rewrite IH. now rewrite <- app_assoc.
      * now rewrite IH.
    + rewrite IH. now rewrite <- app_assoc.
Qed.

Lemma remove_branches (names : list string) (b : string) (l : list string) :
  filter (fun n => negb (existsb (String.eqb n) l))
    (filter (fun n => negb (String.eqb n b)) names)
  = filter (fun n => negb (existsb (String.eqb n) (b :: l))) names.
Proof.
  rewrite filter_twice. apply filter_ext. intros n. simpl.
  now rewrite negb_orb.
Qed.

Lemma in_first_occurrences (l : list string) :
  forall seen x,
    In x (Views.first_occurrences seen l)
    <-> In x l /\ in_ x seen = false.
Proof.
  induction l as [|b l IH]; intros seen x; cbn [Views.first_occurrences In].
  - tauto.
  - destruct (in_ b seen) eqn:Hb.
    + rewrite IH. split; [tauto|].
      intros [[<-|Hin] Hx]; [congruence|tauto].
    + assert (Hcons : in_ x (b :: seen) = false
                      <-> x <> b /\ in_ x seen = false).
      { unfold in_. cbn [existsb].
        rewrite orb_false_iff, String.eqb_neq. tauto. }
      cbn [In]. rewrite IH, Hcons. split.
      * intros [<-|[Hin [Hne Hx]]].
        -- split; [now left|exact Hb].
        -- split; [now right|exact Hx].
      * intros [[<-|Hin] Hx]; [now left|].
        destruct (string_dec b x) as [->|Hne]; [now left|].
        right. split; [exact Hin|]. split; [congruence|exact Hx].
Qed.

Lemma first_occurrences_NoDup (l : list string) :
  forall seen, NoDup (Views.first_occurrences seen l).
Proof.
  induction l as [|b l IH]; intros seen; cbn [Views.first_occurrences].
  - constructor.
  - destruct (in_ b seen); [apply IH|].
    constructor; [|apply IH].
    rewrite in_first_occurrences. intros [_ Hb].
    unfold in_ in Hb. cbn [existsb] in Hb.
    now rewrite String.eqb_refl in Hb.
Qed.

(** A branch the repository does not have is no part of its names. *)
Lemma filter_absent (b : string) (f : string -> bool) (names : list string) :
  in_ b names = false ->
  filter (fun n => negb (String.eqb n b || f n)) names
  = filter (fun n => negb (f n)) names.
Proof.
  intros Habsent. apply filter_ext_in. intros n Hin.
  assert (Hne : String.eqb n b = false).
  { apply String.eqb_neq. intros ->.
    assert (Hpresent : in_ b names = true).
    { unfold in_. apply existsb_exists. exists b.
      split; [assumption|apply String.eqb_refl]. }
    congruence. }
  now rewrite Hne.
Qed.

(** The deletion loop on a repository that has the names [names], when
    every branch still to be tried is either among them or among the
    branches [seen] already deleted. *)
Lemma fold_delete_step (env : Env) (bs : list string) :
  forall r names events seen,
    branches r = Py.Returns names ->
    (forall b, In b bs -> in_ b names = negb (in_ b seen)) ->
    Views.delete_attempts
      (snd (fold_left (delete_step env) bs (r, events)))
    = Views.delete_attempts events ++ bs
    /\ Views.deleted_branches
         (snd (fold_left (delete_step env) bs (r, events)))
       = Views.deleted_branches events
         ++ Views.first_occurrences seen (filter (Views.deletable env) bs)
    /\ branches (fst (fold_left (delete_step env) bs (r, events)))
       = Py.Returns
           (filter (fun n => negb (existsb (String.eqb n)
                                     (filter (Views.deletable env) bs)))
                   names).
Proof.
  induction bs as [|b bs IH]; intros r names events seen Hnames Hinv;
    cbn [fold_left filter].
  - cbn [fst snd existsb negb Views.first_occurrences].
    rewrite !app_nil_r, Hnames. repeat split.
    f_equal. clear. induction names as [|n l IHn]; simpl; [reflexivity|].
    now rewrite <- IHn.
  - rewrite delete_step_eq. unfold has_branch. rewrite Hnames.
    assert (Hb : in_ b names = negb (in_ b seen))
      by (apply Hinv; now left).
    assert (Hrest : forall x, In x bs -> in_ x names = negb (in_ x seen))
      by (intros x Hx; apply Hinv; now right).
    destruct (in_ b names) eqn:Hpresent.
    + destruct (branch_delete_raises env b) as [e|] eqn:Hraise.
      * assert (Hd : Views.deletable env b = false)
          by (unfold Views.deletable; now rewrite Hraise).
        rewrite Hd.
        destruct (IH r names
                    (events ++ [BranchDelete b; DeleteFailed b (Py.str e)])
                    seen Hnames Hrest) as [H1 [H2 H3]].
        rewrite H1, H2, H3, delete_attempts_app, deleted_branches_app.
        cbn [Views.delete_attempts Views.deleted_branches flat_map app].
        rewrite <- !app_assoc, ?app_nil_r. repeat split.
      * assert (Hd : Views.deletable env b = true)
          by (unfold Views.deletable; now rewrite Hraise).
        rewrite Hd. cbn [Views.first_occurrences].
        assert (Hfresh : in_ b seen = false)
          by (destruct (in_ b seen); [discriminate Hb|reflexivity]).
        rewrite Hfresh.
        assert (Hnames' : branches (remove_branch b r)
                          = Py.Returns
                              (filter (fun n => negb (String.eqb n b)) names))
          by (cbn [remove_branch branches]; now rewrite Hnames).
        assert (Hinv' : forall x,
                   In x bs ->
                   in_ x (filter (fun n => negb (String.eqb n b)) names)
                   = negb (in_ x (b :: seen))).
        { intros x Hx. unfold in_ at 2. cbn [existsb].
          fold (in_ x seen). rewrite negb_orb, <- (Hrest x Hx).
          unfold in_.
          destruct (String.eqb x b) eqn:Hxb; cbn [negb andb].
          - apply String.eqb_eq in Hxb. subst x.
            apply not_true_is_false. intros Hex.
            apply existsb_exists in Hex as [n [Hn Heq]].
            apply filter_In in Hn as [_ Hn]. apply String.eqb_eq in Heq.
            subst n. now rewrite String.eqb_refl in Hn.
          - destruct (existsb (String.eqb x) names) eqn:Hex.
            + apply existsb_exists in Hex as [n [Hn Heq]].
              apply existsb_exists. exists n. split; [|exact Heq].
              apply filter_In. split; [exact Hn|].
              apply String.eqb_eq in Heq. subst n. now rewrite Hxb.
            + apply not_true_is_false. intros Hex'.
              apply existsb_exists in Hex' as [n [Hn Heq]].
              apply filter_In in Hn as [Hn _].
              assert (Habs : existsb (String.eqb x) names = true)
                by (apply existsb_exists; now exists n).
              congruence. }
        destruct (IH (remove_branch b r) _
                    (events ++ [BranchDelete b; Deleted b]) (b :: seen)
                    Hnames' Hinv') as [H1 [H2 H3]].
        rewrite H1, H2, H3, delete_attempts_app, deleted_branches_app.
        cbn [Views.delete_attempts Views.deleted_branches flat_map app].
        rewrite <- !app_assoc. repeat split.
        f_equal. apply remove_branches.
    + destruct (IH r names
                  (events ++ [BranchDelete b;
                              DeleteFailed b (Py.str (branch_not_found env b))])
                  seen Hnames Hrest) as [H1 [H2 H3]].
      rewrite H1, H2, H3, delete_attempts_app, deleted_branches_app.
      cbn [Views.delete_attempts Views.deleted_branches flat_map app].
      rewrite <- !app_assoc, ?app_nil_r.
      assert (Hseen : in_ b seen = true)
        by (destruct (in_ b seen); [reflexivity|discriminate Hb]).
      destruct (Views.deletable env b).
      * cbn [Views.first_occurrences existsb]. rewrite Hseen.
        repeat split. f_equal. symmetry.
        exact (filter_absent b _ names Hpresent).
      * repeat split.
Qed.

Lemma filter_all {A : Type} (l : list A) : filter (fun _ => true) l = l.
Proof. induction l as [|a l IH]; simpl; [reflexivity|]. now rewrite IH. Qed.

(** The world any run leaves: the old one, or the old one with the stale
    rows cleaned and possibly fewer branches. *)
Lemma world_after_cleanup (env : Env) (dry_run : bool) (w : World) :
  fst (cleanup_stale_worktrees env dry_run w) = w
  \/ exists r r',
       repo w = Py.Returns r
       /\ fst (cleanup_stale_worktrees env dry_run w)
          = with_store_repo w
              (with_worktrees (store w)
                 (Summary.clean_stale (path_exists w)
                    (Py.split "worktree " (worktree_list r))
                    (worktrees (store w))))
              r'.
Proof.
  unfold cleanup_stale_worktrees.
  destruct (repo w) as [r|e] eqn:Hrepo; [|now left].
  destruct (find_stale_worktrees w r) as [|item items] eqn:Hstale; [now left|].
  cbv zeta. destruct dry_run; [now left|].
  destruct (commit_raises env); [now left|].
  assert (Hmark : fold_left mark_step (item :: items) (worktrees (store w))
                  = Summary.clean_stale (path_exists w)
                      (Py.split "worktree " (worktree_list r))
                      (worktrees (store w))).
  { rewrite <- Hstale, find_stale_worktrees_eq.
    exact (fold_mark_step (store w) (path_exists w) _ (worktrees (store w)) []). }
  rewrite Hmark.
  destruct (fold_left (collect_step r) (item :: items) ([], [])) as [bs ws].
  destruct (match bs with
            | [] => (r, [NoOrphanedBranches])
            | _ :: _ => _
            end) as [r' ds].
  right. exists r, r'. split; reflexivity.
Qed.

(** X14. A run of either mode only ever relabels worktree rows: it keeps
    the number and order of the rows and each row's agent, path and branch,
    changes a [merge_status] only from [active] to [cleaned], and leaves
    every other table and the filesystem view as they were. *)
Theorem cleanup_only_relabels (env : Env) (dry_run : bool) (w : World) :
  let w1 := fst (cleanup_stale_worktrees env dry_run w) in
  Forall2 (fun wt wt' =>
             AgentWorktree.agent_id wt' = AgentWorktree.agent_id wt
             /\ AgentWorktree.worktree_path wt' = AgentWorktree.worktree_path wt
             /\ AgentWorktree.branch_name wt' = AgentWorktree.branch_name wt
             /\ (AgentWorktree.merge_status wt' = AgentWorktree.merge_status wt
                 \/ (AgentWorktree.merge_status wt = "active"
                     /\ AgentWorktree.merge_status wt' = "cleaned")))
          (worktrees (store w)) (worktrees (store w1))
  /\ workflows (store w1) = workflows (store w)
  /\ phases (store w1) = phases (store w)
  /\ tasks (store w1) = tasks (store w)
  /\ workflow_results (store w1) = workflow_results (store w)
  /\ agents (store w1) = agents (store w)
  /\ path_exists w1 = path_exists w.
Proof.
  intros w1. subst w1.
  destruct (world_after_cleanup env dry_run w) as [-> | [r [r' [_ ->]]]].
  - split; [|repeat split].
    induction (worktrees (store w)) as [|wt l IH]; constructor; [|exact IH].
    repeat split. now left.
  - cbn [store path_exists with_store_repo with_worktrees worktrees workflows
      phases tasks workflow_results agents].
    split; [|repeat split].
    induction (worktrees (store w)) as [|wt l IH]; simpl; constructor;
      [|exact IH].
    destruct (is_active wt && Summary.is_stale _ _ wt) eqn:Hc.
    + apply andb_true_iff in Hc as [Ha _]. apply String.eqb_eq in Ha.
      repeat split. right. now split.
    + repeat split. now left.
Qed.

(** X15. In an execute-mode run whose commit returned, the branches the
    script tries to delete are the branches of the stale rows that exist in
    the repository, in order and as often as stale rows carry them; a
    deletion that raises does not stop the later ones; a branch is reported
    deleted once, at the first attempt, if git lets it be deleted, and any
    later attempt on it fails because the branch is gone; and afterwards the
    repository has exactly the branches it had minus the deleted ones, with
    the worktree listing untouched. *)
Theorem branch_deletion_follows_stale_rows
  (env : Env) (w : World) (r : Repo) (names : list string)
  (Hrepo : repo w = Py.Returns r)
  (Hnames : branches r = Py.Returns names)
  (Hcommit : commit_raises env = None) :
  let candidates :=
    filter (fun b => in_ b names)
      (map Views.branch_of (find_stale_worktrees w r)) in
  let run := cleanup_stale_worktrees env false w in
  Views.delete_attempts (snd run) = candidates
  /\ Views.deleted_branches (snd run)
     = Views.first_occurrences [] (filter (Views.deletable env) candidates)
  /\ NoDup (Views.deleted_branches (snd run))
  /\ (forall b, In b (Views.deleted_branches (snd run))
                <-> In b candidates /\ Views.deletable env b = true)
  /\ exists r1,
       repo (fst run) = Py.Returns r1
       /\ worktree_list r1 = worktree_list r
       /\ branches r1
          = Py.Returns
              (filter (fun n => negb (existsb (String.eqb n)
                                        (filter (Views.deletable env)
                                           candidates)))
                      names).
Proof.
  intros candidates run.
  assert (Hmain :
    Views.delete_attempts (snd run) = candidates
    /\ Views.deleted_branches (snd run)
       = Views.first_occurrences [] (filter (Views.deletable env) candidates)
    /\ exists r1,
         repo (fst run) = Py.Returns r1
         /\ worktree_list r1 = worktree_list r
         /\ branches r1
            = Py.Returns
                (filter (fun n => negb (existsb (String.eqb n)
                                          (filter (Views.deletable env)
                                             candidates)))
                        names)).
  { subst run. unfold cleanup_stale_worktrees.
    rewrite Hrepo, Hcommit.
    destruct (find_stale_worktrees w r) as [|item items] eqn:Hstale.
    { subst candidates. cbn [map filter fst snd existsb negb
        Views.first_occurrences].
      split; [reflexivity|]. split; [reflexivity|].
      exists r. split; [assumption|]. split; [reflexivity|].
      now rewrite filter_all. }
    cbv zeta. rewrite fold_collect_branches, Hnames. cbn [app].
    fold candidates.
    assert (Hquiet : forall tail,
               Views.delete_attempts
                 (FoundStale (Z.of_nat (List.length (item :: items)))
                  :: map StaleLine (item :: items)
                     ++ CleaningUp
                        :: map (fun it => Marked (AgentWorktree.worktree_path
                                                    (worktree it)))
                             (item :: items)
                           ++ Commit
                              :: CleanedUp
                                   (Z.of_nat (List.length (item :: items)))
                                 :: CleaningBranches :: tail)
               = Views.delete_attempts tail
               /\ Views.deleted_branches
                    (FoundStale (Z.of_nat (List.length (item :: items)))
                     :: map StaleLine (item :: items)
                        ++ CleaningUp
                           :: map (fun it => Marked (AgentWorktree.worktree_path
                                                       (worktree it)))
                                (item :: items)
                              ++ Commit
                                 :: CleanedUp
                                      (Z.of_nat (List.length (item :: items)))
                                    :: CleaningBranches :: tail)
                  = Views.deleted_branches tail).
    { intros tail.
      change (FoundStale ?n :: ?l) with ([FoundStale n] ++ l).
      change (CleaningUp :: ?l) with ([CleaningUp] ++ l).
      change (Commit :: CleanedUp ?n :: CleaningBranches :: tail)
        with ([Commit; CleanedUp n; CleaningBranches] ++ tail).
      rewrite !delete_attempts_app, !deleted_branches_app.
      destruct (listing_is_quiet (item :: items)) as [-> [-> _]].
      destruct (marking_is_quiet (item :: items)) as [-> ->].
      split; reflexivity. }
    assert (Hpresent : forall b, In b candidates ->
                                 in_ b names = negb (in_ b [])).
    { intros b Hb. subst candidates. now apply filter_In in Hb as [_ ->]. }
    destruct candidates as [|b bs] eqn:Hcand.
    - cbn [fst snd].
      rewrite (proj1 (Hquiet _)), (proj2 (Hquiet _)).
      split; [reflexivity|]. split; [reflexivity|].
      exists r. split; [reflexivity|]. split; [reflexivity|].
      cbn [filter existsb negb]. now rewrite filter_all.
    - destruct (fold_delete_step env (b :: bs) r names
                  [FoundBranches (Z.of_nat (List.length (b :: bs)))] []
                  Hnames Hpresent)
        as [H1 [H2 H3]].
      pose proof (delete_keeps_listing env (b :: bs) r
                    [FoundBranches (Z.of_nat (List.length (b :: bs)))])
        as Hkeep.
      destruct (fold_left (delete_step env) (b :: bs)
                  (r, [FoundBranches (Z.of_nat (List.length (b :: bs)))]))
        as [r' deletions].
      cbn [fst snd] in *.
      rewrite (proj1 (Hquiet _)), (proj2 (Hquiet _)).
      rewrite delete_attempts_app, deleted_branches_app, H1, H2.
      cbn [Views.delete_attempts Views.deleted_branches flat_map app].
      rewrite !app_nil_r.
      split; [reflexivity|]. split; [reflexivity|].
      exists r'. split; [reflexivity|]. split; [exact Hkeep|exact H3]. }
  destruct Hmain as [Hattempts [Hdeleted Hrepo1]].
  split; [exact Hattempts|]. split; [exact Hdeleted|].
  split; [rewrite Hdeleted; apply first_occurrences_NoDup|].
  split; [|exact Hrepo1].
  intros b. rewrite Hdeleted, in_first_occurrences, filter_In.
  unfold in_. cbn [existsb]. tauto.
Qed.

Lemma branch_deletion_follows_stale_rows_witness :
  Views.delete_attempts
    (snd (cleanup_stale_worktrees Scenario.branch_is_protected false
            Scenario.checkout_7_gone)) = ["agent-7"]
  /\ Views.deleted_branches
       (snd (cleanup_stale_worktrees Scenario.branch_is_protected false
               Scenario.checkout_7_gone)) = []
  /\ Views.deleted_branches
       (snd (cleanup_stale_worktrees Scenario.cleanup_succeeds false
               Scenario.checkout_7_gone)) = ["agent-7"]
  /\ Views.delete_attempts
       (snd (cleanup_stale_worktrees Scenario.cleanup_succeeds false
               Scenario.two_rows_one_branch)) = ["agent-7"; "agent-7"]
  /\ Views.deleted_branches
       (snd (cleanup_stale_worktrees Scenario.cleanup_succeeds false
               Scenario.two_rows_one_branch)) = ["agent-7"].
Proof.
  destruct (branch_deletion_follows_stale_rows Scenario.branch_is_protected
              Scenario.checkout_7_gone Scenario.repo_without_wt7
              ["main"; "agent-1"; "agent-7"] eq_refl eq_refl eq_refl)
    as [Hattempts [Hprotected _]].
  destruct (branch_deletion_follows_stale_rows Scenario.cleanup_succeeds
              Scenario.checkout_7_gone Scenario.repo_without_wt7
              ["main"; "agent-1"; "agent-7"] eq_refl eq_refl eq_refl)
    as [_ [Hdeleted _]].
  destruct (branch_deletion_follows_stale_rows Scenario.cleanup_succeeds
              Scenario.two_rows_one_branch Scenario.repo_without_wt7
              ["main"; "agent-1"; "agent-7"] eq_refl eq_refl eq_refl)
    as [Htwice [Honce _]].
  split; [|split; [|split; [|split]]].
  - rewrite Hattempts. vm_compute. reflexivity.
  - rewrite Hprotected. vm_compute. reflexivity.
  - rewrite Hdeleted. vm_compute. reflexivity.
  - rewrite Htwice. vm_compute. reflexivity.
  - rewrite Honce. vm_compute. reflexivity.
Defined.

(** The shared branch, event by event: the first [git branch -D] deletes
    it, the second fails because it is gone. *)
Example shared_branch_is_deleted_once :
  filter (fun ev => match ev with
                    | BranchDelete _ | Deleted _ | DeleteFailed _ _ => true
                    | _ => false
                    end)
    (snd (cleanup_stale_worktrees Scenario.cleanup_succeeds false
            Scenario.two_rows_one_branch))
  = [BranchDelete "agent-7"; Deleted "agent-7";
     BranchDelete "agent-7";
     DeleteFailed "agent-7" "error: branch 'agent-7' not found."].
Proof. vm_compute. reflexivity. Qed.

End CleanupModes.

(* ================================================================= *)
(** * More on the stalled-agent restart *)
(* ================================================================= *)

Section RestartRequests.
Import Database RestartStalledAgents.

(** Projections of the event list that ignore the lines of the first
    loop, respectively the events of the termination loop. *)
Lemma collect_loop_is_quiet {B : Type} (f : Event -> list B) (db : Store)
  (l : list Agent.t) :
  (forall i s d, f (AgentLine i s d) = []) ->
  forall task_ids lines,
    flat_map f (snd (fold_left (collect_step db) l (task_ids, lines)))
    = flat_map f lines.
Proof.
  intros Hf. induction l as [|agent l IH]; intros task_ids lines;
    cbn [fold_left]; [reflexivity|].
  unfold collect_step at 2.
  destruct (Py.truthy (Agent.current_task_id agent));
    rewrite IH, flat_map_app; cbn [flat_map]; rewrite Hf;
    now rewrite !app_nil_r.
Qed.

Lemma terminate_loop_is_quiet {B : Type} (f : Event -> list B) (env : Env)
  (l : list Agent.t) :
  (forall i, f (Terminate i) = []) ->
  f Terminated = [] ->
  (forall i m, f (TerminateFailed i m) = []) ->
  forall db events,
    flat_map f (snd (fold_left (terminate_step env) l (db, events)))
    = flat_map f events.
Proof.
  intros H1 H2 H3. induction l as [|agent l IH]; intros db events;
    cbn [fold_left]; [reflexivity|].
  unfold terminate_step at 2.
  destruct (terminate_agent env (Agent.id agent) db) as [db' [e|]];
    rewrite IH, flat_map_app; cbn [flat_map]; rewrite H1, ?H2, ?H3;
    now rewrite !app_nil_r.
Qed.

(** The shape of a run with at least one selected agent. *)
Lemma restart_stalled_agents_shape (env : Env) (db : Store) :
  filter is_active (agents db) <> [] ->
  let selected := filter is_active (agents db) in
  let n := Z.of_nat (List.length selected) in
  let task_ids := Summary.collected_task_ids selected in
  let m := Z.of_nat (List.length task_ids) in
  snd (restart_stalled_agents env db)
  = snd (fold_left (collect_step db) selected ([], [FoundActive n]))
    ++ snd (fold_left (terminate_step env) selected (db, [Step1 n]))
    ++ [Sleep 2; Step2 m]
    ++ flat_map (restart_step env) task_ids
    ++ [Completed m; NewAgentsNote; Close].
Proof.
  intros Hne. cbv zeta. unfold restart_stalled_agents.
  destruct (filter is_active (agents db)) as [|a l] eqn:Hsel; [congruence|].
  cbv zeta.
  destruct (fold_collect_step db (a :: l) []
              [FoundActive (Z.of_nat (List.length (a :: l)))]) as [Hids _].
  destruct (fold_left (collect_step db) (a :: l)
              ([], [FoundActive (Z.of_nat (List.length (a :: l)))]))
    as [task_ids lines].
  destruct (fold_left (terminate_step env) (a :: l)
              (db, [Step1 (Z.of_nat (List.length (a :: l)))]))
    as [db' terminations].
  cbn [fst snd app] in *. now rewrite Hids.
Qed.

Lemma restart_steps_are_quiet (env : Env) (task_ids : list string) :
  Views.pauses (flat_map (restart_step env) task_ids) = [].
Proof.
  induction task_ids as [|t l IH]; simpl; [reflexivity|].
  unfold Views.pauses in *. rewrite flat_map_app, IH.
  destruct (restart_task env t) as [a|m|c d|m|e]; try destruct (c =? 400);
    reflexivity.
Qed.

(** The calls of any run. *)
Lemma calls_of_run (env : Env) (db : Store) :
  Summary.terminate_calls (snd (restart_stalled_agents env db))
  = map Agent.id (filter is_active (agents db))
  /\ Summary.restart_calls (snd (restart_stalled_agents env db))
     = Summary.collected_task_ids (filter is_active (agents db)).
Proof.
  destruct (filter is_active (agents db)) as [|a l] eqn:Hs.
  - unfold restart_stalled_agents. rewrite Hs. split; reflexivity.
  - assert (Hne : filter is_active (agents db) <> [])
      by (rewrite Hs; discriminate).
    destruct (restart_stalled_agents_events env db Hne)
      as [before [after [Hev [Hbt [Hbr [Hat Har]]]]]].
    rewrite Hs in Hbt, Har. rewrite Hev.
    change (Sleep 2 :: after) with ([Sleep 2] ++ after).
    rewrite !terminate_calls_app, !restart_calls_app, Hbt, Hbr, Hat, Har.
    split; [simpl; now rewrite app_nil_r|reflexivity].
Qed.

(** X16. When no agent has status [working], [running] or [stuck],
    [restart_stalled_agents] does nothing: it leaves the store as it is and
    makes no termination request, no pause and no restart request. *)
Theorem nothing_to_restart (env : Env) (db : Store)
  (Hnone : forall agent,
      In agent (agents db) ->
      Agent.status agent <> "working" /\ Agent.status agent <> "running"
      /\ Agent.status agent <> "stuck") :
  restart_stalled_agents env db = (db, [NoActiveAgentsFound; Close]).
Proof.
  unfold restart_stalled_agents.
  assert (Hsel : filter is_active (agents db) = []).
  { destruct (filter is_active (agents db)) as [|a l] eqn:Hf; [reflexivity|].
    assert (Ha : In a (filter is_active (agents db)))
      by (rewrite Hf; now left).
    apply filter_In in Ha as [Hin Hact]. apply is_active_iff in Hact.
    destruct (Hnone a Hin) as [H1 [H2 H3]]. tauto. }
  now rewrite Hsel.
Qed.

Lemma nothing_to_restart_witness :
  restart_stalled_agents Scenario.control_plane Scenario.finished
  = (Scenario.finished, [NoActiveAgentsFound; Close]).
Proof.
  apply nothing_to_restart. intros agent [].
Defined.

(** X17. A run pauses exactly once, for two seconds, when at least one
    agent was selected (also when no task is to be restarted), and not at
    all otherwise; and it never requests more restarts than it requested
    terminations. *)
Theorem one_pause_per_run (env : Env) (db : Store) :
  let events := snd (restart_stalled_agents env db) in
  Views.pauses events
  = match filter is_active (agents db) with
    | [] => []
    | _ :: _ => [2]
    end
  /\ (List.length (Summary.restart_calls events)
      <= List.length (Summary.terminate_calls events))%nat.
Proof.
  intros events. split.
  - subst events.
    destruct (filter is_active (agents db)) as [|a l] eqn:Hs.
    + unfold restart_stalled_agents. now rewrite Hs.
    + assert (Hne : filter is_active (agents db) <> [])
        by (rewrite Hs; discriminate).
      rewrite (restart_stalled_agents_shape env db Hne). cbv zeta.
      unfold Views.pauses. rewrite !flat_map_app.
      rewrite (collect_loop_is_quiet _ db) by reflexivity.
      rewrite (terminate_loop_is_quiet _ env) by reflexivity.
      fold (Views.pauses (flat_map (restart_step env)
                            (Summary.collected_task_ids
                               (filter is_active (agents db))))).
      rewrite restart_steps_are_quiet. reflexivity.
  - subst events. destruct (calls_of_run env db) as [-> ->].
    rewrite length_map.
    induction (filter is_active (agents db)) as [|a l IH]; simpl; [lia|].
    rewrite length_app.
    destruct (Py.truthy (Agent.current_task_id a)); simpl; lia.
Qed.

(** X18. Restart requests are not deduplicated: a task id (other than
    the empty string) is submitted for restart once for every selected agent
    whose [current_task_id] it is. *)
Theorem restarts_follow_attachments (env : Env) (db : Store)
  (task_id : string) (Hid : task_id <> "") :
  count_occ string_dec
    (Summary.restart_calls (snd (restart_stalled_agents env db))) task_id
  = List.length
      (filter (fun agent => CheckWorkflowStatus.eq_str
                              (Agent.current_task_id agent) task_id)
              (filter is_active (agents db))).
Proof.
  destruct (calls_of_run env db) as [_ ->].
  induction (filter is_active (agents db)) as [|a l IH]; [reflexivity|].
  cbn [Summary.collected_task_ids flat_map filter].
  fold (Summary.collected_task_ids l). rewrite count_occ_app, IH.
  destruct (Agent.current_task_id a) as [[|c t]|];
    cbn [Py.truthy Py.get CheckWorkflowStatus.eq_str count_occ].
  - assert (Hne : String.eqb "" task_id = false)
      by (apply String.eqb_neq; congruence).
    now rewrite Hne.
  - destruct (string_dec (String c t) task_id) as [Heq|Hneq].
    + apply String.eqb_eq in Heq. now rewrite Heq.
    + apply String.eqb_neq in Hneq. now rewrite Hneq.
  - reflexivity.
Qed.

Lemma restarts_follow_attachments_witness :
  count_occ string_dec
    (Summary.restart_calls
       (snd (restart_stalled_agents Scenario.control_plane
               {| workflows := [];
                  phases := [];
                  tasks := [];
                  workflow_results := [];
                  agents := [ {| Agent.id := "a1"; Agent.status := "working";
                                 Agent.current_task_id := Some "t1" |};
                              {| Agent.id := "a2"; Agent.status := "stuck";
                                 Agent.current_task_id := Some "t1" |} ];
                  worktrees := [] |})))
    "t1" = 2%nat.
Proof.
  rewrite restarts_follow_attachments by discriminate. reflexivity.
Defined.

Lemma not_ready_of_steps (env : Env) (task_ids : list string) :
  Views.not_ready_reports (flat_map (restart_step env) task_ids)
  = flat_map (fun t => match restart_task env t with
                       | HTTPStatusError status_code detail =>
                           if status_code =? 400 then [detail] else []
                       | _ => []
                       end) task_ids.
Proof.
  induction task_ids as [|t l IH]; [reflexivity|].
  cbn [flat_map]. unfold Views.not_ready_reports in *.
  rewrite flat_map_app, IH. f_equal.
  unfold restart_step.
  destruct (restart_task env t) as [a|m|c d|m|e]; try destruct (c =? 400);
    reflexivity.
Qed.

(** X19. A restart is reported as "not ready" exactly for the requests
    the control plane rejects with HTTP status 400, one report per such
    request, in request order, carrying the detail of the rejection; every
    other failure (another status, a request error, any other exception) is
    reported differently. *)
Theorem not_ready_means_status_400 (env : Env) (db : Store) :
  let events := snd (restart_stalled_agents env db) in
  Views.not_ready_reports events
  = flat_map (fun t => match restart_task env t with
                       | HTTPStatusError status_code detail =>
                           if status_code =? 400 then [detail] else []
                       | _ => []
                       end) (Summary.restart_calls events).
Proof.
  intros events. subst events.
  destruct (calls_of_run env db) as [_ ->].
  destruct (filter is_active (agents db)) as [|a l] eqn:Hs.
  - unfold restart_stalled_agents. now rewrite Hs.
  - assert (Hne : filter is_active (agents db) <> [])
      by (rewrite Hs; discriminate).
    rewrite (restart_stalled_agents_shape env db Hne). cbv zeta.
    rewrite Hs. unfold Views.not_ready_reports. rewrite !flat_map_app.
    rewrite (collect_loop_is_quiet _ db) by reflexivity.
    rewrite (terminate_loop_is_quiet _ env) by reflexivity.
    fold (Views.not_ready_reports
            (flat_map (restart_step env)
               (Summary.collected_task_ids (a :: l)))).
    rewrite not_ready_of_steps. cbn [flat_map app]. now rewrite app_nil_r.
Qed.

Lemma one_pause_per_run_witness :
  Views.pauses
    (snd (restart_stalled_agents Scenario.control_plane Scenario.running))
  = [2]
  /\ Views.not_ready_reports
       (snd (restart_stalled_agents Scenario.control_plane Scenario.running))
     = ["task is not failed"].
Proof.
  split.
  - rewrite (proj1 (one_pause_per_run Scenario.control_plane
                      Scenario.running)). reflexivity.
  - vm_compute. reflexivity.
Defined.

Lemma not_ready_means_status_400_witness :
  Views.not_ready_reports
    (snd (restart_stalled_agents Scenario.control_plane Scenario.running))
  = ["task is not failed"].
Proof.
  rewrite (not_ready_means_status_400 Scenario.control_plane
             Scenario.running).
  vm_compute. reflexivity.
Defined.

End RestartRequests.

(* ================================================================= *)
(** * Provider and API key *)
(* ================================================================= *)

Section ProviderKey.
Import SimpleConfig.

(** X20. [validate] and [get_api_key] fit together: [validate] returns
    exactly when [get_api_key] gives a non-empty key or the provider is
    neither [openai] nor [anthropic]; for such another provider
    [get_api_key] gives [None] and [validate] still returns; and when
    [validate] raises, the message names the key of the configured
    provider. *)
Theorem validated_config_has_its_key (self : Config) :
  (validate self = ReturnsTrue
   <-> (exists key, get_api_key self = Some key /\ key <> "")
       \/ (llm_provider self <> "openai"
           /\ llm_provider self <> "anthropic"))
  /\ (llm_provider self <> "openai" -> llm_provider self <> "anthropic" ->
      get_api_key self = None /\ validate self = ReturnsTrue)
  /\ (forall message,
         validate self = ValueError message ->
         (llm_provider self = "openai"
          /\ message
             = "OPENAI_API_KEY is required when using OpenAI provider")
         \/ (llm_provider self = "anthropic"
             /\ message
                = "ANTHROPIC_API_KEY is required when using Anthropic provider")).
Proof.
  destruct self as [provider openai anthropic].
  unfold validate, get_api_key. cbn [llm_provider openai_api_key
    anthropic_api_key].
  destruct (String.eqb provider "openai") eqn:Ho.
  - apply String.eqb_eq in Ho. subst provider. cbn [andb String.eqb].
    split; [|split].
    + destruct openai as [[|c k]|]; cbn [Py.truthy negb]; split.
      * discriminate.
      * intros [[key [Hk Hne]]|[Hne _]]; [|congruence].
        injection Hk as <-. congruence.
      * intros _. left. exists (String c k). split; [reflexivity|discriminate].
      * reflexivity.
      * discriminate.
      * intros [[key [Hk _]]|[Hne _]]; [discriminate|congruence].
    + intros Hne. congruence.
    + intros message.
      destruct (negb (Py.truthy openai)); [|discriminate].
      intros H. injection H as <-. left. split; reflexivity.
  - apply String.eqb_neq in Ho. cbn [andb].
    destruct (String.eqb provider "anthropic") eqn:Ha.
    + apply String.eqb_eq in Ha. subst provider. cbn [andb].
      split; [|split].
      * destruct anthropic as [[|c k]|]; cbn [Py.truthy negb]; split.
        -- discriminate.
        -- intros [[key [Hk Hne]]|[_ Hne]]; [|congruence].
           injection Hk as <-. congruence.
        -- intros _. left. exists (String c k).
           split; [reflexivity|discriminate].
        -- reflexivity.
        -- discriminate.
        -- intros [[key [Hk _]]|[_ Hne]]; [discriminate|congruence].
      * intros _ Hne. congruence.
      * intros message.
        destruct (negb (Py.truthy anthropic)); [|discriminate].
        intros H. injection H as <-. right. split; reflexivity.
    + apply String.eqb_neq in Ha. cbn [andb].
      split; [|split].
      * split; [|reflexivity]. intros _. right. split; assumption.
      * intros _ _. split; reflexivity.
      * intros message H. discriminate H.
Qed.

Lemma validated_config_has_its_key_witness :
  get_api_key {| llm_provider := "openrouter";
                 openai_api_key := Some "sk-1";
                 anthropic_api_key := None |} = None
  /\ validate {| llm_provider := "openrouter";
                 openai_api_key := Some "sk-1";
                 anthropic_api_key := None |} = ReturnsTrue.
Proof.
  apply (proj1 (proj2 (validated_config_has_its_key
                         {| llm_provider := "openrouter";
                            openai_api_key := Some "sk-1";
                            anthropic_api_key := None |})));
    discriminate.
Defined.

End ProviderKey.
